(** * Holiday task management backend: the Lambda handlers

    A shallow embedding of the three request handlers of the serverless
    backend and of the notification helpers they call:

    - [lambda/task/handler.py]          ([TaskHandler])
    - [lambda/task/notifications.py]    ([Notifications])
    - [lambda/user/handler.py]          ([UserHandler])
    - [lambda/deadline/handler.py]      ([DeadlineHandler])

    The handlers are Python functions that talk to three managed services
    (a DynamoDB table, a Cognito user pool, SES and SNS).  Python values are
    a small inductive type with Python's truthiness and equality, a run of a
    handler is a computation in a state, trace and exception monad, and the
    services are an environment record: the table is the state, every call
    made to a service is written to the trace, and what a service answers
    (or the exception it raises) is read from the environment. *)

From Stdlib Require Import ZArith.
From stdpp Require Import base numbers strings list gmap fin_maps.

Local Open Scope string_scope.
#[local] Set Warnings "-register-all,-notation-for-abbreviation".
Local Open Scope Z_scope.
Local Open Scope list_scope.

(** ** Python values *)

(** What [json.loads] produces and what the table stores as attribute
    values.  Numbers are integers; floating point literals are left out.
    The keys of a [VDict] are pairwise distinct, as in a Python [dict]. *)
Inductive pyval : Type :=
| VNone
| VBool (b : bool)
| VInt (z : Z)
| VStr (s : string)
| VList (l : list pyval)
| VDict (d : list (string * pyval)).

(** [bool(v)], the test behind [if v] and [not v]. *)
Definition truthy (v : pyval) : bool :=
  match v with
  | VNone => false
  | VBool b => b
  | VInt z => negb (Z.eqb z 0)
  | VStr s => negb (String.eqb s "")
  | VList l => negb (Nat.eqb (length l) 0)
  | VDict d => negb (Nat.eqb (length d) 0)
  end.

(** [d[k]] on the bindings of a dict. *)
Fixpoint assoc {A : Type} (k : string) (d : list (string * A)) : option A :=
  match d with
  | [] => None
  | (k', v) :: d' => if String.eqb k k' then Some v else assoc k d'
  end.

(** [a == b].  [True == 1] and [False == 0] hold in Python; lists compare
    pointwise and dicts compare as maps. *)
Fixpoint py_eq (a b : pyval) {struct a} : bool :=
  match a, b with
  | VNone, VNone => true
  | VBool x, VBool y => Bool.eqb x y
  | VBool x, VInt y => Z.eqb (Z.b2z x) y
  | VInt x, VBool y => Z.eqb x (Z.b2z y)
  | VInt x, VInt y => Z.eqb x y
  | VStr x, VStr y => String.eqb x y
  | VList xs, VList ys =>
      (fix go (xs ys : list pyval) {struct xs} : bool :=
         match xs, ys with
         | [], [] => true
         | x :: xs', y :: ys' => py_eq x y && go xs' ys'
         | _, _ => false
         end) xs ys
  | VDict xs, VDict ys =>
      Nat.eqb (length xs) (length ys) &&
      (fix go (xs : list (string * pyval)) {struct xs} : bool :=
         match xs with
         | [] => true
         | (k, v) :: xs' =>
             match assoc k ys with
             | Some v' => py_eq v v'
             | None => false
             end && go xs'
         end) xs
  | _, _ => false
  end.

(** [bool(o)] for a value that is a string or [None], such as
    [os.environ.get(NAME)]. *)
Definition opt_truthy (o : option string) : bool :=
  match o with
  | Some s => negb (String.eqb s "")
  | None => false
  end.

(** [a != b]. *)
Definition py_ne (a b : pyval) : bool := negb (py_eq a b).

(** ** Exceptions and outcomes *)

(** The exceptions a run can meet.  [ClientError] is botocore's, its text is
    whatever the service reported; [OtherError] is any other exception of
    the client library (a parameter that fails validation, a timeout). *)
Inductive exn : Type :=
| KeyError (key : string)
| TypeError (msg : string)
| AttributeError (msg : string)
| JSONDecodeError
| ClientError (msg : string)
| OtherError (msg : string).

Inductive outcome (A : Type) : Type :=
| Ret (a : A)
| Raise (e : exn).
Arguments Ret {A} a.
Arguments Raise {A} e.

(** [d.get(k)] : [None] when the key is absent; only a dict has [get]. *)
Definition py_get (d : pyval) (k : string) : outcome pyval :=
  match d with
  | VDict l => Ret (default VNone (assoc k l))
  | _ => Raise (AttributeError "object has no attribute 'get'")
  end.

(** [d[k]] with a string key. *)
Definition py_index (d : pyval) (k : string) : outcome pyval :=
  match d with
  | VDict l =>
      match assoc k l with
      | Some v => Ret v
      | None => Raise (KeyError k)
      end
  | _ => Raise (TypeError "indices must be integers or the object is not subscriptable")
  end.

(** A string is kept as the bytes of its UTF-8 encoding, a Python [str] is
    a sequence of characters (code points).  A byte [10xxxxxx] continues
    the character begun before it; every other byte begins one. *)
Definition continues_char (c : Ascii.ascii) : bool :=
  match c with
  | Ascii.Ascii _ _ _ _ _ _ b6 b7 => b7 && negb b6
  end.

(** [s[:n]] : the first [n] characters of [s], each with all its bytes. *)
Fixpoint py_take_chars (n : nat) (s : string) : string :=
  match s with
  | EmptyString => EmptyString
  | String c s' =>
      if continues_char c then String c (py_take_chars n s')
      else
        match n with
        | O => EmptyString
        | S n' => String c (py_take_chars n' s')
        end
  end.

(** [v[:50]] : strings and lists can be sliced, nothing else can. *)
Definition py_slice50 (v : pyval) : outcome pyval :=
  match v with
  | VStr s => Ret (VStr (py_take_chars 50 s))
  | VList l => Ret (VList (take 50 l))
  | _ => Raise (TypeError "object is not subscriptable")
  end.

(** The line feed, written [\n] in a Python string literal. *)
Definition newline : string := String (Ascii.ascii_of_nat 10) EmptyString.

(** An f-string: literal pieces and formatted values, in order.  The text is
    the concatenation of the pieces with [str()] applied to the values; the
    embedding keeps the pieces. *)
Inductive fpart : Type :=
| Lit (s : string)
| Fmt (v : pyval)
| FmtExn (e : exn).
Definition fstring : Type := list fpart.

(** ** Records of the services *)

(** A task record, a Python [dict] with string keys. *)
Notation item := (gmap string pyval).

(** [it.get(k)]. *)
Definition item_get (it : item) (k : string) : pyval := default VNone (it !! k).

(** [it[k]]. *)
Definition item_index (it : item) (k : string) : outcome pyval :=
  match it !! k with
  | Some v => Ret v
  | None => Raise (KeyError k)
  end.

(** A user as [list_users] reports it. *)
Record cognito_user : Type := {
  Username : string;
  Attributes : list (string * string);
  Enabled : bool;
  UserStatus : string
}.

(** [next((attr['Value'] for attr in attrs if attr['Name'] == name), None)] *)
Fixpoint first_attr (name : string) (attrs : list (string * string)) : option string :=
  match attrs with
  | [] => None
  | (n, v) :: attrs' => if String.eqb n name then Some v else first_attr name attrs'
  end.

(** The message handed to [ses_client.send_email]. *)
Record email : Type := {
  Source : string;
  ToAddresses : list string;
  Subject : string;
  Text : fstring
}.

(** The message handed to [sns.publish]. *)
Record sns_message : Type := {
  TopicArn : string;
  Message : fstring;
  SnsSubject : option fstring
}.

(** The arguments of [admin_create_user]. *)
Record new_user : Type := {
  NewUsername : pyval;
  UserAttributes : list (string * pyval);
  TemporaryPassword : pyval;
  DesiredDeliveryMediums : list string
}.

(** ** Calls to the services *)

Inductive call : Type :=
| DdbScan (filter_assignedTo : option string)
| DdbGetItem (key : pyval)
| DdbPutItem (it : item)
| CognitoListUsersBySub (sub : pyval)
| CognitoListUsers
| CognitoAdminGetUser (username : pyval)
| CognitoAdminListGroupsForUser (username : string)
| CognitoAdminCreateUser (u : new_user)
| CognitoAdminAddUserToGroup (username : pyval) (group : string)
| SesSendEmail (m : email)
| SnsPublish (m : sns_message).

(** A trace entry: the call and whether it returned ([true]) or raised. *)
Definition event : Type := call * bool.

(** ** The environment of a run *)

(** The process environment, the clock, and the answers of the services.
    A fault is the exception the call raises, [None] when it goes through. *)
Record env : Type := {
  SENDER_EMAIL_ADDRESS : option string;
  NOTIFICATION_TOPIC_ARN : option string;
  USER_POOL_ID : option string;
  (** [datetime.now(timezone.utc).isoformat()], the n-th reading of a run *)
  utcnow_isoformat : nat -> string;
  (** [(now + timedelta(hours=1)).isoformat()] for the n-th reading *)
  plus_one_hour_isoformat : nat -> string;
  (** [str(uuid.uuid4())] *)
  uuid4 : string;
  ddb_scan_fault : option exn;
  ddb_get_item_fault : pyval -> option exn;
  ddb_put_item_fault : item -> option exn;
  cognito_list_users_by_sub : pyval -> outcome (list cognito_user);
  cognito_list_users : outcome (list cognito_user);
  cognito_admin_get_user : pyval -> outcome (list (string * string));
  cognito_admin_list_groups_for_user : string -> outcome (list string);
  cognito_admin_create_user_fault : new_user -> option exn;
  cognito_admin_add_user_to_group_fault : pyval -> string -> option exn;
  ses_send_email_fault : email -> option exn;
  sns_publish_fault : sns_message -> option exn
}.

(** ** The table *)

(** The table is keyed by the string attribute [taskId] (its partition key).
    Under a key it keeps the other attributes of the record; a read hands
    the record back with its key. *)
Notation table := (gmap string (gmap string pyval)).

Definition with_key (k : string) (attrs : gmap string pyval) : item :=
  <["taskId" := VStr k]> attrs.

(** The record under a key, if any. *)
Definition stored (t : table) (k : string) : option item := with_key k <$> t !! k.

(** All records of the table, in the table's order. *)
Definition records (t : table) : list item :=
  (fun ka : string * gmap string pyval => with_key ka.1 ka.2) <$> map_to_list t.

(** *** [json.dumps] of what the table handed back

    The table hands a number back as a [decimal.Decimal].  Such a number
    counts as true, compares and is formatted like the integer that was
    written, so the embedding keeps it as a [VInt]; but [json.dumps], which
    writes an [int] of the request, refuses a [Decimal].  The difference is
    kept where it shows: [json.dumps] of a record that was read from the
    table raises when an attribute of the record, at any depth, is a
    number, unless the handler has since given that attribute a value of
    its own. *)
Fixpoint holds_number (v : pyval) : bool :=
  match v with
  | VInt _ => true
  | VList l =>
      (fix go (l : list pyval) : bool :=
         match l with
         | [] => false
         | x :: l' => holds_number x || go l'
         end) l
  | VDict d =>
      (fix go (d : list (string * pyval)) : bool :=
         match d with
         | [] => false
         | (_, x) :: d' => holds_number x || go d'
         end) d
  | _ => false
  end.

(** No attribute of the record holds a number. *)
Definition no_number (it : item) : bool :=
  bool_decide (map_Forall (fun (_ : string) (v : pyval) => holds_number v = false) it).

Definition not_serializable : exn :=
  TypeError "Object of type Decimal is not JSON serializable".

(** [json.dumps] of records read from the table, after the handler has
    given their attributes [assigned] values of the request or of its own:
    the text is not modelled, the exception is. *)
Definition json_dumps_read (assigned : list string) (its : list item) : outcome unit :=
  if forallb (fun it : item => no_number (foldr delete it assigned)) its
  then Ret tt
  else Raise not_serializable.

(** The filter expression [assignedTo = :user_sub] with a string value. *)
Definition assignedTo_is (user_sub : string) (it : item) : bool :=
  match it !! "assignedTo" with
  | Some (VStr s) => String.eqb s user_sub
  | _ => false
  end.

(** ** Runs *)

(** A computation reads the table and returns an outcome, the table after
    it, and the calls it made. *)
Definition M (A : Type) : Type := table -> outcome A * table * list event.

Definition ret {A} (a : A) : M A := fun t => (Ret a, t, []).
Definition raise {A} (e : exn) : M A := fun t => (Raise e, t, []).
Definition bind {A B} (m : M A) (f : A -> M B) : M B :=
  fun t =>
    match m t with
    | (Ret a, t1, tr1) =>
        match f a t1 with
        | (r, t2, tr2) => (r, t2, (tr1 ++ tr2)%list)
        end
    | (Raise e, t1, tr1) => (Raise e, t1, tr1)
    end.

(** [try: m except Exception as e: ...] : the exception becomes a value. *)
Definition attempt {A} (m : M A) : M (outcome A) :=
  fun t => match m t with (r, t1, tr1) => (Ret r, t1, tr1) end.

(** An outcome computed without any call. *)
Definition lift {A} (o : outcome A) : M A :=
  match o with
  | Ret a => ret a
  | Raise e => raise e
  end.

Definition emit (c : call) (ok : bool) : M unit := fun t => (Ret tt, t, [(c, ok)]).
Definition get_table : M table := fun t => (Ret t, t, []).
Definition set_table (t' : table) : M unit := fun _ => (Ret tt, t', []).

Declare Scope py_scope.
Delimit Scope py_scope with py.
Notation "x <- m ;; k" := (bind m (fun x => k))
  (at level 100, m at next level, right associativity) : py_scope.
Notation "m ;; k" := (bind m (fun _ => k))
  (at level 100, right associativity) : py_scope.
Local Open Scope py_scope.

(** ** The service clients *)

Section Services.
Context (E : env).

(** [table.scan()] and [table.scan(FilterExpression='assignedTo = :user_sub')].
    The scan answers with every record of the table that passes the
    filter. *)
Definition ddb_scan (filter_assignedTo : option string) : M (list item) :=
  match ddb_scan_fault E with
  | Some e => emit (DdbScan filter_assignedTo) false ;; raise e
  | None =>
      emit (DdbScan filter_assignedTo) true ;;
      t <- get_table ;;
      ret (match filter_assignedTo with
           | None => records t
           | Some user_sub => List.filter (assignedTo_is user_sub) (records t)
           end)
  end.

(** [table.get_item(Key={'taskId': key}).get('Item')].  The key attribute
    is a string; the table refuses a key of another type. *)
Definition ddb_get_item (key : pyval) : M (option item) :=
  match ddb_get_item_fault E key with
  | Some e => emit (DdbGetItem key) false ;; raise e
  | None =>
      match key with
      | VStr k =>
          emit (DdbGetItem key) true ;;
          t <- get_table ;;
          ret (stored t k)
      | _ =>
          emit (DdbGetItem key) false ;;
          raise (ClientError "ValidationException: the key does not match the schema")
      end
  end.

(** [table.put_item(Item=it)] : the record replaces whatever the table
    holds under its key. *)
Definition ddb_put_item (it : item) : M unit :=
  match ddb_put_item_fault E it with
  | Some e => emit (DdbPutItem it) false ;; raise e
  | None =>
      match it !! "taskId" with
      | Some (VStr k) =>
          emit (DdbPutItem it) true ;;
          t <- get_table ;;
          set_table (<[k := delete "taskId" it]> t)
      | _ =>
          emit (DdbPutItem it) false ;;
          raise (ClientError "ValidationException: the key is missing or does not match the schema")
      end
  end.

(** A read of the directory: the answer is the environment's. *)
Definition directory_read {A} (c : call) (answer : outcome A) : M A :=
  match answer with
  | Ret a => emit c true ;; ret a
  | Raise e => emit c false ;; raise e
  end.

(** A call that changes a service or sends something. *)
Definition service_write (c : call) (fault : option exn) : M unit :=
  match fault with
  | None => emit c true
  | Some e => emit c false ;; raise e
  end.

(** [cognito_client.list_users(UserPoolId=..., Filter=f'sub = "{sub}"')['Users']] *)
Definition list_users_by_sub (sub : pyval) : M (list cognito_user) :=
  directory_read (CognitoListUsersBySub sub) (cognito_list_users_by_sub E sub).

(** [cognito_client.list_users(UserPoolId=...)['Users']] *)
Definition list_users : M (list cognito_user) :=
  directory_read CognitoListUsers (cognito_list_users E).

(** [cognito_client.admin_get_user(...)['UserAttributes']] *)
Definition admin_get_user (username : pyval) : M (list (string * string)) :=
  directory_read (CognitoAdminGetUser username) (cognito_admin_get_user E username).

(** The group names of [cognito_client.admin_list_groups_for_user(...)['Groups']] *)
Definition admin_list_groups_for_user (username : string) : M (list string) :=
  directory_read (CognitoAdminListGroupsForUser username)
                 (cognito_admin_list_groups_for_user E username).

Definition admin_create_user (u : new_user) : M unit :=
  service_write (CognitoAdminCreateUser u) (cognito_admin_create_user_fault E u).

Definition admin_add_user_to_group (username : pyval) (group : string) : M unit :=
  service_write (CognitoAdminAddUserToGroup username group)
                (cognito_admin_add_user_to_group_fault E username group).

Definition ses_send_email (m : email) : M unit :=
  service_write (SesSendEmail m) (ses_send_email_fault E m).

Definition sns_publish (m : sns_message) : M unit :=
  service_write (SnsPublish m) (sns_publish_fault E m).
End Services.

(** ** Names of the [datetime] module *)

(** The objects the handlers reach through [datetime]: the UTC time zone,
    class constants, and methods (by name). *)
Inductive pyobj : Type :=
| ObjTimezoneUtc
| ObjClassConstant (owner name : string)
| ObjMethod (owner name : string).

(** The public names of the class [datetime.datetime]. *)
Definition datetime_class_constants : list string := ["min"; "max"; "resolution"].
Definition datetime_class_members : list string :=
  ["today"; "now"; "utcnow"; "fromtimestamp"; "utcfromtimestamp"; "fromordinal";
   "combine"; "fromisoformat"; "fromisocalendar"; "strptime"; "strftime";
   "year"; "month"; "day"; "hour"; "minute"; "second"; "microsecond"; "tzinfo";
   "fold"; "replace"; "astimezone"; "date"; "time"; "timetz"; "utcoffset"; "dst";
   "tzname"; "timetuple"; "utctimetuple"; "toordinal"; "timestamp"; "weekday";
   "isoweekday"; "isocalendar"; "isoformat"; "ctime"].

(** [datetime.<name>] where [datetime] is the class, as after
    [from datetime import datetime].  The constant [UTC] is a name of the
    module [datetime], not of the class. *)
Definition datetime_class_getattr (name : string) : outcome pyobj :=
  if bool_decide (name ∈ datetime_class_constants) then Ret (ObjClassConstant "datetime" name)
  else if bool_decide (name ∈ datetime_class_members) then Ret (ObjMethod "datetime" name)
  else Raise (AttributeError ("type object 'datetime.datetime' has no attribute '" +:+ name +:+ "'")).

(** [timezone.<name>] where [timezone] is the class [datetime.timezone]. *)
Definition timezone_class_getattr (name : string) : outcome pyobj :=
  if String.eqb name "utc" then Ret ObjTimezoneUtc
  else if bool_decide (name ∈ ["min"; "max"]) then Ret (ObjClassConstant "timezone" name)
  else if bool_decide (name ∈ ["utcoffset"; "tzname"; "dst"; "fromutc"]) then Ret (ObjMethod "timezone" name)
  else Raise (AttributeError ("type object 'datetime.timezone' has no attribute '" +:+ name +:+ "'")).

(** [datetime.now(tz)] : the argument must be a time zone.  The result is
    the index of the clock reading. *)
Definition datetime_now (tz : pyobj) (reading : nat) : outcome nat :=
  match tz with
  | ObjTimezoneUtc => Ret reading
  | _ => Raise (TypeError "tzinfo argument must be None or of a tzinfo subclass")
  end.

(** ** Responses *)

(** One listed user of [GET /users]. *)
Record user_entry : Type := {
  entry_username : string;
  entry_attributes : gmap string string;
  entry_enabled : bool;
  entry_userStatus : string;
  entry_groups : list string
}.

(** The value handed to [json.dumps] for the body of a response. *)
Inductive json_body : Type :=
| JMessage (msg : fstring)              (* {'message': msg} *)
| JError (msg : fstring)                (* {'error': msg} *)
| JItems (l : list item)                (* a list of records *)
| JItem (it : item)                     (* one record *)
| JUpdated (msg : fstring) (it : item)  (* {'message': msg, 'updatedTask': it} *)
| JAlerts (l : list fstring)            (* {'alertsSent': l} *)
| JUsers (l : list user_entry).         (* a list of users *)

(** The dict a handler returns; [headers] is [None] when the key is absent. *)
Record response : Type := {
  statusCode : Z;
  headers : option (gmap string string);
  body : json_body
}.

(** The [body] entry of the event, for [json.loads]. *)
Inductive body_field : Type :=
| NoBodyKey                        (* the event has no 'body' key *)
| BodyNull                         (* 'body': None *)
| BodyText (parsed : option pyval). (* a string; [None] when it is not JSON *)

(** [json.loads(s)] of a body that is there. *)
Definition json_loads (b : body_field) : outcome pyval :=
  match b with
  | NoBodyKey => Raise (KeyError "body")
  | BodyNull => Raise (TypeError "the JSON object must be str, bytes or bytearray, not NoneType")
  | BodyText None => Raise JSONDecodeError
  | BodyText (Some v) => Ret v
  end.

(** The claims the gateway's authorizer attaches to a request; the groups
    claim may be absent. *)
Record claims : Type := {
  cognito_username : string;
  sub : string;
  cognito_groups : option (list string)
}.

Record event_t : Type := {
  httpMethod : string;
  authorizer_claims : claims;
  event_body : body_field
}.

Definition DEFAULT_CORS_HEADERS : gmap string string :=
  list_to_map
    [("Access-Control-Allow-Origin", "*");
     ("Access-Control-Allow-Headers",
      "Content-Type,X-Amz-Date,Authorization,X-Api-Key,X-Amz-Security-Token");
     ("Access-Control-Allow-Methods", "GET,POST,PUT,OPTIONS")].

(** ['admin' in groups] *)
Definition in_groups (g : string) (groups : list string) : bool :=
  bool_decide (g ∈ groups).

(** * lambda/task/notifications.py *)

Module Notifications.
Section WithEnv.
Context (E : env).

(** The clients made when the module is loaded: each exists only if its
    environment variable is set. *)
Definition ses_client : bool := opt_truthy (SENDER_EMAIL_ADDRESS E).
Definition sns_client : bool := opt_truthy (NOTIFICATION_TOPIC_ARN E).
Definition cognito_client : bool := opt_truthy (USER_POOL_ID E).

Definition send_task_assignment_email
    (recipient_email : string) (task_description task_deadline : pyval)
    (assignee_username : string) : M bool :=
  if negb ses_client then ret false
  else if String.eqb recipient_email "" then ret false
  else
    r <- attempt (ses_send_email E
           {| Source := default "" (SENDER_EMAIL_ADDRESS E);
              ToAddresses := [recipient_email];
              Subject := "New Task Assigned to You";
              Text :=
                [Lit "Hello ";
                 Fmt (VStr (if String.eqb assignee_username "" then "User"
                            else assignee_username));
                 Lit ("," +:+ newline +:+ newline +:+ "A new task '");
                 Fmt task_description;
                 Lit ("' has been assigned to you." +:+ newline +:+ "Deadline: ");
                 Fmt task_deadline;
                 Lit (newline +:+ newline +:+ "Thank you.")] |}) ;;
    match r with
    | Ret _ => ret true
    | Raise _ => ret false
    end.

Definition send_status_update_notification
    (task_id task_description old_status new_status : pyval)
    (updated_by_username : string) (assigned_to_sub_of_task : pyval) : M bool :=
  if negb sns_client then ret false
  else
    short <- lift (py_slice50 task_description) ;;
    let sns_message_subject := [Lit "Task Status Updated: "; Fmt short] in
    let sns_message_body :=
      [Lit "Task Update: '"; Fmt task_description; Lit "' (ID: "; Fmt task_id;
       Lit ") status changed from '"; Fmt old_status; Lit "' to '"; Fmt new_status;
       Lit "' by user "; Fmt (VStr updated_by_username); Lit "."] in
    let assigned_to_sub_only :=
      [Lit " Task is assigned to sub: "; Fmt assigned_to_sub_of_task; Lit "."] in
    sns_message_body <-
      (if truthy assigned_to_sub_of_task && cognito_client && opt_truthy (USER_POOL_ID E)
       then
         r <- attempt (admin_get_user E assigned_to_sub_of_task) ;;
         match r with
         | Ret attrs =>
             let assigned_username_for_notif :=
               match first_attr "preferred_username" attrs with
               | Some name => VStr name
               | None => assigned_to_sub_of_task
               end in
             ret (sns_message_body ++
                  [Lit " Task is assigned to: "; Fmt assigned_username_for_notif;
                   Lit " (sub: "; Fmt assigned_to_sub_of_task; Lit ")."])%list
         | Raise _ => ret (sns_message_body ++ assigned_to_sub_only)%list
         end
       else if truthy assigned_to_sub_of_task
       then ret (sns_message_body ++ assigned_to_sub_only)%list
       else ret sns_message_body) ;;
    r <- attempt (sns_publish E
           {| TopicArn := default "" (NOTIFICATION_TOPIC_ARN E);
              Message := sns_message_body;
              SnsSubject := Some sns_message_subject |}) ;;
    match r with
    | Ret _ => ret true
    | Raise _ => ret false
    end.
End WithEnv.
End Notifications.

(** * lambda/task/handler.py *)

Module TaskHandler.
Section WithEnv.
Context (E : env).

(** [datetime.now(timezone.utc).isoformat()], for the n-th reading of the
    clock in this run. *)
Definition now_utc_isoformat (n : nat) : M string :=
  tz <- lift (timezone_class_getattr "utc") ;;
  reading <- lift (datetime_now tz n) ;;
  ret (utcnow_isoformat E reading).

(** A response without a [headers] key. *)
Definition reply (code : Z) (b : json_body) : response :=
  {| statusCode := code; headers := None; body := b |}.

Definition list_tasks (requesting_username requesting_user_sub : string)
    (groups : list string) : M response :=
  let is_admin := in_groups "admin" groups in
  items <- (if is_admin then ddb_scan E None
            else ddb_scan E (Some requesting_user_sub)) ;;
  (* json.dumps(response['Items']) *)
  lift (json_dumps_read [] items) ;;
  ret (reply 200 (JItems items)).

Definition create_task (data : pyval) (created_by_username : string)
    (groups : list string) : M response :=
  if negb (in_groups "admin" groups) then
    ret (reply 403 (JError [Lit "Unauthorized. Only admins can create tasks."]))
  else
    assigned_to_sub <- lift (py_get data "assignedTo") ;;
    if negb (truthy assigned_to_sub) then
      ret (reply 400 (JError [Lit "assignedTo (user sub) is required"]))
    else
      (* 1 - the assigned user exists and has an email *)
      r <- attempt (list_users_by_sub E assigned_to_sub) ;;
      match r with
      | Raise (ClientError msg) =>
          ret (reply 500 (JError [Lit "Error verifying assigned user: ";
                                  FmtExn (ClientError msg)]))
      | Raise e =>
          ret (reply 500 (JError [Lit "Unexpected error verifying assigned user: ";
                                  FmtExn e]))
      | Ret [user_profile] =>
          let actual_username_for_task := Username user_profile in
          let user_email := first_attr "email" (Attributes user_profile) in
          if negb (opt_truthy user_email) then
            ret (reply 400 (JError [Lit "Assigned user (sub: "; Fmt assigned_to_sub;
                                    Lit ") does not have an email address."]))
          else
            (* 2 - the task item *)
            let taskId := uuid4 E in
            deadline <- lift (py_index data "deadline") ;;
            description <- lift (py_index data "description") ;;
            createdAt <- now_utc_isoformat 0 ;;
            updatedAt <- now_utc_isoformat 1 ;;
            let item : item :=
              list_to_map
                [("taskId", VStr taskId);
                 ("assignedTo", assigned_to_sub);
                 ("status", VStr "New");
                 ("deadline", deadline);
                 ("description", description);
                 ("createdBy", VStr created_by_username);
                 ("createdAt", VStr createdAt);
                 ("updatedAt", VStr updatedAt)] in
            w <- attempt (ddb_put_item E item) ;;
            match w with
            | Raise _ =>
                ret (reply 500 (JError [Lit "Could not create task in database."]))
            | Ret _ =>
                (if opt_truthy user_email then
                   Notifications.send_task_assignment_email E
                     (default "" user_email) description deadline
                     actual_username_for_task ;;
                   ret tt
                 else ret tt) ;;
                ret (reply 201 (JItem item))
            end
      | Ret _ =>
          (* not found, or several users found *)
          ret (reply 404 (JError [Lit "Assigned user (sub: "; Fmt assigned_to_sub;
                                  Lit ") not found."]))
      end.

(** [not current_task] for the [Item] of a [get_item] response. *)
Definition no_item (current_task : option item) : bool :=
  match current_task with
  | None => true
  | Some it => bool_decide (it = ∅)
  end.

Definition update_task (data : pyval) (updated_by_username updated_by_sub : string)
    (groups : list string) : M response :=
  task_id <- lift (py_get data "taskId") ;;
  new_status <- lift (py_get data "status") ;;
  if negb (truthy task_id) || negb (truthy new_status) then
    ret (reply 400 (JError [Lit "taskId and status are required"]))
  else
    r <- attempt (ddb_get_item E task_id) ;;
    match r with
    | Raise _ => ret (reply 500 (JError [Lit "Could not retrieve task"]))
    | Ret found =>
        match found with
        | Some current_task =>
            if no_item found then ret (reply 404 (JError [Lit "Task not found"]))
            else
              (* admin, or the person the task is assigned to *)
              let is_admin := in_groups "admin" groups in
              let assigned_to_sub_of_task := item_get current_task "assignedTo" in
              if negb is_admin && py_ne assigned_to_sub_of_task (VStr updated_by_sub) then
                ret (reply 403 (JError
                  [Lit "Unauthorized. You can only update tasks assigned to you."]))
              else
                let old_status := item_get current_task "status" in
                updatedAt <- now_utc_isoformat 0 ;;
                let current_task : item :=
                  <["updatedAt" := VStr updatedAt]>
                    (<["status" := new_status]> current_task) in
                w <- attempt (ddb_put_item E current_task) ;;
                match w with
                | Raise _ => ret (reply 500 (JError [Lit "Could not update task"]))
                | Ret _ =>
                    (if py_ne new_status old_status then
                       description <- lift (item_index current_task "description") ;;
                       Notifications.send_status_update_notification E
                         task_id description old_status new_status
                         updated_by_username assigned_to_sub_of_task ;;
                       ret tt
                     else ret tt) ;;
                    (* json.dumps({'message': ..., 'updatedTask': current_task}) *)
                    lift (json_dumps_read ["status"; "updatedAt"] [current_task]) ;;
                    ret (reply 200 (JUpdated [Lit "Task updated successfully"]
                                             current_task))
                end
        | None => ret (reply 404 (JError [Lit "Task not found"]))
        end
    end.

Definition handler (event : event_t) : M response :=
  let http_method := httpMethod event in
  if String.eqb http_method "OPTIONS" then
    ret {| statusCode := 200;
           headers := Some DEFAULT_CORS_HEADERS;
           body := JMessage [Lit "CORS preflight successful"] |}
  else
    let claims := authorizer_claims event in
    let username := cognito_username claims in
    let sub := sub claims in
    let groups := default [] (cognito_groups claims) in
    response <-
      (if String.eqb http_method "GET" then list_tasks username sub groups
       else if String.eqb http_method "POST" then
         data <- lift (json_loads (event_body event)) ;;
         create_task data username groups
       else if String.eqb http_method "PUT" then
         data <- lift (json_loads (event_body event)) ;;
         update_task data username sub groups
       else ret (reply 405 (JError [Lit "Method Not Allowed"]))) ;;
    ret {| statusCode := statusCode response;
           headers := Some (DEFAULT_CORS_HEADERS ∪ default ∅ (headers response));
           body := body response |}.
End WithEnv.
End TaskHandler.

(** * lambda/user/handler.py *)

Module UserHandler.
Section WithEnv.
Context (E : env).

(** Every response of this handler carries this one header. *)
Definition reply (code : Z) (b : json_body) : response :=
  {| statusCode := code;
     headers := Some {["Access-Control-Allow-Origin" := "*"]};
     body := b |}.

(** [json.loads(event.get('body', '{}'))] *)
Definition loads_body (b : body_field) : outcome pyval :=
  match b with
  | NoBodyKey => Ret (VDict [])
  | _ => json_loads b
  end.

(** [body.get(k, dflt)] *)
Definition py_get_default (d : pyval) (k : string) (dflt : pyval) : outcome pyval :=
  match d with
  | VDict l => Ret (default dflt (assoc k l))
  | _ => Raise (AttributeError "object has no attribute 'get'")
  end.

(** [{attr['Name']: attr['Value'] for attr in attrs}] : a later attribute
    of the same name replaces an earlier one. *)
Definition attributes_dict (attrs : list (string * string)) : gmap string string :=
  foldl (fun m (nv : string * string) => <[nv.1 := nv.2]> m) ∅ attrs.

(** The loop of the list operation, over the users still to visit. *)
Fixpoint collect_users (todo : list cognito_user) : M (list user_entry) :=
  match todo with
  | [] => ret []
  | user :: todo' =>
      let user_attributes := attributes_dict (Attributes user) in
      groups_list <- admin_list_groups_for_user E (Username user) ;;
      rest <- collect_users todo' ;;
      ret ({| entry_username := Username user;
              entry_attributes := user_attributes;
              entry_enabled := Enabled user;
              entry_userStatus := UserStatus user;
              entry_groups := groups_list |} :: rest)
  end.

Definition create_user (event : event_t) : M response :=
  r <- attempt (
    body <- lift (loads_body (event_body event)) ;;
    username <- lift (py_get body "username") ;;
    email <- lift (py_get body "email") ;;
    temp_password <- lift (py_get_default body "temporaryPassword"
                                          (VStr "TempPassword123!")) ;;
    if negb (truthy username) || negb (truthy email) then
      ret (reply 400 (JError [Lit "username and email are required."]))
    else
      admin_create_user E
        {| NewUsername := username;
           UserAttributes := [("email", email); ("email_verified", VStr "true")];
           TemporaryPassword := temp_password;
           DesiredDeliveryMediums := ["EMAIL"] |} ;;
      (* add the user to the 'member' group *)
      admin_add_user_to_group E username "member" ;;
      ret (reply 201 (JMessage [Lit "User "; Fmt username;
                                Lit " created and added to member group."]))) ;;
  match r with
  | Ret response => ret response
  | Raise e => ret (reply 500 (JError [FmtExn e]))
  end.

Definition list_all_users : M response :=
  r <- attempt (
    all <- list_users E ;;
    users <- collect_users all ;;
    ret (reply 200 (JUsers users))) ;;
  match r with
  | Ret response => ret response
  | Raise e => ret (reply 500 (JError [FmtExn e]))
  end.

Definition handler (event : event_t) : M response :=
  let http_method := httpMethod event in
  if String.eqb http_method "OPTIONS" then
    ret {| statusCode := 200;
           headers := Some DEFAULT_CORS_HEADERS;
           body := JMessage [Lit "CORS preflight successful"] |}
  else
    let claims := authorizer_claims event in
    let groups := default [] (cognito_groups claims) in
    if negb (in_groups "admin" groups) then
      ret (reply 403 (JError [Lit "Unauthorized. Only admins can list users."]))
    else if String.eqb http_method "POST" then
      if negb (in_groups "admin" groups) then
        ret (reply 403 (JError [Lit "Unauthorized. Only admins can create users."]))
      else create_user event
    else list_all_users.
End WithEnv.
End UserHandler.

(** * lambda/deadline/handler.py *)

Module DeadlineHandler.
Section WithEnv.
Context (E : env).

(** [task['deadline'] <= soon] : strings compare character by character;
    a value that is not a string does not compare with one. *)
Definition py_le_str (v : pyval) (s : string) : outcome bool :=
  match v with
  | VStr d => Ret (String.leb d s)
  | _ => Raise (TypeError "'<=' not supported between these instances")
  end.

(** The loop over the scanned records; [alerts] are the messages so far. *)
Fixpoint scan_loop (soon : string) (todo : list item) (alerts : list fstring)
    : M (list fstring) :=
  match todo with
  | [] => ret alerts
  | task :: todo' =>
      status <- lift (item_index task "status") ;;
      due <- (if py_ne status (VStr "Completed") then
                deadline <- lift (item_index task "deadline") ;;
                lift (py_le_str deadline soon)
              else ret false) ;;
      if due then
        description <- lift (item_index task "description") ;;
        assignedTo <- lift (item_index task "assignedTo") ;;
        let message :=
          [Lit "Task '"; Fmt description; Lit "' assigned to "; Fmt assignedTo;
           Lit " is nearing its deadline."] in
        let alerts := (alerts ++ [message])%list in
        sns_publish E {| TopicArn := default "" (NOTIFICATION_TOPIC_ARN E);
                         Message := message;
                         SnsSubject := None |} ;;
        scan_loop soon todo' alerts
      else scan_loop soon todo' alerts
  end.

(** This module binds [datetime] by [from datetime import datetime,
    timedelta]: the name is the class. *)
Definition handler : M response :=
  tz <- lift (datetime_class_getattr "UTC") ;;
  now <- lift (datetime_now tz 0) ;;
  let soon := plus_one_hour_isoformat E now in
  items <- ddb_scan E None ;;
  alerts <- scan_loop soon items [] ;;
  ret {| statusCode := 200; headers := None; body := JAlerts alerts |}.
End WithEnv.
End DeadlineHandler.

(** * Reading a run *)

(** The last step of the task handler: the fixed cross-origin headers are
    merged into the response. *)
Definition with_cors (r : response) : response :=
  {| statusCode := statusCode r;
     headers := Some (DEFAULT_CORS_HEADERS ∪ default ∅ (headers r));
     body := body r |}.

(** A run that comes after the calls [tr1]. *)
Definition after {A} (tr1 : list event) (x : outcome A * table * list event)
    : outcome A * table * list event :=
  (x.1.1, x.1.2, (tr1 ++ x.2)%list).

(** The response of a run that returned one. *)
Definition response_of (x : outcome response * table * list event) : response :=
  match x.1.1 with
  | Ret r => r
  | Raise _ => {| statusCode := 0; headers := None; body := JError [] |}
  end.

(** Calls of a trace, by kind. *)
Definition is_publish (e : event) : bool :=
  match e.1 with SnsPublish _ => true | _ => false end.
Definition is_send_email (e : event) : bool :=
  match e.1 with SesSendEmail _ => true | _ => false end.
Definition is_put (e : event) : bool :=
  match e.1 with DdbPutItem _ => true | _ => false end.
Definition is_table_call (e : event) : bool :=
  match e.1 with DdbScan _ | DdbGetItem _ | DdbPutItem _ => true | _ => false end.
Definition is_lookup_by_sub (e : event) : bool :=
  match e.1 with CognitoListUsersBySub _ => true | _ => false end.
Definition is_add_to_group (group : string) (e : event) : bool :=
  match e.1 with
  | CognitoAdminAddUserToGroup _ g => String.eqb g group
  | _ => false
  end.
Definition is_create_user (e : event) : bool :=
  match e.1 with CognitoAdminCreateUser _ => true | _ => false end.

(** The calls of a kind that were made, and those that went through. *)
Definition made (kind : event -> bool) (tr : list event) : list event :=
  List.filter kind tr.
Definition done_ok (kind : event -> bool) (tr : list event) : list event :=
  List.filter (fun e => kind e && e.2) tr.

(** Some call of the kind was made and went through. *)
Definition answered (kind : event -> bool) (tr : list event) : bool :=
  existsb (fun e => kind e && e.2) tr.

(** The text [create_task] puts before an exception of the lookup. *)
Definition lookup_error_text (e : exn) : string :=
  match e with
  | ClientError _ => "Error verifying assigned user: "
  | _ => "Unexpected error verifying assigned user: "
  end.

(** Whether the topic, or the mail service, takes a message. *)
Definition topic_accepts (E : env) (m : sns_message) : bool :=
  match sns_publish_fault E m with None => true | Some _ => false end.
Definition mail_accepts (E : env) (m : email) : bool :=
  match ses_send_email_fault E m with None => true | Some _ => false end.

(** A required field of a request body: it is given when the body has it
    with a value Python counts as true ([not d.get(k)] is false). *)
Definition given (d : list (string * pyval)) (k : string) : bool :=
  truthy (default VNone (assoc k d)).

(** * A concrete deployment

    An environment in which every service answers, a table with two
    records, and a few requests.  The instances below are evaluated on
    them. *)

Definition alice : cognito_user :=
  {| Username := "alice";
     Attributes := [("sub", "sub-alice"); ("email", "alice@example.org")];
     Enabled := true;
     UserStatus := "CONFIRMED" |}.

Definition office_env : env := {|
  SENDER_EMAIL_ADDRESS := Some "noreply@example.org";
  NOTIFICATION_TOPIC_ARN := Some "arn:aws:sns:eu-west-1:1:TaskNotifications";
  USER_POOL_ID := Some "eu-west-1_pool";
  utcnow_isoformat := fun n =>
    match n with
    | O => "2025-12-24T10:00:00.000000+00:00"
    | _ => "2025-12-24T10:00:00.000150+00:00"
    end;
  plus_one_hour_isoformat := fun _ => "2025-12-24T11:00:00.000000+00:00";
  uuid4 := "6f1c2a9e-58d4-4c0b-9d55-1f0a3b7c2e11";
  ddb_scan_fault := None;
  ddb_get_item_fault := fun _ => None;
  ddb_put_item_fault := fun _ => None;
  cognito_list_users_by_sub := fun v =>
    match v with
    | VStr "sub-alice" => Ret [alice]
    | _ => Ret []
    end;
  cognito_list_users := Ret [alice];
  cognito_admin_get_user := fun _ => Raise (ClientError "UserNotFoundException");
  cognito_admin_list_groups_for_user := fun _ => Ret ["member"];
  cognito_admin_create_user_fault := fun _ => None;
  cognito_admin_add_user_to_group_fault := fun _ _ => None;
  ses_send_email_fault := fun _ => None;
  sns_publish_fault := fun _ => None
|}.

(** The same deployment with one field replaced. *)
Definition set_topic (arn : option string) (fault : sns_message -> option exn)
    (E : env) : env := {|
  SENDER_EMAIL_ADDRESS := SENDER_EMAIL_ADDRESS E;
  NOTIFICATION_TOPIC_ARN := arn;
  USER_POOL_ID := USER_POOL_ID E;
  utcnow_isoformat := utcnow_isoformat E;
  plus_one_hour_isoformat := plus_one_hour_isoformat E;
  uuid4 := uuid4 E;
  ddb_scan_fault := ddb_scan_fault E;
  ddb_get_item_fault := ddb_get_item_fault E;
  ddb_put_item_fault := ddb_put_item_fault E;
  cognito_list_users_by_sub := cognito_list_users_by_sub E;
  cognito_list_users := cognito_list_users E;
  cognito_admin_get_user := cognito_admin_get_user E;
  cognito_admin_list_groups_for_user := cognito_admin_list_groups_for_user E;
  cognito_admin_create_user_fault := cognito_admin_create_user_fault E;
  cognito_admin_add_user_to_group_fault := cognito_admin_add_user_to_group_fault E;
  ses_send_email_fault := ses_send_email_fault E;
  sns_publish_fault := fault
|}.

Definition set_sender (address : option string) (fault : email -> option exn)
    (E : env) : env := {|
  SENDER_EMAIL_ADDRESS := address;
  NOTIFICATION_TOPIC_ARN := NOTIFICATION_TOPIC_ARN E;
  USER_POOL_ID := USER_POOL_ID E;
  utcnow_isoformat := utcnow_isoformat E;
  plus_one_hour_isoformat := plus_one_hour_isoformat E;
  uuid4 := uuid4 E;
  ddb_scan_fault := ddb_scan_fault E;
  ddb_get_item_fault := ddb_get_item_fault E;
  ddb_put_item_fault := ddb_put_item_fault E;
  cognito_list_users_by_sub := cognito_list_users_by_sub E;
  cognito_list_users := cognito_list_users E;
  cognito_admin_get_user := cognito_admin_get_user E;
  cognito_admin_list_groups_for_user := cognito_admin_list_groups_for_user E;
  cognito_admin_create_user_fault := cognito_admin_create_user_fault E;
  cognito_admin_add_user_to_group_fault := cognito_admin_add_user_to_group_fault E;
  ses_send_email_fault := fault;
  sns_publish_fault := sns_publish_fault E
|}.

Definition office_table : table :=
  <["t1" := list_to_map
       [("assignedTo", VStr "sub-alice"); ("status", VStr "New");
        ("deadline", VStr "2025-12-24T10:30:00+00:00");
        ("description", VStr "Wrap the gifts");
        ("createdBy", VStr "root");
        ("createdAt", VStr "2025-12-01T09:00:00+00:00");
        ("updatedAt", VStr "2025-12-01T09:00:00+00:00")] ]>
  (<["t2" := list_to_map
       [("assignedTo", VStr "sub-bob"); ("status", VStr "Completed");
        ("deadline", VStr "2025-12-24T10:30:00+00:00");
        ("description", VStr "Buy the tree");
        ("createdBy", VStr "root");
        ("createdAt", VStr "2025-12-01T09:00:00+00:00");
        ("updatedAt", VStr "2025-12-02T09:00:00+00:00")] ]> ∅).

(** A request of [who], whose [sub] is [sub-who], member of [groups]. *)
Definition request (method who : string) (groups : list string)
    (b : body_field) : event_t :=
  {| httpMethod := method;
     authorizer_claims :=
       {| cognito_username := who; sub := "sub-" +:+ who;
          cognito_groups := Some groups |};
     event_body := b |}.

Definition json (d : list (string * pyval)) : body_field := BodyText (Some (VDict d)).

(** Record [t1] as a read returns it. *)
Definition record_t1 : item :=
  with_key "t1" (list_to_map
    [("assignedTo", VStr "sub-alice"); ("status", VStr "New");
     ("deadline", VStr "2025-12-24T10:30:00+00:00");
     ("description", VStr "Wrap the gifts");
     ("createdBy", VStr "root");
     ("createdAt", VStr "2025-12-01T09:00:00+00:00");
     ("updatedAt", VStr "2025-12-01T09:00:00+00:00")]).

Definition get_by_alice : event_t := request "GET" "alice" ["member"] NoBodyKey.
Definition delete_by_root : event_t := request "DELETE" "root" ["admin"] NoBodyKey.

Definition done_t1 : list (string * pyval) :=
  [("taskId", VStr "t1"); ("status", VStr "Done")].
Definition new_t1 : list (string * pyval) :=
  [("taskId", VStr "t1"); ("status", VStr "New")].
Definition put_done_by_bob : event_t := request "PUT" "bob" ["member"] (json done_t1).
Definition put_done_by_alice : event_t := request "PUT" "alice" ["member"] (json done_t1).
Definition put_new_by_alice : event_t := request "PUT" "alice" ["member"] (json new_t1).
Definition put_without_status_by_bob : event_t :=
  request "PUT" "bob" ["member"] (json [("taskId", VStr "t1")]).

Definition cards_for_carol : list (string * pyval) :=
  [("assignedTo", VStr "sub-carol");
   ("deadline", VStr "2025-12-31T00:00:00+00:00");
   ("description", VStr "Send the cards")].
Definition cards_for_alice : list (string * pyval) :=
  [("assignedTo", VStr "sub-alice");
   ("deadline", VStr "2025-12-31T00:00:00+00:00");
   ("description", VStr "Send the cards")].
Definition post_for_carol : event_t := request "POST" "root" ["admin"] (json cards_for_carol).
Definition post_for_alice : event_t := request "POST" "root" ["admin"] (json cards_for_alice).
Definition post_without_deadline : event_t :=
  request "POST" "root" ["admin"]
    (json [("assignedTo", VStr "sub-alice"); ("description", VStr "Send the cards")]).
Definition post_without_description : event_t :=
  request "POST" "root" ["admin"]
    (json [("assignedTo", VStr "sub-alice");
           ("deadline", VStr "2025-12-31T00:00:00+00:00")]).
Definition post_without_deadline_for_carol : event_t :=
  request "POST" "root" ["admin"]
    (json [("assignedTo", VStr "sub-carol"); ("description", VStr "Send the cards")]).

(** The office deployment without a topic ([NOTIFICATION_TOPIC_ARN] unset),
    with a topic that refuses every message, and likewise for the sender
    address of the mail service. *)
Definition office_without_topic : env :=
  set_topic None (sns_publish_fault office_env) office_env.
Definition office_with_dead_topic : env :=
  set_topic (NOTIFICATION_TOPIC_ARN office_env)
            (fun _ => Some (ClientError "InternalError")) office_env.
Definition office_without_sender : env :=
  set_sender None (ses_send_email_fault office_env) office_env.
Definition office_with_dead_mail : env :=
  set_sender (SENDER_EMAIL_ADDRESS office_env)
             (fun _ => Some (ClientError "MessageRejected")) office_env.

Definition dave : list (string * pyval) :=
  [("username", VStr "dave"); ("email", VStr "dave@example.org")].
Definition post_user_dave : event_t := request "POST" "root" ["admin"] (json dave).
Definition post_user_without_email : event_t :=
  request "POST" "root" ["admin"] (json [("username", VStr "dave")]).

(** * More of the handlers: what the statements below speak of *)

(** Some call of the kind was made, whether it went through or not. *)
Definition called (kind : event -> bool) (tr : list event) : bool :=
  existsb kind tr.

(** The item [create_task] builds. *)
Definition new_task (E : env) (assigned_to_sub deadline description : pyval)
    (created_by_username : string) : item :=
  list_to_map
    [("taskId", VStr (uuid4 E));
     ("assignedTo", assigned_to_sub);
     ("status", VStr "New");
     ("deadline", deadline);
     ("description", description);
     ("createdBy", VStr created_by_username);
     ("createdAt", VStr (utcnow_isoformat E 0));
     ("updatedAt", VStr (utcnow_isoformat E 1))].

(** The record [update_task] writes back. *)
Definition rewritten (E : env) (new_status : pyval) (old : item) : item :=
  <["updatedAt" := VStr (utcnow_isoformat E 0)]> (<["status" := new_status]> old).

(** The fixed answer to a preflight request. *)
Definition preflight_response : response :=
  {| statusCode := 200;
     headers := Some DEFAULT_CORS_HEADERS;
     body := JMessage [Lit "CORS preflight successful"] |}.

(** A response of the task handler: status, fixed headers, body. *)
Definition task_response (code : Z) (b : json_body) : response :=
  {| statusCode := code; headers := Some DEFAULT_CORS_HEADERS; body := b |}.

(** More requests and deployments. *)
Definition options_by_mallory : event_t := request "OPTIONS" "mallory" [] NoBodyKey.
Definition post_null_by_bob : event_t := request "POST" "bob" ["member"] BodyNull.
Definition post_by_bob : event_t := request "POST" "bob" ["member"] (json cards_for_alice).
Definition get_by_root : event_t := request "GET" "root" ["admin"] NoBodyKey.

Definition eve : cognito_user :=
  {| Username := "eve"; Attributes := [("sub", "sub-eve")];
     Enabled := true; UserStatus := "CONFIRMED" |}.

(** The office deployment with one field replaced. *)
Definition set_lookup (answer : pyval -> outcome (list cognito_user)) (E : env) : env := {|
  SENDER_EMAIL_ADDRESS := SENDER_EMAIL_ADDRESS E;
  NOTIFICATION_TOPIC_ARN := NOTIFICATION_TOPIC_ARN E;
  USER_POOL_ID := USER_POOL_ID E;
  utcnow_isoformat := utcnow_isoformat E;
  plus_one_hour_isoformat := plus_one_hour_isoformat E;
  uuid4 := uuid4 E;
  ddb_scan_fault := ddb_scan_fault E;
  ddb_get_item_fault := ddb_get_item_fault E;
  ddb_put_item_fault := ddb_put_item_fault E;
  cognito_list_users_by_sub := answer;
  cognito_list_users := cognito_list_users E;
  cognito_admin_get_user := cognito_admin_get_user E;
  cognito_admin_list_groups_for_user := cognito_admin_list_groups_for_user E;
  cognito_admin_create_user_fault := cognito_admin_create_user_fault E;
  cognito_admin_add_user_to_group_fault := cognito_admin_add_user_to_group_fault E;
  ses_send_email_fault := ses_send_email_fault E;
  sns_publish_fault := sns_publish_fault E
|}.

Definition set_store_faults (scan : option exn) (get : pyval -> option exn)
    (put : item -> option exn) (E : env) : env := {|
  SENDER_EMAIL_ADDRESS := SENDER_EMAIL_ADDRESS E;
  NOTIFICATION_TOPIC_ARN := NOTIFICATION_TOPIC_ARN E;
  USER_POOL_ID := USER_POOL_ID E;
  utcnow_isoformat := utcnow_isoformat E;
  plus_one_hour_isoformat := plus_one_hour_isoformat E;
  uuid4 := uuid4 E;
  ddb_scan_fault := scan;
  ddb_get_item_fault := get;
  ddb_put_item_fault := put;
  cognito_list_users_by_sub := cognito_list_users_by_sub E;
  cognito_list_users := cognito_list_users E;
  cognito_admin_get_user := cognito_admin_get_user E;
  cognito_admin_list_groups_for_user := cognito_admin_list_groups_for_user E;
  cognito_admin_create_user_fault := cognito_admin_create_user_fault E;
  cognito_admin_add_user_to_group_fault := cognito_admin_add_user_to_group_fault E;
  ses_send_email_fault := ses_send_email_fault E;
  sns_publish_fault := sns_publish_fault E
|}.

Definition office_knowing_eve : env :=
  set_lookup (fun _ => Ret [eve]) office_env.
Definition office_directory_down : env :=
  set_lookup (fun _ => Raise (ClientError "TooManyRequestsException")) office_env.
Definition office_store_down : env :=
  set_store_faults (Some (ClientError "ProvisionedThroughputExceededException"))
    (fun _ => Some (ClientError "ProvisionedThroughputExceededException"))
    (fun _ => Some (ClientError "ProvisionedThroughputExceededException"))
    office_env.
Definition office_store_read_only : env :=
  set_store_faults None (fun _ => None)
    (fun _ => Some (ClientError "AccessDeniedException")) office_env.

(** The message [send_task_assignment_email] hands to the mail service. *)
Definition assignment_email (E : env) (recipient_email : string)
    (task_description task_deadline : pyval) (assignee_username : string) : email :=
  {| Source := default "" (SENDER_EMAIL_ADDRESS E);
     ToAddresses := [recipient_email];
     Subject := "New Task Assigned to You";
     Text :=
       [Lit "Hello ";
        Fmt (VStr (if String.eqb assignee_username "" then "User"
                   else assignee_username));
        Lit ("," +:+ newline +:+ newline +:+ "A new task '");
        Fmt task_description;
        Lit ("' has been assigned to you." +:+ newline +:+ "Deadline: ");
        Fmt task_deadline;
        Lit (newline +:+ newline +:+ "Thank you.")] |}.

(** A run that returned a response with the given status. *)
Definition answered_with (code : Z) (r : outcome response) : bool :=
  match r with
  | Ret resp => Z.eqb (statusCode resp) code
  | Raise _ => false
  end.

(** The record alice's task becomes in the office. *)
Definition cards_task : item :=
  new_task office_env (VStr "sub-alice") (VStr "2025-12-31T00:00:00+00:00")
    (VStr "Send the cards") "root".

Definition put_zero_status_by_alice : event_t :=
  request "PUT" "alice" ["member"] (json [("taskId", VStr "t1"); ("status", VInt 0)]).
Definition put_done_t9_by_alice : event_t :=
  request "PUT" "alice" ["member"] (json [("taskId", VStr "t9"); ("status", VStr "Done")]).
Definition put_numeric_id_by_alice : event_t :=
  request "PUT" "alice" ["member"] (json [("taskId", VInt 1); ("status", VStr "Done")]).
Definition put_done_by_root : event_t := request "PUT" "root" ["admin"] (json done_t1).

(** A table whose only record has no description. *)
Definition bare_table : table :=
  <["t1" := list_to_map [("assignedTo", VStr "sub-alice"); ("status", VStr "New")] ]> ∅.
Definition bare_record : item :=
  with_key "t1" (list_to_map [("assignedTo", VStr "sub-alice"); ("status", VStr "New")]).

(** The entry the list operation makes for a user: the groups are those the
    directory reports for the user's name. *)
Definition listed (E : env) (user : cognito_user) : user_entry :=
  {| entry_username := Username user;
     entry_attributes := UserHandler.attributes_dict (Attributes user);
     entry_enabled := Enabled user;
     entry_userStatus := UserStatus user;
     entry_groups :=
       match cognito_admin_list_groups_for_user E (Username user) with
       | Ret groups => groups
       | Raise _ => []
       end |}.

(** The directory reports the groups of the user. *)
Definition groups_known (E : env) (user : cognito_user) : bool :=
  match cognito_admin_list_groups_for_user E (Username user) with
  | Ret _ => true
  | Raise _ => false
  end.

(** The call that asks for the groups of a user. *)
Definition groups_call (ok : bool) (user : cognito_user) : event :=
  (CognitoAdminListGroupsForUser (Username user), ok).

Definition get_users_by_bob : event_t := request "GET" "bob" ["member"] NoBodyKey.
Definition get_users_by_root : event_t := request "GET" "root" ["admin"] NoBodyKey.
Definition delete_users_by_root : event_t := request "DELETE" "root" ["admin"] NoBodyKey.
Definition post_user_null_by_root : event_t := request "POST" "root" ["admin"] BodyNull.

Definition bob : cognito_user :=
  {| Username := "bob";
     Attributes := [("sub", "sub-bob"); ("email", "bob@example.org");
                    ("email", "robert@example.org")];
     Enabled := false;
     UserStatus := "FORCE_CHANGE_PASSWORD" |}.

Definition set_directory (all : outcome (list cognito_user))
    (groups : string -> outcome (list string))
    (create : new_user -> option exn) (add : pyval -> string -> option exn)
    (E : env) : env := {|
  SENDER_EMAIL_ADDRESS := SENDER_EMAIL_ADDRESS E;
  NOTIFICATION_TOPIC_ARN := NOTIFICATION_TOPIC_ARN E;
  USER_POOL_ID := USER_POOL_ID E;
  utcnow_isoformat := utcnow_isoformat E;
  plus_one_hour_isoformat := plus_one_hour_isoformat E;
  uuid4 := uuid4 E;
  ddb_scan_fault := ddb_scan_fault E;
  ddb_get_item_fault := ddb_get_item_fault E;
  ddb_put_item_fault := ddb_put_item_fault E;
  cognito_list_users_by_sub := cognito_list_users_by_sub E;
  cognito_list_users := all;
  cognito_admin_get_user := cognito_admin_get_user E;
  cognito_admin_list_groups_for_user := groups;
  cognito_admin_create_user_fault := create;
  cognito_admin_add_user_to_group_fault := add;
  ses_send_email_fault := ses_send_email_fault E;
  sns_publish_fault := sns_publish_fault E
|}.

(** Two users; the groups of bob cannot be read. *)
Definition office_of_two : env :=
  set_directory (Ret [alice; bob]) (fun _ => Ret ["member"])
    (fun _ => None) (fun _ _ => None) office_env.
Definition office_groups_down : env :=
  set_directory (Ret [alice; bob])
    (fun name => if String.eqb name "bob" then Raise (ClientError "InternalErrorException")
                 else Ret ["member"])
    (fun _ => None) (fun _ _ => None) office_env.
Definition office_group_missing : env :=
  set_directory (Ret [alice]) (fun _ => Ret ["member"])
    (fun _ => None) (fun _ _ => Some (ClientError "ResourceNotFoundException"))
    office_env.
Definition office_name_taken : env :=
  set_directory (Ret [alice]) (fun _ => Ret ["member"])
    (fun _ => Some (ClientError "UsernameExistsException")) (fun _ _ => None)
    office_env.

Definition post_user_list_by_root : event_t :=
  request "POST" "root" ["admin"] (BodyText (Some (VList [VStr "dave"]))).

(** The arguments of [admin_create_user] for a request body. *)
Definition user_to_create (d : list (string * pyval)) : new_user :=
  {| NewUsername := default VNone (assoc "username" d);
     UserAttributes := [("email", default VNone (assoc "email" d));
                        ("email_verified", VStr "true")];
     TemporaryPassword := default (VStr "TempPassword123!") (assoc "temporaryPassword" d);
     DesiredDeliveryMediums := ["EMAIL"] |}.

(** The status notice: the text common to all its forms, and the message
    published with a given text. *)
Definition status_text (task_id task_description old_status new_status : pyval)
    (updated_by_username : string) : fstring :=
  [Lit "Task Update: '"; Fmt task_description; Lit "' (ID: "; Fmt task_id;
   Lit ") status changed from '"; Fmt old_status; Lit "' to '"; Fmt new_status;
   Lit "' by user "; Fmt (VStr updated_by_username); Lit "."].

Definition status_notice (E : env) (short : pyval) (text : fstring) : sns_message :=
  {| TopicArn := default "" (NOTIFICATION_TOPIC_ARN E);
     Message := text;
     SnsSubject := Some [Lit "Task Status Updated: "; Fmt short] |}.

Definition set_profile (E : env) (answer : pyval -> outcome (list (string * string)))
    : env :=
  {| SENDER_EMAIL_ADDRESS := SENDER_EMAIL_ADDRESS E;
     NOTIFICATION_TOPIC_ARN := NOTIFICATION_TOPIC_ARN E;
     USER_POOL_ID := USER_POOL_ID E;
     utcnow_isoformat := utcnow_isoformat E;
     plus_one_hour_isoformat := plus_one_hour_isoformat E;
     uuid4 := uuid4 E;
     ddb_scan_fault := ddb_scan_fault E;
     ddb_get_item_fault := ddb_get_item_fault E;
     ddb_put_item_fault := ddb_put_item_fault E;
     cognito_list_users_by_sub := cognito_list_users_by_sub E;
     cognito_list_users := cognito_list_users E;
     cognito_admin_get_user := answer;
     cognito_admin_list_groups_for_user := cognito_admin_list_groups_for_user E;
     cognito_admin_create_user_fault := cognito_admin_create_user_fault E;
     cognito_admin_add_user_to_group_fault := cognito_admin_add_user_to_group_fault E;
     ses_send_email_fault := ses_send_email_fault E;
     sns_publish_fault := sns_publish_fault E |}.

Definition office_with_nickname : env :=
  set_profile office_env
    (fun _ => Ret [("sub", "sub-alice"); ("preferred_username", "Ally")]).

(** The deadline scan, record by record: a record the loop can read, a
    record that is due at the cut-off, and the alert for a record. *)
Definition scannable (task : item) : bool :=
  match task !! "status", task !! "deadline", task !! "description",
        task !! "assignedTo" with
  | Some _, Some (VStr _), Some _, Some _ => true
  | _, _, _, _ => false
  end.

Definition due (soon : string) (task : item) : bool :=
  py_ne (item_get task "status") (VStr "Completed") &&
  match task !! "deadline" with
  | Some (VStr d) => String.leb d soon
  | _ => false
  end.

Definition alert_text (task : item) : fstring :=
  [Lit "Task '"; Fmt (item_get task "description"); Lit "' assigned to ";
   Fmt (item_get task "assignedTo"); Lit " is nearing its deadline."].

Definition alert (E : env) (task : item) : sns_message :=
  {| TopicArn := default "" (NOTIFICATION_TOPIC_ARN E);
     Message := alert_text task;
     SnsSubject := None |}.

Definition published (E : env) (tasks : list item) : list event :=
  map (fun task => (SnsPublish (alert E task), true)) tasks.

Definition office_records : list item := records office_table.

(** A task whose deadline is a number, a task whose description is null,
    and alice's update of the task created last. *)
Definition cards_by_number : list (string * pyval) :=
  [("assignedTo", VStr "sub-alice");
   ("deadline", VInt 20251231);
   ("description", VStr "Send the cards")].
Definition post_numeric_deadline : event_t :=
  request "POST" "root" ["admin"] (json cards_by_number).
Definition get_by_bob : event_t := request "GET" "bob" ["member"] NoBodyKey.

Definition cards_without_text : list (string * pyval) :=
  [("assignedTo", VStr "sub-alice");
   ("deadline", VStr "2025-12-31T00:00:00+00:00");
   ("description", VNone)].
Definition post_null_description : event_t :=
  request "POST" "root" ["admin"] (json cards_without_text).
Definition put_done_new_task_by_alice : event_t :=
  request "PUT" "alice" ["member"]
    (json [("taskId", VStr (uuid4 office_env)); ("status", VStr "Done")]).

Definition post_user_not_json_by_root : event_t :=
  request "POST" "root" ["admin"] (BodyText None).

(** The number of characters of a string: the bytes that begin one. *)
Fixpoint char_count (s : string) : nat :=
  match s with
  | EmptyString => O
  | String c s' => if continues_char c then char_count s' else S (char_count s')
  end.

(** * Properties *)

(** Closed equations are settled by evaluation. *)
Ltac by_evaluation :=
  intros;
  match goal with
  | |- ?l = ?r => vm_cast_no_check (@eq_refl _ r)
  end.

(** ** Values and records *)

Lemma py_eq_str (v : pyval) (s : string) : py_eq v (VStr s) = true <-> v = VStr s.
Proof.
  destruct v; simpl; try (split; discriminate).
  rewrite String.eqb_eq. split; [by intros -> | by intros [= ->]].
Qed.

Lemma truthy_str (s : string) : truthy (VStr s) = true <-> s <> "".
Proof. simpl. by rewrite negb_true_iff, String.eqb_neq. Qed.

Lemma py_ne_str (it : item) (k s : string) :
  py_ne (item_get it k) (VStr s) = true <-> it !! k ≠ Some (VStr s).
Proof.
  unfold py_ne, item_get. rewrite negb_true_iff, <- not_true_iff_false, py_eq_str.
  destruct (it !! k) as [v|]; simpl; split; intros H; try congruence.
Qed.

Lemma with_key_taskId (k : string) (attrs : gmap string pyval) :
  with_key k attrs !! "taskId" = Some (VStr k).
Proof. apply lookup_insert_eq. Qed.

Lemma with_key_other (k a : string) (attrs : gmap string pyval) :
  a ≠ "taskId" -> with_key k attrs !! a = attrs !! a.
Proof. intros Ha. unfold with_key. by rewrite lookup_insert_ne. Qed.

Lemma with_key_nonempty (k : string) (attrs : gmap string pyval) :
  with_key k attrs ≠ ∅.
Proof. apply insert_non_empty. Qed.

(** The records of the table are its entries, each with its key. *)
Lemma elem_of_records (t : table) (it : item) :
  it ∈ records t <-> exists k attrs, t !! k = Some attrs /\ it = with_key k attrs.
Proof.
  unfold records. rewrite list_elem_of_fmap. split.
  - intros [[k attrs] [-> Hin]]. exists k, attrs. split; [|done].
    by apply elem_of_map_to_list.
  - intros (k & attrs & Hk & ->). exists (k, attrs). split; [done|].
    by apply elem_of_map_to_list.
Qed.

Lemma assignedTo_is_spec (user_sub : string) (it : item) :
  assignedTo_is user_sub it = true <-> it !! "assignedTo" = Some (VStr user_sub).
Proof.
  unfold assignedTo_is. destruct (it !! "assignedTo") as [[]|]; try (split; discriminate).
  rewrite String.eqb_eq. split; [by intros -> | by intros [= ->]].
Qed.

Lemma in_groups_true (g : string) (groups : list string) :
  in_groups g groups = true <-> g ∈ groups.
Proof. apply bool_decide_eq_true. Qed.

Lemma in_groups_false (g : string) (groups : list string) :
  in_groups g groups = false <-> g ∉ groups.
Proof. apply bool_decide_eq_false. Qed.

Lemma cors_union_empty :
  DEFAULT_CORS_HEADERS ∪ (∅ : gmap string string) = DEFAULT_CORS_HEADERS.
Proof. apply (right_id_L ∅ (∪)). Qed.

(** ** How the task handler dispatches *)

Lemma handler_post (E : env) (ev : event_t) (t : table) (data : pyval) :
  httpMethod ev = "POST" ->
  event_body ev = BodyText (Some data) ->
  TaskHandler.handler E ev t =
    match TaskHandler.create_task E data
            (cognito_username (authorizer_claims ev))
            (default [] (cognito_groups (authorizer_claims ev))) t with
    | (Ret r, t', tr) => (Ret (with_cors r), t', tr)
    | (Raise e, t', tr) => (Raise e, t', tr)
    end.
Proof.
  intros Hm Hb. unfold TaskHandler.handler. rewrite Hm, Hb. simpl.
  unfold bind at 1. unfold bind at 1. simpl.
  destruct (TaskHandler.create_task _ _ _ _ _) as [[[r|e] t'] tr]; simpl; [|done].
  by rewrite app_nil_r.
Qed.

Lemma handler_put (E : env) (ev : event_t) (t : table) (data : pyval) :
  httpMethod ev = "PUT" ->
  event_body ev = BodyText (Some data) ->
  TaskHandler.handler E ev t =
    match TaskHandler.update_task E data
            (cognito_username (authorizer_claims ev))
            (sub (authorizer_claims ev))
            (default [] (cognito_groups (authorizer_claims ev))) t with
    | (Ret r, t', tr) => (Ret (with_cors r), t', tr)
    | (Raise e, t', tr) => (Raise e, t', tr)
    end.
Proof.
  intros Hm Hb. unfold TaskHandler.handler. rewrite Hm, Hb. simpl.
  unfold bind at 1. unfold bind at 1. simpl.
  destruct (TaskHandler.update_task _ _ _ _ _ _) as [[[r|e] t'] tr]; simpl; [|done].
  by rewrite app_nil_r.
Qed.

Lemma with_cors_reply (code : Z) (b : json_body) :
  with_cors (TaskHandler.reply code b) =
    {| statusCode := code; headers := Some DEFAULT_CORS_HEADERS; body := b |}.
Proof. unfold with_cors, TaskHandler.reply. simpl. by rewrite cors_union_empty. Qed.

(** ** Any other method *)

(** C10. A request whose method is none of OPTIONS, GET, POST, PUT is
    answered 405 'Method Not Allowed' with the cross-origin headers; the run
    makes no call at all, so the table is neither read nor written. *)
Theorem other_method_not_allowed (E : env) (ev : event_t) (t : table) :
  httpMethod ev ∉ ["OPTIONS"; "GET"; "POST"; "PUT"] ->
  TaskHandler.handler E ev t =
    (Ret {| statusCode := 405; headers := Some DEFAULT_CORS_HEADERS;
            body := JError [Lit "Method Not Allowed"] |}, t, []).
Proof.
  intros Hm.
  assert (H1 : String.eqb (httpMethod ev) "OPTIONS" = false)
    by (apply String.eqb_neq; set_solver).
  assert (H2 : String.eqb (httpMethod ev) "GET" = false)
    by (apply String.eqb_neq; set_solver).
  assert (H3 : String.eqb (httpMethod ev) "POST" = false)
    by (apply String.eqb_neq; set_solver).
  assert (H4 : String.eqb (httpMethod ev) "PUT" = false)
    by (apply String.eqb_neq; set_solver).
  unfold TaskHandler.handler. rewrite H1, H2, H3, H4.
  unfold bind, ret, TaskHandler.reply. simpl.
  by rewrite cors_union_empty.
Qed.

Lemma other_method_not_allowed_witness :
  TaskHandler.handler office_env delete_by_root office_table =
    (Ret {| statusCode := 405; headers := Some DEFAULT_CORS_HEADERS;
            body := JError [Lit "Method Not Allowed"] |}, office_table, []).
Proof.
  apply (other_method_not_allowed office_env delete_by_root office_table).
  apply in_groups_false. reflexivity.
Defined.

(** ** The deadline scanner *)

(** The first statement of the scanner, [datetime.now(datetime.UTC)], looks
    [UTC] up on the class and raises; nothing after it runs. *)
Lemma deadline_handler_raises (E : env) (t : table) :
  DeadlineHandler.handler E t =
    (Raise (AttributeError "type object 'datetime.datetime' has no attribute 'UTC'"),
     t, []).
Proof. reflexivity. Qed.

(** The task handler's spelling, [datetime.now(timezone.utc)], goes through. *)
Lemma now_utc_isoformat_runs (E : env) (n : nat) (t : table) :
  TaskHandler.now_utc_isoformat E n t = (Ret (utcnow_isoformat E n), t, []).
Proof. reflexivity. Qed.

(** Facts about the office table, by evaluation. *)
Lemma stored_t1 : stored office_table "t1" = Some record_t1.
Proof. by_evaluation. Qed.

Lemma record_t1_assignedTo : record_t1 !! "assignedTo" = Some (VStr "sub-alice").
Proof. by_evaluation. Qed.

Lemma record_t1_status : item_get record_t1 "status" = VStr "New".
Proof. by_evaluation. Qed.

(** C4, on the code.  Record [t1] of the office table is not completed and
    its deadline is within the hour, so the scanner owes one alert for it;
    the run raises [AttributeError] before the scan and publishes nothing. *)
Theorem deadline_scan_sends_no_alert :
  stored office_table "t1" = Some record_t1 /\
  py_ne (item_get record_t1 "status") (VStr "Completed") = true /\
  DeadlineHandler.py_le_str (item_get record_t1 "deadline")
    (plus_one_hour_isoformat office_env 0) = Ret true /\
  DeadlineHandler.handler office_env office_table =
    (Raise (AttributeError "type object 'datetime.datetime' has no attribute 'UTC'"),
     office_table, []).
Proof.
  split; [exact stored_t1|].
  split; [by_evaluation|].
  split; [by_evaluation|].
  apply deadline_handler_raises.
Qed.

(** ** Runs, step by step *)

Lemma run_eta {A} (x : outcome A * table * list event) : x = (x.1.1, x.1.2, x.2).
Proof. by destruct x as [[??]?]. Qed.

Lemma after_nil {A} (x : outcome A * table * list event) : after [] x = x.
Proof. by destruct x as [[??]?]. Qed.

Lemma after_after {A} (tr1 tr2 : list event) (x : outcome A * table * list event) :
  after tr1 (after tr2 x) = after (tr1 ++ tr2) x.
Proof. destruct x as [[??]?]. unfold after. simpl. by rewrite app_assoc. Qed.

Lemma after_pair {A} (tr1 tr2 : list event) (r : outcome A) (t : table) :
  after tr1 (r, t, tr2) = (r, t, tr1 ++ tr2).
Proof. done. Qed.

Lemma bind_run {A B} (m : M A) (f : A -> M B) (t t1 : table) (a : A) (tr1 : list event) :
  m t = (Ret a, t1, tr1) -> bind m f t = after tr1 (f a t1).
Proof. intros H. unfold bind, after. rewrite H. by destruct (f a t1) as [[??]?]. Qed.

Lemma bind_raise {A B} (m : M A) (f : A -> M B) (t t1 : table) (e : exn)
    (tr1 : list event) :
  m t = (Raise e, t1, tr1) -> bind m f t = (Raise e, t1, tr1).
Proof. intros H. unfold bind. by rewrite H. Qed.

Lemma bind_ret {A B} (a : A) (f : A -> M B) (t : table) : bind (ret a) f t = f a t.
Proof. rewrite (bind_run _ _ t t a []); [apply after_nil | done]. Qed.

Lemma bind_lift_ret {A B} (a : A) (f : A -> M B) (t : table) :
  bind (lift (Ret a)) f t = f a t.
Proof. apply bind_ret. Qed.

Lemma bind_lift_raise {A B} (e : exn) (f : A -> M B) (t : table) :
  bind (lift (Raise e : outcome A)) f t = (Raise e, t, []).
Proof. by apply bind_raise. Qed.

Lemma attempt_run {A} (m : M A) (t t1 : table) (r : outcome A) (tr1 : list event) :
  m t = (r, t1, tr1) -> attempt m t = (Ret r, t1, tr1).
Proof. intros H. unfold attempt. by rewrite H. Qed.

Lemma bind_attempt {A B} (m : M A) (f : outcome A -> M B) (t t1 : table)
    (r : outcome A) (tr1 : list event) :
  m t = (r, t1, tr1) -> bind (attempt m) f t = after tr1 (f r t1).
Proof. intros H. apply bind_run. by apply attempt_run. Qed.

(** ** GET /tasks *)

Lemma no_number_spec (it : item) :
  no_number it = true <-> forall k v, it !! k = Some v -> holds_number v = false.
Proof. unfold no_number. by rewrite bool_decide_eq_true. Qed.

Lemma no_number_with_key (k : string) (attrs : item) :
  no_number attrs = true -> no_number (with_key k attrs) = true.
Proof.
  rewrite !no_number_spec. intros H k' v. unfold with_key.
  destruct (decide (k' = "taskId")) as [->|Hk].
  - rewrite lookup_insert_eq. by intros [= <-].
  - rewrite lookup_insert_ne by done. apply H.
Qed.

(** The list operation in one piece: the scan, then [json.dumps] of what
    the scan returned. *)
Lemma list_tasks_run (E : env) (username me : string) (groups : list string)
    (t : table) :
  let is_admin := in_groups "admin" groups in
  let filter := if is_admin then None else Some me in
  let items := if is_admin then records t
               else List.filter (assignedTo_is me) (records t) in
  TaskHandler.list_tasks E username me groups t =
    match ddb_scan_fault E with
    | Some e => (Raise e, t, [(DdbScan filter, false)])
    | None =>
        (match json_dumps_read [] items with
         | Ret _ => Ret (TaskHandler.reply 200 (JItems items))
         | Raise e => Raise e
         end, t, [(DdbScan filter, true)])
    end.
Proof.
  intros is_admin filter items. subst is_admin filter items.
  unfold TaskHandler.list_tasks, ddb_scan.
  destruct (in_groups "admin" groups); destruct (ddb_scan_fault E) as [e|];
    try reflexivity.
  - rewrite (bind_run _ _ t t (records t) [(DdbScan None, true)]) by reflexivity.
    by destruct (json_dumps_read [] (records t)) as [[]|e].
  - rewrite (bind_run _ _ t t (List.filter (assignedTo_is me) (records t))
               [(DdbScan (Some me), true)]) by reflexivity.
    by destruct (json_dumps_read [] _) as [[]|e].
Qed.

Lemma handler_get (E : env) (ev : event_t) (t : table) :
  httpMethod ev = "GET" ->
  let me := sub (authorizer_claims ev) in
  let is_admin := in_groups "admin" (default [] (cognito_groups (authorizer_claims ev))) in
  let filter := if is_admin then None else Some me in
  let items := if is_admin then records t
               else List.filter (assignedTo_is me) (records t) in
  TaskHandler.handler E ev t =
    match ddb_scan_fault E with
    | Some e => (Raise e, t, [(DdbScan filter, false)])
    | None =>
        (match json_dumps_read [] items with
         | Ret _ => Ret (task_response 200 (JItems items))
         | Raise e => Raise e
         end, t, [(DdbScan filter, true)])
    end.
Proof.
  intros Hm me is_admin filter items. subst me is_admin filter items.
  unfold TaskHandler.handler. rewrite Hm.
  change (String.eqb "GET" "OPTIONS") with false.
  change (String.eqb "GET" "GET") with true. cbv iota zeta.
  pose proof (list_tasks_run E (cognito_username (authorizer_claims ev))
                (sub (authorizer_claims ev))
                (default [] (cognito_groups (authorizer_claims ev))) t) as Hlist.
  cbv zeta in Hlist. unfold bind at 1. rewrite Hlist.
  destruct (ddb_scan_fault E) as [e|]; [done|].
  destruct (json_dumps_read [] _) as [[]|e]; [|done].
  unfold ret, task_response, TaskHandler.reply. simpl.
  by rewrite cors_union_empty.
Qed.

(** What the list operation does as long as no record it is to return
    holds a number: the response is 200; an admin receives every record of
    the table, each once, any other caller exactly the records whose
    [assignedTo] is the caller's own [sub].  The scan is the only call. *)
Lemma list_tasks_by_role (E : env) (ev : event_t) (t : table) :
  httpMethod ev = "GET" ->
  ddb_scan_fault E = None ->
  let me := sub (authorizer_claims ev) in
  let groups := default [] (cognito_groups (authorizer_claims ev)) in
  let mine (attrs : item) :=
    "admin" ∈ groups \/ attrs !! "assignedTo" = Some (VStr me) in
  (forall k attrs, t !! k = Some attrs -> mine attrs -> no_number attrs = true) ->
  exists items,
    TaskHandler.handler E ev t =
      (Ret {| statusCode := 200; headers := Some DEFAULT_CORS_HEADERS;
              body := JItems items |},
       t,
       [(DdbScan (if in_groups "admin" groups then None else Some me), true)]) /\
    (forall it, it ∈ items <->
       exists k attrs, t !! k = Some attrs /\ it = <["taskId" := VStr k]> attrs /\
                       mine attrs).
Proof.
  intros Hget Hscan me groups mine Hclean.
  rewrite (handler_get E ev t Hget), Hscan. fold me groups.
  set (items := if in_groups "admin" groups then records t
                else List.filter (assignedTo_is me) (records t)).
  assert (Hitems : forall it, it ∈ items <->
            exists k attrs, t !! k = Some attrs /\ it = <["taskId" := VStr k]> attrs /\
                            mine attrs).
  { intros it. subst items mine. cbv beta.
    destruct (in_groups "admin" groups) eqn:Hadmin.
    - apply in_groups_true in Hadmin. rewrite elem_of_records. split.
      + intros (k & attrs & Hk & ->). exists k, attrs. by repeat split; [|left].
      + intros (k & attrs & Hk & -> & _). by exists k, attrs.
    - apply in_groups_false in Hadmin.
      rewrite list_elem_of_In, filter_In, <- list_elem_of_In, elem_of_records,
        assignedTo_is_spec. split.
      + intros [(k & attrs & Hk & ->) Hmine]. exists k, attrs.
        split; [done|]. split; [done|]. right.
        unfold with_key in Hmine. by rewrite lookup_insert_ne in Hmine.
      + intros (k & attrs & Hk & -> & [?|Hmine]); [done|].
        split; [by exists k, attrs|].
        unfold with_key. by rewrite lookup_insert_ne. }
  assert (Hdumps : json_dumps_read [] items = Ret tt).
  { unfold json_dumps_read.
    assert (forallb (fun it : item => no_number (foldr delete it [])) items = true)
      as ->; [|done].
    apply forallb_forall. intros it Hin. cbn [foldr].
    apply list_elem_of_In, Hitems in Hin as (k & attrs & Hk & -> & Hmine).
    apply (no_number_with_key k attrs). by apply (Hclean k attrs). }
  rewrite Hdumps. by exists items.
Qed.

(** C1, on the code.  In the office, the admin posts a task whose deadline
    is a number and is answered 201: the record is in the table.  From then
    on the list operation answers neither the admin nor the assignee:
    [json.dumps] meets the number, which the table hands back as a
    [Decimal], and the run raises [TypeError] after the scan; no response
    is returned, so none with status 200.  A caller whose own records hold
    no number is still answered. *)
Theorem list_raises_on_a_stored_number :
  let post := TaskHandler.handler office_env post_numeric_deadline office_table in
  let t := post.1.2 in
  post.1.1 = Ret (response_of post) /\
  statusCode (response_of post) = 201 /\
  t !! uuid4 office_env ≫= (fun attrs : item => attrs !! "deadline") =
    Some (VInt 20251231) /\
  TaskHandler.handler office_env get_by_root t =
    (Raise not_serializable, t, [(DdbScan None, true)]) /\
  TaskHandler.handler office_env get_by_alice t =
    (Raise not_serializable, t, [(DdbScan (Some "sub-alice"), true)]) /\
  statusCode (response_of (TaskHandler.handler office_env get_by_bob t)) = 200.
Proof.
  intros post t.
  split; [by_evaluation|].
  split; [by_evaluation|].
  split; [by_evaluation|].
  split; [by_evaluation|].
  split; by_evaluation.
Qed.

(** ** The service calls, when they go through *)

Lemma ddb_get_item_run (E : env) (k : string) (t : table) :
  ddb_get_item_fault E (VStr k) = None ->
  ddb_get_item E (VStr k) t = (Ret (stored t k), t, [(DdbGetItem (VStr k), true)]).
Proof. intros H. unfold ddb_get_item. by rewrite H. Qed.

Lemma ddb_put_item_run (E : env) (it : item) (k : string) (t : table) :
  ddb_put_item_fault E it = None ->
  it !! "taskId" = Some (VStr k) ->
  ddb_put_item E it t =
    (Ret tt, <[k := delete "taskId" it]> t, [(DdbPutItem it, true)]).
Proof. intros Hf H. unfold ddb_put_item. by rewrite Hf, H. Qed.

Lemma ddb_put_item_fails (E : env) (it : item) (e : exn) (t : table) :
  ddb_put_item_fault E it = Some e ->
  ddb_put_item E it t = (Raise e, t, [(DdbPutItem it, false)]).
Proof. intros Hf. unfold ddb_put_item. by rewrite Hf. Qed.

(** ** PUT /tasks *)

(** The record an update writes back. *)
Lemma rewritten_taskId (rec : item) (k : string) (status updatedAt : pyval) :
  rec !! "taskId" = Some (VStr k) ->
  (<["updatedAt" := updatedAt]> (<["status" := status]> rec)) !! "taskId" = Some (VStr k).
Proof. intros H. by rewrite !lookup_insert_ne. Qed.

Lemma stored_taskId (t : table) (k : string) (rec : item) :
  stored t k = Some rec -> rec !! "taskId" = Some (VStr k).
Proof.
  unfold stored. destruct (t !! k); simpl; [|done]. intros [= <-]. apply with_key_taskId.
Qed.

Lemma stored_nonempty (t : table) (k : string) (rec : item) :
  stored t k = Some rec -> rec ≠ ∅.
Proof.
  unfold stored. destruct (t !! k); simpl; [|done]. intros [= <-]. apply with_key_nonempty.
Qed.

(** What [update_task] does once the request names a record of the table. *)
Lemma update_task_found (E : env) (d : list (string * pyval)) (tid : string)
    (new_status : pyval) (by_username by_sub : string) (groups : list string)
    (t : table) (rec : item) :
  assoc "taskId" d = Some (VStr tid) -> tid <> "" ->
  assoc "status" d = Some new_status -> truthy new_status = true ->
  ddb_get_item_fault E (VStr tid) = None ->
  stored t tid = Some rec ->
  let get := (DdbGetItem (VStr tid), true) in
  let assigned := item_get rec "assignedTo" in
  let old_status := item_get rec "status" in
  let new := <["updatedAt" := VStr (utcnow_isoformat E 0)]> (<["status" := new_status]> rec) in
  let t' := <[tid := delete "taskId" new]> t in
  let ok : outcome response :=
    match json_dumps_read ["status"; "updatedAt"] [new] with
    | Ret _ => Ret (TaskHandler.reply 200 (JUpdated [Lit "Task updated successfully"] new))
    | Raise e => Raise e
    end in
  TaskHandler.update_task E (VDict d) by_username by_sub groups t =
    if negb (in_groups "admin" groups) && py_ne assigned (VStr by_sub) then
      (Ret (TaskHandler.reply 403
              (JError [Lit "Unauthorized. You can only update tasks assigned to you."])),
       t, [get])
    else
      match ddb_put_item_fault E new with
      | Some _ =>
          (Ret (TaskHandler.reply 500 (JError [Lit "Could not update task"])), t,
           [get; (DdbPutItem new, false)])
      | None =>
          if py_ne new_status old_status then
            match new !! "description" with
            | None => (Raise (KeyError "description"), t', [get; (DdbPutItem new, true)])
            | Some description =>
                match Notifications.send_status_update_notification E
                        (VStr tid) description old_status new_status
                        by_username assigned t' with
                | (Ret _, t'', ntr) => (ok, t'', get :: (DdbPutItem new, true) :: ntr)
                | (Raise e, t'', ntr) => (Raise e, t'', get :: (DdbPutItem new, true) :: ntr)
                end
            end
          else (ok, t', [get; (DdbPutItem new, true)])
      end.
Proof.
  intros Hid Hne Hst Htruthy Hget Hrec. simpl.
  unfold TaskHandler.update_task. simpl py_get. rewrite Hid, Hst. simpl default.
  rewrite !bind_lift_ret.
  rewrite (proj2 (truthy_str tid) Hne), Htruthy. cbn [negb orb].
  rewrite (bind_attempt _ _ _ _ _ _ (ddb_get_item_run E tid t Hget)).
  rewrite Hrec. unfold TaskHandler.no_item.
  rewrite bool_decide_eq_false_2 by (by eapply stored_nonempty).
  destruct (negb (in_groups "admin" groups) && py_ne (item_get rec "assignedTo") (VStr by_sub)).
  { done. }
  rewrite (bind_run _ _ _ _ _ _ (now_utc_isoformat_runs E 0 t)), after_nil.
  destruct (ddb_put_item_fault E _) as [e|] eqn:Hput.
  { by rewrite (bind_attempt _ _ _ _ _ _ (ddb_put_item_fails E _ e t Hput)). }
  rewrite (bind_attempt _ _ _ _ _ _
             (ddb_put_item_run E _ tid t Hput
                (rewritten_taskId _ _ _ _ (stored_taskId _ _ _ Hrec)))).
  destruct (py_ne new_status (item_get rec "status")).
  2: { rewrite bind_ret.
       destruct (json_dumps_read _ _) as [[]|e]; [by rewrite bind_lift_ret|].
       by rewrite bind_lift_raise. }
  unfold item_index.
  destruct (_ !! "description") as [description|].
  2: { reflexivity. }
  destruct (Notifications.send_status_update_notification _ _ _ _ _ _ _ _)
    as [[[b|e] t''] ntr] eqn:Hn;
    destruct (json_dumps_read _ _) as [[]|e'];
    unfold after, bind, lift, ret; simpl; rewrite Hn; simpl;
    by rewrite ?app_nil_r.
Qed.

(** What [json.dumps] makes of a rewritten record: only the attributes the
    update did not assign can stand in its way. *)
Lemma json_dumps_rewritten (rec : item) (status updatedAt : pyval) :
  json_dumps_read ["status"; "updatedAt"]
    [<["updatedAt" := updatedAt]> (<["status" := status]> rec)] =
  if no_number (delete "status" (delete "updatedAt" rec)) then Ret tt
  else Raise not_serializable.
Proof.
  unfold json_dumps_read. cbn [forallb foldr]. rewrite andb_true_r.
  rewrite delete_insert_eq, (delete_insert_ne _ "updatedAt" "status") by done.
  by rewrite delete_insert_eq.
Qed.

Lemma given_inv (d : list (string * pyval)) (k : string) :
  given d k = true -> exists v, assoc k d = Some v /\ truthy v = true.
Proof.
  unfold given. destruct (assoc k d) as [v|]; simpl; [|done]. intros H. by exists v.
Qed.

(** C2, as the code has it.  A PUT request that names a record of the table
    and carries a status, from a caller who is neither an admin nor the
    record's assignee, is answered 403; the table is left as it was and the
    only call made is the read of the record. *)
Theorem update_by_stranger_is_forbidden (E : env) (ev : event_t) (t : table)
    (d : list (string * pyval)) (tid : string) (rec : item) :
  httpMethod ev = "PUT" ->
  event_body ev = json d ->
  assoc "taskId" d = Some (VStr tid) -> tid <> "" ->
  given d "status" = true ->
  ddb_get_item_fault E (VStr tid) = None ->
  stored t tid = Some rec ->
  "admin" ∉ default [] (cognito_groups (authorizer_claims ev)) ->
  rec !! "assignedTo" <> Some (VStr (sub (authorizer_claims ev))) ->
  TaskHandler.handler E ev t =
    (Ret {| statusCode := 403; headers := Some DEFAULT_CORS_HEADERS;
            body := JError [Lit "Unauthorized. You can only update tasks assigned to you."] |},
     t, [(DdbGetItem (VStr tid), true)]).
Proof.
  intros Hm Hb Hid Hne Hst Hget Hrec Hadmin Hother.
  apply given_inv in Hst as (new_status & Hst & Htruthy).
  rewrite (handler_put E ev t (VDict d) Hm Hb).
  rewrite (update_task_found E d tid new_status _ _ _ t rec Hid Hne Hst Htruthy Hget Hrec).
  rewrite (proj2 (in_groups_false _ _) Hadmin).
  rewrite (proj2 (py_ne_str rec "assignedTo" _) Hother).
  simpl. by rewrite with_cors_reply.
Qed.

Lemma update_by_stranger_is_forbidden_witness :
  TaskHandler.handler office_env put_done_by_bob office_table =
    (Ret {| statusCode := 403; headers := Some DEFAULT_CORS_HEADERS;
            body := JError [Lit "Unauthorized. You can only update tasks assigned to you."] |},
     office_table, [(DdbGetItem (VStr "t1"), true)]).
Proof.
  apply (update_by_stranger_is_forbidden office_env put_done_by_bob office_table
           done_t1 "t1" record_t1).
  - reflexivity.
  - reflexivity.
  - reflexivity.
  - discriminate.
  - reflexivity.
  - reflexivity.
  - exact stored_t1.
  - apply in_groups_false. reflexivity.
  - rewrite record_t1_assignedTo. discriminate.
Defined.

(** C2 as stated fails: the same stranger's request without a status names
    record [t1], which is assigned to someone else, and is answered 400, not
    403 (the table is left as it was). *)
Lemma update_without_status_is_400 :
  httpMethod put_without_status_by_bob = "PUT" /\
  event_body put_without_status_by_bob = json [("taskId", VStr "t1")] /\
  stored office_table "t1" = Some record_t1 /\
  record_t1 !! "assignedTo" = Some (VStr "sub-alice") /\
  sub (authorizer_claims put_without_status_by_bob) = "sub-bob" /\
  ("admin" ∉ default [] (cognito_groups (authorizer_claims put_without_status_by_bob))) /\
  TaskHandler.handler office_env put_without_status_by_bob office_table =
    (Ret {| statusCode := 400; headers := Some DEFAULT_CORS_HEADERS;
            body := JError [Lit "taskId and status are required"] |},
     office_table, []).
Proof.
  split; [reflexivity|]. split; [reflexivity|].
  split; [exact stored_t1|]. split; [exact record_t1_assignedTo|].
  split; [reflexivity|].
  split; [apply in_groups_false; reflexivity|].
  by_evaluation.
Qed.

(** ** POST /tasks *)

(** What [create_task] does for an admin, path by path.  [v] is the value
    of [data.get('assignedTo')]. *)

Ltac create_task_prefix Hadmin Hv :=
  unfold TaskHandler.create_task;
  rewrite (proj2 (in_groups_true _ _) Hadmin); cbn [negb];
  match goal with
  | |- context [py_get (VDict ?d) "assignedTo"] =>
      change (py_get (VDict d) "assignedTo")
        with (Ret (default VNone (assoc "assignedTo" d)) : outcome pyval)
  end;
  rewrite bind_lift_ret, Hv; cbn [negb];
  unfold list_users_by_sub, directory_read.

Lemma create_task_not_admin (E : env) (data : pyval) (by_username : string)
    (groups : list string) (t : table) :
  "admin" ∉ groups ->
  TaskHandler.create_task E data by_username groups t =
    (Ret (TaskHandler.reply 403
            (JError [Lit "Unauthorized. Only admins can create tasks."])), t, []).
Proof.
  intros H. unfold TaskHandler.create_task.
  by rewrite (proj2 (in_groups_false _ _) H).
Qed.

Lemma create_task_no_assignee (E : env) (d : list (string * pyval))
    (by_username : string) (groups : list string) (t : table) :
  "admin" ∈ groups ->
  given d "assignedTo" = false ->
  TaskHandler.create_task E (VDict d) by_username groups t =
    (Ret (TaskHandler.reply 400 (JError [Lit "assignedTo (user sub) is required"])),
     t, []).
Proof. intros Hadmin Hv. unfold given in Hv. by create_task_prefix Hadmin Hv. Qed.

Lemma create_task_lookup_raises (E : env) (d : list (string * pyval))
    (by_username : string) (groups : list string) (t : table) (e : exn) :
  "admin" ∈ groups ->
  given d "assignedTo" = true ->
  let v := default VNone (assoc "assignedTo" d) in
  cognito_list_users_by_sub E v = Raise e ->
  TaskHandler.create_task E (VDict d) by_username groups t =
    (Ret (TaskHandler.reply 500 (JError [Lit (lookup_error_text e); FmtExn e])),
     t, [(CognitoListUsersBySub v, false)]).
Proof.
  intros Hadmin Hv v Hl. unfold given in Hv.
  destruct e; create_task_prefix Hadmin Hv; fold v; rewrite Hl; reflexivity.
Qed.

Lemma create_task_not_one (E : env) (d : list (string * pyval))
    (by_username : string) (groups : list string) (t : table)
    (us : list cognito_user) :
  "admin" ∈ groups ->
  given d "assignedTo" = true ->
  let v := default VNone (assoc "assignedTo" d) in
  cognito_list_users_by_sub E v = Ret us ->
  length us <> 1%nat ->
  TaskHandler.create_task E (VDict d) by_username groups t =
    (Ret (TaskHandler.reply 404
            (JError [Lit "Assigned user (sub: "; Fmt v; Lit ") not found."])),
     t, [(CognitoListUsersBySub v, true)]).
Proof.
  intros Hadmin Hv v Hl Hlen. unfold given in Hv.
  create_task_prefix Hadmin Hv. fold v. rewrite Hl.
  by destruct us as [|u [|u' us]].
Qed.

Lemma create_task_one (E : env) (d : list (string * pyval))
    (by_username : string) (groups : list string) (t : table) (u : cognito_user) :
  "admin" ∈ groups ->
  given d "assignedTo" = true ->
  let v := default VNone (assoc "assignedTo" d) in
  cognito_list_users_by_sub E v = Ret [u] ->
  let lookup := (CognitoListUsersBySub v, true) in
  let user_email := first_attr "email" (Attributes u) in
  TaskHandler.create_task E (VDict d) by_username groups t =
    if negb (opt_truthy user_email) then
      (Ret (TaskHandler.reply 400
              (JError [Lit "Assigned user (sub: "; Fmt v;
                       Lit ") does not have an email address."])),
       t, [lookup])
    else
      match assoc "deadline" d with
      | None => (Raise (KeyError "deadline"), t, [lookup])
      | Some deadline =>
          match assoc "description" d with
          | None => (Raise (KeyError "description"), t, [lookup])
          | Some description =>
              let item : item :=
                list_to_map
                  [("taskId", VStr (uuid4 E)); ("assignedTo", v);
                   ("status", VStr "New"); ("deadline", deadline);
                   ("description", description);
                   ("createdBy", VStr by_username);
                   ("createdAt", VStr (utcnow_isoformat E 0));
                   ("updatedAt", VStr (utcnow_isoformat E 1))] in
              match ddb_put_item_fault E item with
              | Some _ =>
                  (Ret (TaskHandler.reply 500
                          (JError [Lit "Could not create task in database."])),
                   t, [lookup; (DdbPutItem item, false)])
              | None =>
                  let t' := <[uuid4 E := delete "taskId" item]> t in
                  match Notifications.send_task_assignment_email E
                          (default "" user_email) description deadline
                          (Username u) t' with
                  | (Ret _, t'', etr) =>
                      (Ret (TaskHandler.reply 201 (JItem item)), t'',
                       lookup :: (DdbPutItem item, true) :: etr)
                  | (Raise e, t'', etr) =>
                      (Raise e, t'', lookup :: (DdbPutItem item, true) :: etr)
                  end
              end
          end
      end.
Proof.
  intros Hadmin Hv v Hl lookup user_email. unfold given in Hv.
  create_task_prefix Hadmin Hv. fold v. rewrite Hl.
  unfold bind at 1. unfold attempt at 1. unfold bind at 1. simpl.
  fold user_email.
  destruct (opt_truthy user_email) eqn:Hemail; cbn [negb]; [|done].
  unfold py_index.
  destruct (assoc "deadline" d) as [deadline|]; [|done].
  destruct (assoc "description" d) as [description|]; [|done].
  rewrite !bind_lift_ret.
  rewrite (bind_run _ _ _ _ _ _ (now_utc_isoformat_runs E 0 t)), after_nil.
  rewrite (bind_run _ _ _ _ _ _ (now_utc_isoformat_runs E 1 t)), after_nil.
  destruct (ddb_put_item_fault E _) as [e|] eqn:Hput.
  { by rewrite (bind_attempt _ _ _ _ _ _ (ddb_put_item_fails E _ e t Hput)). }
  rewrite (bind_attempt _ _ _ _ _ _
             (ddb_put_item_run E _ (uuid4 E) t Hput (lookup_insert_eq _ _ _))).
  destruct (Notifications.send_task_assignment_email _ _ _ _ _ _)
    as [[[b|e] t''] etr] eqn:Hn;
    unfold after, bind, lift, ret; simpl; rewrite Hn; simpl;
    by rewrite ?app_nil_r.
Qed.

(** C5. An admin's POST request has [assignedTo] in its body; the run looks
    the identifier up in the directory and the directory answers with no
    user or with several.  Then the response is 404, the table is left as it
    was, and the lookup is the only call of the run (no record is put). *)
Theorem create_for_unknown_assignee (E : env) (ev : event_t) (t : table)
    (d : list (string * pyval)) (v : pyval) (us : list cognito_user)
    (result : outcome response) (t' : table) (tr : list event) :
  httpMethod ev = "POST" ->
  event_body ev = json d ->
  "admin" ∈ default [] (cognito_groups (authorizer_claims ev)) ->
  assoc "assignedTo" d = Some v ->
  TaskHandler.handler E ev t = (result, t', tr) ->
  answered is_lookup_by_sub tr = true ->
  cognito_list_users_by_sub E v = Ret us ->
  length us <> 1%nat ->
  result = Ret {| statusCode := 404; headers := Some DEFAULT_CORS_HEADERS;
                  body := JError [Lit "Assigned user (sub: "; Fmt v;
                                  Lit ") not found."] |} /\
  t' = t /\
  tr = [(CognitoListUsersBySub v, true)].
Proof.
  intros Hm Hb Hadmin Hv Hrun Hasked Hl Hlen.
  rewrite (handler_post E ev t (VDict d) Hm Hb) in Hrun.
  destruct (given d "assignedTo") eqn:Hgiven.
  - rewrite (create_task_not_one E d _ _ t us Hadmin Hgiven) in Hrun;
      rewrite ?Hv; simpl; try done.
    rewrite Hv in Hrun. simpl in Hrun. rewrite with_cors_reply in Hrun.
    by injection Hrun as <- <- <-.
  - rewrite (create_task_no_assignee E d _ _ t Hadmin Hgiven) in Hrun.
    injection Hrun as <- <- <-. discriminate.
Qed.

Lemma create_for_unknown_assignee_witness :
  TaskHandler.handler office_env post_for_carol office_table =
  (Ret {| statusCode := 404; headers := Some DEFAULT_CORS_HEADERS;
          body := JError [Lit "Assigned user (sub: "; Fmt (VStr "sub-carol");
                          Lit ") not found."] |},
   office_table, [(CognitoListUsersBySub (VStr "sub-carol"), true)]).
Proof.
  pose (run := TaskHandler.handler office_env post_for_carol office_table).
  pose proof (run_eta run) as Hrun.
  assert (Hasked : answered is_lookup_by_sub run.2 = true)
    by (by_evaluation).
  destruct (create_for_unknown_assignee office_env post_for_carol office_table
              cards_for_carol (VStr "sub-carol") [] run.1.1 run.1.2 run.2
              eq_refl eq_refl
              (proj1 (in_groups_true "admin" ["admin"]) eq_refl) eq_refl Hrun
              Hasked eq_refl (fun H : 0%nat = 1%nat => O_S 0 H))
    as (H1 & H2 & H3).
  fold run. rewrite Hrun, H1, H2, H3. reflexivity.
Defined.

(** C3, on the code.  An admin's POST request without [deadline], for an
    assignee the directory knows: the run raises [KeyError] after the
    lookup; no response is returned (so none with status 400) and nothing
    is written. *)
Theorem create_without_deadline_raises :
  TaskHandler.handler office_env post_without_deadline office_table =
  (Raise (KeyError "deadline"), office_table,
   [(CognitoListUsersBySub (VStr "sub-alice"), true)]).
Proof. by_evaluation. Qed.

(** The same without [description]. *)
Lemma create_without_description_raises :
  TaskHandler.handler office_env post_without_description office_table =
  (Raise (KeyError "description"), office_table,
   [(CognitoListUsersBySub (VStr "sub-alice"), true)]).
Proof. by_evaluation. Qed.

(** Without [deadline] and for an assignee the directory does not know, the
    answer is 404. *)
Lemma create_without_deadline_unknown_assignee :
  TaskHandler.handler office_env post_without_deadline_for_carol office_table =
  (Ret {| statusCode := 404; headers := Some DEFAULT_CORS_HEADERS;
          body := JError [Lit "Assigned user (sub: "; Fmt (VStr "sub-carol");
                          Lit ") not found."] |},
   office_table, [(CognitoListUsersBySub (VStr "sub-carol"), true)]).
Proof. by_evaluation. Qed.

(** The part of C3 the code does keep: without [assignedTo] the answer is
    400 and no call is made. *)
Lemma create_without_assignee (E : env) (ev : event_t) (t : table)
    (d : list (string * pyval)) :
  httpMethod ev = "POST" ->
  event_body ev = json d ->
  "admin" ∈ default [] (cognito_groups (authorizer_claims ev)) ->
  given d "assignedTo" = false ->
  TaskHandler.handler E ev t =
    (Ret {| statusCode := 400; headers := Some DEFAULT_CORS_HEADERS;
            body := JError [Lit "assignedTo (user sub) is required"] |}, t, []).
Proof.
  intros Hm Hb Hadmin Hv.
  rewrite (handler_post E ev t (VDict d) Hm Hb).
  rewrite (create_task_no_assignee E d _ _ t Hadmin Hv).
  by rewrite with_cors_reply.
Qed.

(** ** PUT /tasks: the ways out before the record is found *)

Ltac update_task_prefix :=
  unfold TaskHandler.update_task;
  match goal with
  | |- context [py_get (VDict ?d) "taskId"] =>
      change (py_get (VDict d) "taskId")
        with (Ret (default VNone (assoc "taskId" d)) : outcome pyval);
      change (py_get (VDict d) "status")
        with (Ret (default VNone (assoc "status" d)) : outcome pyval)
  end;
  rewrite !bind_lift_ret.

Lemma update_task_bad_request (E : env) (d : list (string * pyval))
    (by_username by_sub : string) (groups : list string) (t : table) :
  given d "taskId" && given d "status" = false ->
  TaskHandler.update_task E (VDict d) by_username by_sub groups t =
    (Ret (TaskHandler.reply 400 (JError [Lit "taskId and status are required"])), t, []).
Proof.
  unfold given. intros H. update_task_prefix.
  rewrite <- negb_andb, H. reflexivity.
Qed.

Lemma update_task_get_raises (E : env) (d : list (string * pyval))
    (by_username by_sub : string) (groups : list string) (t : table) :
  given d "taskId" && given d "status" = true ->
  let task_id := default VNone (assoc "taskId" d) in
  (ddb_get_item_fault E task_id <> None \/ forall tid, task_id <> VStr tid) ->
  TaskHandler.update_task E (VDict d) by_username by_sub groups t =
    (Ret (TaskHandler.reply 500 (JError [Lit "Could not retrieve task"])), t,
     [(DdbGetItem task_id, false)]).
Proof.
  intros H task_id Hbad. unfold given in H. update_task_prefix.
  rewrite <- negb_andb, H. cbn [negb]. fold task_id.
  unfold ddb_get_item.
  destruct (ddb_get_item_fault E task_id) as [e|] eqn:Hf; [reflexivity|].
  destruct Hbad as [Hbad|Hbad]; [done|].
  destruct task_id; try reflexivity. by destruct (Hbad s).
Qed.

Lemma update_task_not_found (E : env) (d : list (string * pyval))
    (by_username by_sub : string) (groups : list string) (t : table) (tid : string) :
  given d "taskId" && given d "status" = true ->
  assoc "taskId" d = Some (VStr tid) ->
  ddb_get_item_fault E (VStr tid) = None ->
  stored t tid = None ->
  TaskHandler.update_task E (VDict d) by_username by_sub groups t =
    (Ret (TaskHandler.reply 404 (JError [Lit "Task not found"])), t,
     [(DdbGetItem (VStr tid), true)]).
Proof.
  unfold given. intros H Hid Hf Hnone. update_task_prefix.
  rewrite <- negb_andb, H. cbn [negb]. rewrite Hid. simpl default.
  rewrite (bind_attempt _ _ _ _ _ _ (ddb_get_item_run E tid t Hf)).
  by rewrite Hnone.
Qed.

(** An update that is answered 200 named a record of the table and carried a
    status, and the read of the record went through. *)
Lemma update_task_200_inv (E : env) (d : list (string * pyval))
    (by_username by_sub : string) (groups : list string) (t t' : table)
    (resp : response) (tr : list event) :
  TaskHandler.update_task E (VDict d) by_username by_sub groups t = (Ret resp, t', tr) ->
  statusCode resp = 200 ->
  exists tid new_status rec,
    assoc "taskId" d = Some (VStr tid) /\ tid <> "" /\
    assoc "status" d = Some new_status /\ truthy new_status = true /\
    ddb_get_item_fault E (VStr tid) = None /\
    stored t tid = Some rec.
Proof.
  intros Hrun H200.
  destruct (given d "taskId" && given d "status") eqn:Hgiven.
  2: { rewrite (update_task_bad_request E d _ _ _ t Hgiven) in Hrun.
       by injection Hrun as <- <- <-. }
  pose proof Hgiven as Hboth.
  apply andb_true_iff in Hboth as [Hid Hst].
  apply given_inv in Hid as (task_id & Hid & Htid).
  apply given_inv in Hst as (new_status & Hst & Hnew).
  destruct (ddb_get_item_fault E task_id) as [e|] eqn:Hf.
  { rewrite (update_task_get_raises E d _ _ _ t Hgiven) in Hrun.
    - by injection Hrun as <- <- <-.
    - left. rewrite Hid. simpl. by rewrite Hf. }
  assert ((exists tid, task_id = VStr tid) \/ forall tid, task_id <> VStr tid)
    as [[tid ->]|Hnostr] by (destruct task_id; eauto).
  2: { rewrite (update_task_get_raises E d _ _ _ t Hgiven) in Hrun.
       - by injection Hrun as <- <- <-.
       - right. rewrite Hid. simpl. apply Hnostr. }
  destruct (stored t tid) as [rec|] eqn:Hrec.
  2: { rewrite (update_task_not_found E d _ _ _ t tid Hgiven Hid Hf Hrec) in Hrun.
       by injection Hrun as <- <- <-. }
  exists tid, new_status, rec. repeat split; try done.
  by apply truthy_str.
Qed.

(** ** The notification helpers *)

Lemma service_write_run (c : call) (fault : option exn) (t : table) :
  service_write c fault t =
    match fault with
    | None => (Ret tt, t, [(c, true)])
    | Some e => (Raise e, t, [(c, false)])
    end.
Proof. by destruct fault. Qed.

Lemma email_unconfigured (E : env) (recipient : string) (description deadline : pyval)
    (assignee : string) (t : table) :
  Notifications.ses_client E = false ->
  Notifications.send_task_assignment_email E recipient description deadline assignee t =
    (Ret false, t, []).
Proof. intros H. unfold Notifications.send_task_assignment_email. by rewrite H. Qed.

(** The email helper always returns: it sends nothing and returns [False],
    or it makes one send call and returns whether the call went through. *)
Lemma email_returns (E : env) (recipient : string) (description deadline : pyval)
    (assignee : string) (t : table) :
  Notifications.send_task_assignment_email E recipient description deadline assignee t =
    (Ret false, t, []) \/
  exists m,
    Notifications.ses_client E = true /\
    Notifications.send_task_assignment_email E recipient description deadline assignee t =
      (Ret (mail_accepts E m), t, [(SesSendEmail m, mail_accepts E m)]).
Proof.
  unfold Notifications.send_task_assignment_email.
  destruct (Notifications.ses_client E); cbn [negb]; [|by left].
  destruct (String.eqb recipient ""); [by left|].
  right.
  match goal with |- context [ses_send_email E ?m] => exists m end.
  split; [done|].
  unfold ses_send_email, mail_accepts, bind, attempt.
  rewrite service_write_run.
  by destruct (ses_send_email_fault E _).
Qed.

Lemma topic_unconfigured (E : env) (task_id description old_status new_status : pyval)
    (by_username : string) (assigned : pyval) (t : table) :
  Notifications.sns_client E = false ->
  Notifications.send_status_update_notification E task_id description old_status
    new_status by_username assigned t = (Ret false, t, []).
Proof. intros H. unfold Notifications.send_status_update_notification. by rewrite H. Qed.

Lemma topic_unsliceable (E : env) (task_id description old_status new_status : pyval)
    (by_username : string) (assigned : pyval) (t : table) (e : exn) :
  Notifications.sns_client E = true ->
  py_slice50 description = Raise e ->
  Notifications.send_status_update_notification E task_id description old_status
    new_status by_username assigned t = (Raise e, t, []).
Proof.
  intros H Hs. unfold Notifications.send_status_update_notification.
  rewrite H, Hs. cbn [negb]. by rewrite bind_lift_raise.
Qed.

(** With the topic configured and a description that can be cut, the helper
    makes one publish call, after at most one read of the directory, and
    returns whether the publish went through. *)
Lemma topic_configured (E : env) (task_id description old_status new_status : pyval)
    (by_username : string) (assigned : pyval) (t : table) (short : pyval) :
  Notifications.sns_client E = true ->
  py_slice50 description = Ret short ->
  exists pre m,
    Notifications.send_status_update_notification E task_id description old_status
      new_status by_username assigned t =
      (Ret (topic_accepts E m), t, pre ++ [(SnsPublish m, topic_accepts E m)]) /\
    (pre = [] \/ exists ok, pre = [(CognitoAdminGetUser assigned, ok)]).
Proof.
  intros H Hs. unfold Notifications.send_status_update_notification.
  rewrite H, Hs. cbn [negb]. rewrite bind_lift_ret.
  destruct (truthy assigned && Notifications.cognito_client E && opt_truthy (USER_POOL_ID E)).
  - unfold admin_get_user, directory_read.
    destruct (cognito_admin_get_user E assigned) as [attrs|e];
      unfold bind, attempt, sns_publish, service_write, emit, ret, raise; simpl;
      (eexists [_];
       match goal with |- context [sns_publish_fault E ?m] => exists m end;
       split; [|right; eexists; reflexivity]);
      unfold topic_accepts;
      by destruct (sns_publish_fault E _).
  - destruct (truthy assigned);
      unfold bind, attempt, sns_publish, service_write, emit, ret, raise; simpl;
      (exists [];
       match goal with |- context [sns_publish_fault E ?m] => exists m end;
       split; [|by left]);
      unfold topic_accepts;
      by destruct (sns_publish_fault E _).
Qed.

(** The topic helper leaves the table alone. *)
Lemma topic_helper_table (E : env) (task_id description old_status new_status : pyval)
    (by_username : string) (assigned : pyval) (t t' : table)
    (r : outcome bool) (ntr : list event) :
  Notifications.send_status_update_notification E task_id description old_status
    new_status by_username assigned t = (r, t', ntr) ->
  t' = t.
Proof.
  intros Hrun.
  destruct (Notifications.sns_client E) eqn:Hc.
  - destruct (py_slice50 description) as [short|e] eqn:Hs.
    + destruct (topic_configured E task_id description old_status new_status
                  by_username assigned t short Hc Hs) as (pre & m & Heq & _).
      rewrite Heq in Hrun. by injection Hrun as _ <- _.
    + rewrite (topic_unsliceable E _ _ _ _ _ _ t e Hc Hs) in Hrun.
      by injection Hrun as _ <- _.
  - rewrite (topic_unconfigured E _ _ _ _ _ _ t Hc) in Hrun.
    by injection Hrun as _ <- _.
Qed.

(** ** PUT /tasks: an update that is answered 200 *)

(** Everything such a run did: it read the record, wrote it back with the
    new status and time, and, if the status changed, called the topic
    helper, which returned. *)
Lemma update_task_200 (E : env) (d : list (string * pyval))
    (by_username by_sub : string) (groups : list string) (t t' : table)
    (resp : response) (tr : list event) :
  TaskHandler.update_task E (VDict d) by_username by_sub groups t = (Ret resp, t', tr) ->
  statusCode resp = 200 ->
  exists tid new_status rec ntr,
    assoc "taskId" d = Some (VStr tid) /\ tid <> "" /\
    assoc "status" d = Some new_status /\ truthy new_status = true /\
    ddb_get_item_fault E (VStr tid) = None /\
    stored t tid = Some rec /\
    negb (in_groups "admin" groups) && py_ne (item_get rec "assignedTo") (VStr by_sub) = false /\
    let new := <["updatedAt" := VStr (utcnow_isoformat E 0)]>
                 (<["status" := new_status]> rec) in
    ddb_put_item_fault E new = None /\
    t' = <[tid := delete "taskId" new]> t /\
    resp = TaskHandler.reply 200 (JUpdated [Lit "Task updated successfully"] new) /\
    tr = (DdbGetItem (VStr tid), true) :: (DdbPutItem new, true) :: ntr /\
    if py_ne new_status (item_get rec "status") then
      exists description b,
        new !! "description" = Some description /\
        Notifications.send_status_update_notification E (VStr tid) description
          (item_get rec "status") new_status by_username (item_get rec "assignedTo") t' =
          (Ret b, t', ntr)
    else ntr = [].
Proof.
  intros Hrun H200.
  destruct (update_task_200_inv E d _ _ _ t t' resp tr Hrun H200)
    as (tid & new_status & rec & Hid & Hne & Hst & Hnew & Hf & Hrec).
  rewrite (update_task_found E d tid new_status _ _ _ t rec Hid Hne Hst Hnew Hf Hrec)
    in Hrun.
  destruct (negb (in_groups "admin" groups) && _) eqn:Hauth.
  { by injection Hrun as <- <- <-. }
  destruct (ddb_put_item_fault E _) as [e|] eqn:Hput.
  { by injection Hrun as <- <- <-. }
  destruct (json_dumps_read _ _) as [[]|e'] eqn:Hdumps.
  2: { destruct (py_ne new_status (item_get rec "status")); [|done].
       destruct (_ !! "description") as [description|]; [|done].
       by destruct (Notifications.send_status_update_notification _ _ _ _ _ _ _ _)
         as [[[b|e] t''] ntr]. }
  destruct (py_ne new_status (item_get rec "status")) eqn:Hdiff.
  - destruct (_ !! "description") as [description|] eqn:Hdesc; [|done].
    destruct (Notifications.send_status_update_notification _ _ _ _ _ _ _ _)
      as [[[b|e] t''] ntr] eqn:Hn; [|done].
    pose proof (topic_helper_table _ _ _ _ _ _ _ _ _ _ _ Hn) as ->.
    injection Hrun as <- <- <-.
    exists tid, new_status, rec, ntr. rewrite Hdiff.
    repeat (split; [done|]). by exists description, b.
  - injection Hrun as <- <- <-.
    exists tid, new_status, rec, []. rewrite Hdiff. by repeat (split; [done|]).
Qed.

(** C7. A PUT request that is answered 200 names a record of the table and
    carries a status.  The record the table holds afterwards under that key
    (also returned in the body) has the request's status and the time of the
    update, and every other attribute ([taskId], [assignedTo], [deadline],
    [description], [createdBy], [createdAt], ...) as it was; the other
    records of the table are as they were. *)
Theorem update_rewrites_status_and_time (E : env) (ev : event_t) (t t' : table)
    (d : list (string * pyval)) (resp : response) (tr : list event) :
  httpMethod ev = "PUT" ->
  event_body ev = json d ->
  TaskHandler.handler E ev t = (Ret resp, t', tr) ->
  statusCode resp = 200 ->
  exists (tid : string) (new_status : pyval) (old new : item),
    assoc "taskId" d = Some (VStr tid) /\
    assoc "status" d = Some new_status /\
    stored t tid = Some old /\
    stored t' tid = Some new /\
    body resp = JUpdated [Lit "Task updated successfully"] new /\
    new !! "status" = Some new_status /\
    new !! "updatedAt" = Some (VStr (utcnow_isoformat E 0)) /\
    (forall k : string, k <> "status" -> k <> "updatedAt" -> new !! k = old !! k) /\
    (forall k : string, k <> tid -> t' !! k = t !! k).
Proof.
  intros Hm Hb Hrun H200.
  rewrite (handler_put E ev t (VDict d) Hm Hb) in Hrun.
  destruct (TaskHandler.update_task _ _ _ _ _ _) as [[[r|e] t1] tr1] eqn:Hup; [|done].
  injection Hrun as <- <- <-. simpl in H200.
  destruct (update_task_200 E d _ _ _ t t1 r tr1 Hup H200)
    as (tid & new_status & rec & ntr & Hid & Hne & Hst & Hnew & Hf & Hrec & Hauth
        & Hput & -> & -> & -> & _).
  eexists tid, new_status, rec, _. repeat split; try done.
  - unfold stored. rewrite lookup_insert_eq. simpl. f_equal.
    unfold with_key. rewrite insert_delete_eq. apply insert_id.
    by apply rewritten_taskId, stored_taskId with t.
  - rewrite lookup_insert_ne by done. apply lookup_insert_eq.
  - apply lookup_insert_eq.
  - intros k Hk1 Hk2. by rewrite !lookup_insert_ne.
  - intros k Hk. by rewrite lookup_insert_ne.
Qed.

Lemma put_done_by_alice_runs :
  let run := TaskHandler.handler office_env put_done_by_alice office_table in
  TaskHandler.handler office_env put_done_by_alice office_table =
    (Ret (response_of run), run.1.2, run.2) /\
  statusCode (response_of run) = 200.
Proof. split; by_evaluation. Qed.

Lemma update_rewrites_status_and_time_witness :
  let run := TaskHandler.handler office_env put_done_by_alice office_table in
  exists new : item,
    stored run.1.2 "t1" = Some new /\
    body (response_of run) = JUpdated [Lit "Task updated successfully"] new /\
    new !! "status" = Some (VStr "Done") /\
    (forall k : string, k <> "status" -> k <> "updatedAt" -> new !! k = record_t1 !! k).
Proof.
  intros run. destruct put_done_by_alice_runs as [Hrun H200]. fold run in Hrun, H200.
  destruct (update_rewrites_status_and_time office_env put_done_by_alice office_table
              run.1.2 done_t1 (response_of run) run.2 eq_refl eq_refl Hrun H200)
    as (tid & new_status & old & new & Hid & Hst & Hold & Hnew & Hbody & Hs & _ & Hframe & _).
  injection Hid as <-. injection Hst as <-.
  rewrite stored_t1 in Hold. injection Hold as <-.
  exists new. split; [exact Hnew|]. split; [exact Hbody|]. split; [exact Hs|exact Hframe].
Defined.

(** ** PUT /tasks: the status-change notification *)

(** C6, as the code has it.  In a PUT request that is answered 200, one
    publish call is made when the new status differs from the record's prior
    status and the topic is configured, and it goes through when the topic
    accepts the message; otherwise no publish call is made.  In particular an
    update that rewrites the same status publishes nothing. *)
Theorem update_publishes_on_change (E : env) (ev : event_t) (t t' : table)
    (d : list (string * pyval)) (tid : string) (new_status : pyval) (old : item)
    (resp : response) (tr : list event) :
  httpMethod ev = "PUT" ->
  event_body ev = json d ->
  assoc "taskId" d = Some (VStr tid) ->
  assoc "status" d = Some new_status ->
  stored t tid = Some old ->
  TaskHandler.handler E ev t = (Ret resp, t', tr) ->
  statusCode resp = 200 ->
  if py_ne new_status (item_get old "status") && Notifications.sns_client E
  then exists m, made is_publish tr = [(SnsPublish m, topic_accepts E m)]
  else made is_publish tr = [].
Proof.
  intros Hm Hb Hid Hst Hold Hrun H200.
  rewrite (handler_put E ev t (VDict d) Hm Hb) in Hrun.
  destruct (TaskHandler.update_task _ _ _ _ _ _) as [[[r|e] t1] tr1] eqn:Hup; [|done].
  injection Hrun as <- <- <-. simpl in H200.
  destruct (update_task_200 E d _ _ _ t t1 r tr1 Hup H200)
    as (tid' & new_status' & rec & ntr & Hid' & Hne & Hst' & Hnew & Hf & Hrec & Hauth
        & Hput & -> & -> & -> & Hnote).
  rewrite Hid in Hid'. injection Hid' as <-.
  rewrite Hst in Hst'. injection Hst' as <-.
  rewrite Hold in Hrec. injection Hrec as <-.
  destruct (py_ne new_status (item_get old "status")); simpl andb.
  2: { by rewrite Hnote. }
  destruct Hnote as (description & b & Hdesc & Hn).
  destruct (Notifications.sns_client E) eqn:Hc.
  - destruct (py_slice50 description) as [short|e] eqn:Hs.
    + match type of Hn with
      | Notifications.send_status_update_notification _ _ _ _ _ _ _ ?T = _ =>
          destruct (topic_configured E (VStr tid) description (item_get old "status")
                      new_status (cognito_username (authorizer_claims ev))
                      (item_get old "assignedTo") T short Hc Hs)
            as (pre & m & Heq & Hpre)
      end.
      rewrite Heq in Hn. injection Hn as _ <-.
      exists m. by destruct Hpre as [->|[ok ->]].
    + by rewrite (topic_unsliceable E _ _ _ _ _ _ _ e Hc Hs) in Hn.
  - rewrite (topic_unconfigured E _ _ _ _ _ _ _ Hc) in Hn.
    by injection Hn as _ <-.
Qed.

Lemma update_publishes_on_change_witness :
  let run := TaskHandler.handler office_env put_done_by_alice office_table in
  exists m : sns_message, made is_publish run.2 = [(SnsPublish m, true)].
Proof.
  intros run. destruct put_done_by_alice_runs as [Hrun H200]. fold run in Hrun, H200.
  pose proof (update_publishes_on_change office_env put_done_by_alice office_table
                run.1.2 done_t1 "t1" (VStr "Done") record_t1 (response_of run) run.2
                eq_refl eq_refl eq_refl eq_refl stored_t1 Hrun H200) as Hsent.
  rewrite record_t1_status in Hsent.
  destruct Hsent as [m Hsent]. exists m. exact Hsent.
Defined.

(** A request that rewrites the status the record has is answered 200 and no
    publish call is made. *)
Lemma update_same_status_publishes_nothing :
  let run := TaskHandler.handler office_env put_new_by_alice office_table in
  statusCode (response_of run) = 200 /\ made is_publish run.2 = [].
Proof. split; by_evaluation. Qed.

(** C6 as stated fails: without a topic, alice's request changes the status
    of record [t1] from New to Done and is answered 200, and no publish call
    is made. *)
Lemma update_without_topic_publishes_nothing :
  let run := TaskHandler.handler office_without_topic put_done_by_alice office_table in
  stored office_table "t1" = Some record_t1 /\
  py_ne (VStr "Done") (item_get record_t1 "status") = true /\
  TaskHandler.handler office_without_topic put_done_by_alice office_table =
    (Ret (response_of run), run.1.2, run.2) /\
  statusCode (response_of run) = 200 /\
  made is_publish run.2 = [].
Proof.
  split; [exact stored_t1|].
  split; [rewrite record_t1_status; reflexivity|].
  split; [by_evaluation|].
  split; by_evaluation.
Qed.

(** ** POST /users *)

Lemma absent_not_given (d : list (string * pyval)) (k : string) :
  assoc k d = None -> given d k = false.
Proof. unfold given. by intros ->. Qed.

(** C8. An admin's POST request to the user handler, with a JSON object as
    body.  If [username] or [email] is not given, the response is 400 and no
    call is made to the directory.  If both are given and the two directory
    calls go through, the run creates the user, adds it to the group
    [member] (these are its only two calls, each made once), and the
    response is 201 with the confirmation message. *)
Theorem create_user_by_admin (E : env) (ev : event_t) (t : table)
    (d : list (string * pyval)) :
  httpMethod ev = "POST" ->
  "admin" ∈ default [] (cognito_groups (authorizer_claims ev)) ->
  UserHandler.loads_body (event_body ev) = Ret (VDict d) ->
  let username := default VNone (assoc "username" d) in
  let email := default VNone (assoc "email" d) in
  let user :=
    {| NewUsername := username;
       UserAttributes := [("email", email); ("email_verified", VStr "true")];
       TemporaryPassword :=
         default (VStr "TempPassword123!") (assoc "temporaryPassword" d);
       DesiredDeliveryMediums := ["EMAIL"] |} in
  (given d "username" && given d "email" = false ->
   UserHandler.handler E ev t =
     (Ret (UserHandler.reply 400 (JError [Lit "username and email are required."])),
      t, [])) /\
  (given d "username" && given d "email" = true ->
   cognito_admin_create_user_fault E user = None ->
   cognito_admin_add_user_to_group_fault E username "member" = None ->
   UserHandler.handler E ev t =
     (Ret (UserHandler.reply 201
             (JMessage [Lit "User "; Fmt username;
                        Lit " created and added to member group."])),
      t,
      [(CognitoAdminCreateUser user, true);
       (CognitoAdminAddUserToGroup username "member", true)])).
Proof.
  intros Hm Hadmin Hbody username email user.
  assert (Hrun : forall x, UserHandler.handler E ev t = x <->
                           UserHandler.create_user E ev t = x).
  { intros x. unfold UserHandler.handler. rewrite Hm.
    by rewrite (proj2 (in_groups_true _ _) Hadmin). }
  unfold given. fold username email.
  split.
  - intros Hmissing. apply Hrun.
    unfold UserHandler.create_user.
    rewrite Hbody. unfold bind, attempt, lift, ret. simpl.
    fold username email. rewrite <- negb_andb, Hmissing. reflexivity.
  - intros Hgiven Hcreate Hadd. apply Hrun.
    unfold UserHandler.create_user.
    rewrite Hbody. unfold bind, attempt, lift, ret. simpl.
    fold username email. rewrite <- negb_andb, Hgiven. simpl.
    unfold admin_create_user, admin_add_user_to_group, service_write.
    fold user. rewrite Hcreate, Hadd. reflexivity.
Qed.

Lemma create_user_by_admin_witness :
  UserHandler.handler office_env post_user_without_email office_table =
    (Ret (UserHandler.reply 400 (JError [Lit "username and email are required."])),
     office_table, []) /\
  UserHandler.handler office_env post_user_dave office_table =
    (Ret (UserHandler.reply 201
            (JMessage [Lit "User "; Fmt (VStr "dave");
                       Lit " created and added to member group."])),
     office_table,
     [(CognitoAdminCreateUser
         {| NewUsername := VStr "dave";
            UserAttributes := [("email", VStr "dave@example.org");
                               ("email_verified", VStr "true")];
            TemporaryPassword := VStr "TempPassword123!";
            DesiredDeliveryMediums := ["EMAIL"] |}, true);
      (CognitoAdminAddUserToGroup (VStr "dave") "member", true)]).
Proof.
  split.
  - apply (create_user_by_admin office_env post_user_without_email office_table
             [("username", VStr "dave")] eq_refl
             (proj1 (in_groups_true "admin" ["admin"]) eq_refl) eq_refl).
    reflexivity.
  - apply (create_user_by_admin office_env post_user_dave office_table dave eq_refl
             (proj1 (in_groups_true "admin" ["admin"]) eq_refl) eq_refl);
      reflexivity.
Defined.

(** C8 as stated fails: an admin's POST request without a body (the
    gateway then hands [null] over), or with a body that is not JSON,
    carries neither [username] nor [email]; it is answered 500 with the
    parser's exception, not 400.  No call is made to the directory. *)
Lemma create_user_without_object_is_500 :
  httpMethod post_user_null_by_root = "POST" /\
  "admin" ∈ default [] (cognito_groups (authorizer_claims post_user_null_by_root)) /\
  event_body post_user_null_by_root = BodyNull /\
  UserHandler.handler office_env post_user_null_by_root office_table =
    (Ret (UserHandler.reply 500
            (JError [FmtExn (TypeError
               "the JSON object must be str, bytes or bytearray, not NoneType")])),
     office_table, []) /\
  UserHandler.handler office_env post_user_not_json_by_root office_table =
    (Ret (UserHandler.reply 500 (JError [FmtExn JSONDecodeError])), office_table, []).
Proof.
  split; [reflexivity|].
  split; [apply in_groups_true; reflexivity|].
  split; [reflexivity|].
  split; by_evaluation.
Qed.

(** ** Notification failures *)

(** [create_task] does not look at the mail service before its last step:
    with another sender address or another mail service, the outcome and
    the table are the same. *)
Lemma create_task_any_sender (E : env) (address : option string)
    (fault : email -> option exn) (data : pyval) (by_username : string)
    (groups : list string) (t : table) :
  (TaskHandler.create_task (set_sender address fault E) data by_username groups t).1 =
  (TaskHandler.create_task E data by_username groups t).1.
Proof.
  set (E' := set_sender address fault E).
  destruct (decide ("admin" ∈ groups)) as [Hadmin|Hadmin].
  2: { by rewrite !create_task_not_admin. }
  destruct data as [| | | | |d]; try reflexivity.
  destruct (given d "assignedTo") eqn:Hv.
  2: { by rewrite !create_task_no_assignee. }
  destruct (cognito_list_users_by_sub E (default VNone (assoc "assignedTo" d)))
    as [us|e] eqn:Hl.
  2: { rewrite (create_task_lookup_raises E' d _ _ t e Hadmin Hv Hl).
       by rewrite (create_task_lookup_raises E d _ _ t e Hadmin Hv Hl). }
  destruct (decide (length us = 1%nat)) as [Hone|Hlen].
  2: { rewrite (create_task_not_one E' d _ _ t us Hadmin Hv Hl Hlen).
       by rewrite (create_task_not_one E d _ _ t us Hadmin Hv Hl Hlen). }
  destruct us as [|u [|u' us]]; try done.
  rewrite (create_task_one E' d _ _ t u Hadmin Hv Hl).
  rewrite (create_task_one E d _ _ t u Hadmin Hv Hl).
  destruct (negb (opt_truthy (first_attr "email" (Attributes u)))); [done|].
  destruct (assoc "deadline" d) as [deadline|]; [|done].
  destruct (assoc "description" d) as [description|]; [|done].
  cbv zeta.
  change (uuid4 E') with (uuid4 E).
  change (utcnow_isoformat E') with (utcnow_isoformat E).
  change (ddb_put_item_fault E') with (ddb_put_item_fault E).
  destruct (ddb_put_item_fault E _); [done|].
  match goal with
  | |- context [Notifications.send_task_assignment_email E' ?r ?ds ?dl ?un ?T] =>
      destruct (email_returns E' r ds dl un T) as [->|(m' & _ & ->)];
      destruct (email_returns E r ds dl un T) as [->|(m & _ & ->)]
  end; reflexivity.
Qed.

(** What the helpers return when their channel is missing or fails. *)
Lemma email_helper_contained (E : env) (recipient : string)
    (description deadline : pyval) (assignee : string) (t t1 : table)
    (r : outcome bool) (tr : list event) :
  Notifications.send_task_assignment_email E recipient description deadline assignee t =
    (r, t1, tr) ->
  t1 = t /\
  exists b, r = Ret b /\
    (Notifications.ses_client E = false -> b = false /\ tr = []) /\
    (forall m, (SesSendEmail m, false) ∈ tr -> b = false).
Proof.
  intros Hrun.
  destruct (email_returns E recipient description deadline assignee t)
    as [Heq|(m & Hc & Heq)]; rewrite Heq in Hrun; injection Hrun as <- <- <-.
  - split; [done|]. exists false. by repeat split.
  - split; [done|]. exists (mail_accepts E m). split; [done|]. split.
    + intros Hoff. by rewrite Hoff in Hc.
    + intros m' Hin. apply list_elem_of_singleton in Hin. by injection Hin as _ <-.
Qed.

Lemma topic_helper_contained (E : env)
    (task_id description old_status new_status : pyval)
    (by_username : string) (assigned : pyval) (t t1 : table)
    (r : outcome bool) (tr : list event) :
  Notifications.send_status_update_notification E task_id description old_status
    new_status by_username assigned t = (r, t1, tr) ->
  t1 = t /\
  (Notifications.sns_client E = false -> r = Ret false /\ tr = []) /\
  (forall m, (SnsPublish m, false) ∈ tr -> r = Ret false).
Proof.
  intros Hrun. split; [by eapply topic_helper_table|].
  destruct (Notifications.sns_client E) eqn:Hc.
  - split; [done|].
    destruct (py_slice50 description) as [short|e] eqn:Hs.
    + destruct (topic_configured E task_id description old_status new_status
                  by_username assigned t short Hc Hs) as (pre & m & Heq & Hpre).
      rewrite Heq in Hrun. injection Hrun as <- <- <-.
      intros m' Hin. apply elem_of_app in Hin as [Hin|Hin].
      * destruct Hpre as [->|[ok ->]].
        -- by apply not_elem_of_nil in Hin.
        -- apply list_elem_of_singleton in Hin. discriminate.
      * apply list_elem_of_singleton in Hin. by injection Hin as _ <-.
    + rewrite (topic_unsliceable E _ _ _ _ _ _ t e Hc Hs) in Hrun.
      injection Hrun as <- <- <-. intros m' Hin. by apply not_elem_of_nil in Hin.
  - rewrite (topic_unconfigured E _ _ _ _ _ _ t Hc) in Hrun.
    injection Hrun as <- <- <-. split; [done|].
    intros m' Hin. by apply not_elem_of_nil in Hin.
Qed.

(** C9, on the code.  In the office, where the topic is configured, the
    admin posts a task whose description is null and is answered 201.
    When the assignee then sets its status to Done, the record is written
    back and the topic helper is called; it cuts the description for the
    subject line before its [try], the cut raises [TypeError], and the
    exception leaves the helper and the handler: no response is returned
    and no publish was attempted.  The same request in the deployment
    without a topic is answered 200 and leaves the same table. *)
Theorem status_notice_failure_escapes :
  let post := TaskHandler.handler office_env post_null_description office_table in
  let t := post.1.2 in
  let tid := uuid4 office_env in
  let put := TaskHandler.handler office_env put_done_new_task_by_alice t in
  let quiet := TaskHandler.handler office_without_topic put_done_new_task_by_alice t in
  post.1.1 = Ret (response_of post) /\
  statusCode (response_of post) = 201 /\
  t !! tid ≫= (fun attrs : item => attrs !! "description") = Some VNone /\
  Notifications.sns_client office_env = true /\
  put.1.1 = Raise (TypeError "object is not subscriptable") /\
  answered is_put put.2 = true /\
  made is_publish put.2 = [] /\
  put.1.2 !! tid ≫= (fun attrs : item => attrs !! "status") = Some (VStr "Done") /\
  Notifications.sns_client office_without_topic = false /\
  quiet.1.1 = Ret (response_of quiet) /\
  statusCode (response_of quiet) = 200 /\
  quiet.1.2 = put.1.2.
Proof.
  intros post t tid put quiet.
  repeat (split; [by_evaluation|]). by_evaluation.
Qed.

Lemma post_for_alice_runs :
  let run := TaskHandler.handler office_env post_for_alice office_table in
  statusCode (response_of run) = 201.
Proof. by_evaluation. Qed.


(** * More of the handlers *)

(** ** Preflight *)

(** X1. Both handlers answer an OPTIONS request with the same fixed 200
    response, before they look at the caller's claims or the body, and make
    no call. *)
Theorem preflight_is_fixed (E : env) (ev : event_t) (t : table) :
  httpMethod ev = "OPTIONS" ->
  TaskHandler.handler E ev t = (Ret preflight_response, t, []) /\
  UserHandler.handler E ev t = (Ret preflight_response, t, []).
Proof.
  intros Hm. unfold TaskHandler.handler, UserHandler.handler. by rewrite Hm.
Qed.

Lemma preflight_is_fixed_witness :
  TaskHandler.handler office_env options_by_mallory office_table =
    (Ret preflight_response, office_table, []) /\
  UserHandler.handler office_env options_by_mallory office_table =
    (Ret preflight_response, office_table, []).
Proof. apply (preflight_is_fixed office_env options_by_mallory office_table). reflexivity. Defined.

(** ** The body of a POST or PUT to the task handler *)

(** X2. The task handler parses the body of a POST or PUT before anything
    else: when the body is missing, null or not JSON, the run raises the
    parser's exception, returns no response (also to a caller who would be
    refused) and makes no call. *)
Theorem task_body_must_parse (E : env) (ev : event_t) (t : table) (e : exn) :
  httpMethod ev = "POST" \/ httpMethod ev = "PUT" ->
  json_loads (event_body ev) = Raise e ->
  TaskHandler.handler E ev t = (Raise e, t, []).
Proof.
  intros [Hm|Hm] Hb; unfold TaskHandler.handler; rewrite Hm, Hb; reflexivity.
Qed.

Lemma task_body_must_parse_witness :
  TaskHandler.handler office_env post_null_by_bob office_table =
    (Raise (TypeError "the JSON object must be str, bytes or bytearray, not NoneType"),
     office_table, []).
Proof.
  apply (task_body_must_parse office_env post_null_by_bob office_table).
  - left. reflexivity.
  - reflexivity.
Defined.

(** ** POST /tasks: the ways out *)

(** X3. A POST from a caller who is not an admin is answered 403, whatever
    the body holds, and the run makes no call: no lookup, no write. *)
Theorem create_by_member_is_forbidden (E : env) (ev : event_t) (t : table)
    (data : pyval) :
  httpMethod ev = "POST" ->
  event_body ev = BodyText (Some data) ->
  "admin" ∉ default [] (cognito_groups (authorizer_claims ev)) ->
  TaskHandler.handler E ev t =
    (Ret (task_response 403 (JError [Lit "Unauthorized. Only admins can create tasks."])),
     t, []).
Proof.
  intros Hm Hb Hadmin.
  rewrite (handler_post E ev t data Hm Hb).
  rewrite (create_task_not_admin E data _ _ t Hadmin).
  by rewrite with_cors_reply.
Qed.

Lemma create_by_member_is_forbidden_witness :
  TaskHandler.handler office_env post_by_bob office_table =
    (Ret (task_response 403 (JError [Lit "Unauthorized. Only admins can create tasks."])),
     office_table, []).
Proof.
  apply (create_by_member_is_forbidden office_env post_by_bob office_table
           (VDict cards_for_alice) eq_refl eq_refl).
  apply in_groups_false. reflexivity.
Defined.

(** X4. When the directory knows exactly one user for the assignee and that
    user has no email attribute (or an empty one), an admin's POST is
    answered 400; the lookup is the only call and nothing is written. *)
Theorem create_for_assignee_without_email (E : env) (ev : event_t) (t : table)
    (d : list (string * pyval)) (u : cognito_user) :
  httpMethod ev = "POST" ->
  event_body ev = json d ->
  "admin" ∈ default [] (cognito_groups (authorizer_claims ev)) ->
  given d "assignedTo" = true ->
  let v := default VNone (assoc "assignedTo" d) in
  cognito_list_users_by_sub E v = Ret [u] ->
  opt_truthy (first_attr "email" (Attributes u)) = false ->
  TaskHandler.handler E ev t =
    (Ret (task_response 400
            (JError [Lit "Assigned user (sub: "; Fmt v;
                     Lit ") does not have an email address."])),
     t, [(CognitoListUsersBySub v, true)]).
Proof.
  intros Hm Hb Hadmin Hv v Hl Hemail.
  rewrite (handler_post E ev t (VDict d) Hm Hb).
  rewrite (create_task_one E d _ _ t u Hadmin Hv Hl).
  rewrite Hemail. simpl. by rewrite with_cors_reply.
Qed.

Lemma create_for_assignee_without_email_witness :
  TaskHandler.handler office_knowing_eve post_for_carol office_table =
    (Ret (task_response 400
            (JError [Lit "Assigned user (sub: "; Fmt (VStr "sub-carol");
                     Lit ") does not have an email address."])),
     office_table, [(CognitoListUsersBySub (VStr "sub-carol"), true)]).
Proof.
  apply (create_for_assignee_without_email office_knowing_eve post_for_carol
           office_table cards_for_carol eve eq_refl eq_refl
           (proj1 (in_groups_true "admin" ["admin"]) eq_refl));
    reflexivity.
Defined.

(** X5. When the directory lookup raises, an admin's POST is answered 500
    with the exception's text after a prefix that tells a [ClientError] from
    any other exception; nothing is written. *)
Theorem create_when_lookup_raises (E : env) (ev : event_t) (t : table)
    (d : list (string * pyval)) (e : exn) :
  httpMethod ev = "POST" ->
  event_body ev = json d ->
  "admin" ∈ default [] (cognito_groups (authorizer_claims ev)) ->
  given d "assignedTo" = true ->
  let v := default VNone (assoc "assignedTo" d) in
  cognito_list_users_by_sub E v = Raise e ->
  TaskHandler.handler E ev t =
    (Ret (task_response 500
            (JError [Lit (match e with
                          | ClientError _ => "Error verifying assigned user: "
                          | _ => "Unexpected error verifying assigned user: "
                          end);
                     FmtExn e])),
     t, [(CognitoListUsersBySub v, false)]).
Proof.
  intros Hm Hb Hadmin Hv v Hl.
  rewrite (handler_post E ev t (VDict d) Hm Hb).
  rewrite (create_task_lookup_raises E d _ _ t e Hadmin Hv Hl).
  by rewrite with_cors_reply.
Qed.

Lemma create_when_lookup_raises_witness :
  TaskHandler.handler office_directory_down post_for_alice office_table =
    (Ret (task_response 500
            (JError [Lit "Error verifying assigned user: ";
                     FmtExn (ClientError "TooManyRequestsException")])),
     office_table, [(CognitoListUsersBySub (VStr "sub-alice"), false)]).
Proof.
  apply (create_when_lookup_raises office_directory_down post_for_alice
           office_table cards_for_alice
           (ClientError "TooManyRequestsException") eq_refl eq_refl
           (proj1 (in_groups_true "admin" ["admin"]) eq_refl));
    reflexivity.
Defined.

(** ** The email helper, written out *)

(** The email helper sends at most one message: when the sender address
    is configured and the recipient is not empty it makes one send call, to
    that recipient alone and from the configured sender, and returns whether
    the call went through; otherwise it makes no call and returns [False]. *)
Lemma email_helper_run (E : env) (recipient : string) (description deadline : pyval)
    (assignee : string) (t : table) :
  Notifications.send_task_assignment_email E recipient description deadline assignee t =
    if Notifications.ses_client E && negb (String.eqb recipient "") then
      let m := assignment_email E recipient description deadline assignee in
      (Ret (mail_accepts E m), t, [(SesSendEmail m, mail_accepts E m)])
    else (Ret false, t, []).
Proof.
  unfold Notifications.send_task_assignment_email.
  destruct (Notifications.ses_client E); cbn [negb andb]; [|done].
  destruct (String.eqb recipient ""); cbn [negb]; [done|].
  fold (assignment_email E recipient description deadline assignee).
  unfold ses_send_email, mail_accepts, bind, attempt.
  rewrite service_write_run.
  by destruct (ses_send_email_fault E _).
Qed.

(** ** Writing a record and reading it back *)

Lemma stored_after_put (t : table) (k : string) (it : item) :
  it !! "taskId" = Some (VStr k) ->
  stored (<[k := delete "taskId" it]> t) k = Some it.
Proof.
  intros Hk. unfold stored. rewrite lookup_insert_eq.
  change (Some (with_key k (delete "taskId" it)) = Some it). f_equal.
  unfold with_key. rewrite insert_delete_eq. by apply insert_id.
Qed.

Lemma stored_after_put_other (t : table) (k k' : string) (it : item) :
  k' <> k ->
  stored (<[k := delete "taskId" it]> t) k' = stored t k'.
Proof. intros Hk. unfold stored. by rewrite lookup_insert_ne. Qed.

(** ** POST /tasks: what a run does *)

(** Every run of [create_task] either goes all the way (one lookup that finds
    one user with an email, one put that goes through, then the email
    helper) or leaves the table as it was, sends no email and puts nothing. *)
Lemma create_task_cases (E : env) (data : pyval) (by_username : string)
    (groups : list string) (t : table) :
  (exists d v u deadline description,
     data = VDict d /\ "admin" ∈ groups /\
     assoc "assignedTo" d = Some v /\ truthy v = true /\
     cognito_list_users_by_sub E v = Ret [u] /\
     opt_truthy (first_attr "email" (Attributes u)) = true /\
     assoc "deadline" d = Some deadline /\
     assoc "description" d = Some description /\
     let item := new_task E v deadline description by_username in
     ddb_put_item_fault E item = None /\
     exists b etr,
       Notifications.send_task_assignment_email E
         (default "" (first_attr "email" (Attributes u))) description deadline
         (Username u) (<[uuid4 E := delete "taskId" item]> t) =
         (Ret b, <[uuid4 E := delete "taskId" item]> t, etr) /\
       TaskHandler.create_task E data by_username groups t =
         (Ret (TaskHandler.reply 201 (JItem item)),
          <[uuid4 E := delete "taskId" item]> t,
          (CognitoListUsersBySub v, true) :: (DdbPutItem item, true) :: etr)) \/
  (exists r tr,
     TaskHandler.create_task E data by_username groups t = (r, t, tr) /\
     called is_send_email tr = false /\
     answered is_put tr = false /\
     forall resp, r = Ret resp -> statusCode resp <> 201).
Proof.
  destruct (decide ("admin" ∈ groups)) as [Hadmin|Hadmin].
  2: { right. rewrite (create_task_not_admin E data _ _ t Hadmin).
       eexists _, _. repeat split. by intros resp [= <-]. }
  destruct data as [| | | | |d];
    try (right; unfold TaskHandler.create_task;
         rewrite (proj2 (in_groups_true _ _) Hadmin);
         eexists _, _; repeat split; by intros resp [=]).
  destruct (given d "assignedTo") eqn:Hv.
  2: { right. rewrite (create_task_no_assignee E d _ _ t Hadmin Hv).
       eexists _, _. repeat split. by intros resp [= <-]. }
  destruct (cognito_list_users_by_sub E (default VNone (assoc "assignedTo" d)))
    as [us|e] eqn:Hl.
  2: { right. rewrite (create_task_lookup_raises E d _ _ t e Hadmin Hv Hl).
       eexists _, _. repeat split. by intros resp [= <-]. }
  destruct (decide (length us = 1%nat)) as [Hone|Hlen].
  2: { right. rewrite (create_task_not_one E d _ _ t us Hadmin Hv Hl Hlen).
       eexists _, _. repeat split. by intros resp [= <-]. }
  destruct us as [|u [|u' us]]; try done.
  rewrite (create_task_one E d _ _ t u Hadmin Hv Hl). cbv zeta.
  destruct (opt_truthy (first_attr "email" (Attributes u))) eqn:Hemail; cbn [negb].
  2: { right. eexists _, _. repeat split. by intros resp [= <-]. }
  destruct (assoc "deadline" d) as [deadline|] eqn:Hdl.
  2: { right. eexists _, _. repeat split. by intros resp [=]. }
  destruct (assoc "description" d) as [description|] eqn:Hds.
  2: { right. eexists _, _. repeat split. by intros resp [=]. }
  fold (new_task E (default VNone (assoc "assignedTo" d)) deadline description by_username).
  destruct (ddb_put_item_fault E _) as [e|] eqn:Hput.
  { right. eexists _, _. repeat split. by intros resp [= <-]. }
  left. apply given_inv in Hv as (v & Hv & Htruthy).
  rewrite Hv in *. simpl default in *.
  exists d, v, u, deadline, description.
  do 8 (split; [done|]). cbv zeta. split; [exact Hput|].
  rewrite email_helper_run.
  destruct (Notifications.ses_client E && _); by eexists _, _.
Qed.

(** What a POST that is answered 201 has done. *)
Lemma post_201_inv (E : env) (ev : event_t) (t t' : table)
    (resp : response) (tr : list event) :
  httpMethod ev = "POST" ->
  TaskHandler.handler E ev t = (Ret resp, t', tr) ->
  statusCode resp = 201 ->
  exists (d : list (string * pyval)) (item : item),
    event_body ev = json d /\
    body resp = JItem item /\
    stored t' (uuid4 E) = Some item /\
    item !! "taskId" = Some (VStr (uuid4 E)) /\
    item !! "status" = Some (VStr "New") /\
    item !! "createdBy" = Some (VStr (cognito_username (authorizer_claims ev))) /\
    item !! "assignedTo" = assoc "assignedTo" d /\
    item !! "deadline" = assoc "deadline" d /\
    item !! "description" = assoc "description" d /\
    (forall k : string, k <> uuid4 E -> t' !! k = t !! k).
Proof.
  intros Hm Hrun H201.
  destruct (event_body ev) as [| |[data|]] eqn:Hb;
    try (unfold TaskHandler.handler in Hrun; rewrite Hm, Hb in Hrun; discriminate).
  rewrite (handler_post E ev t data Hm Hb) in Hrun.
  destruct (create_task_cases E data (cognito_username (authorizer_claims ev))
              (default [] (cognito_groups (authorizer_claims ev))) t)
    as [(d & v & u & deadline & description & -> & Hadmin & Hv & Htruthy & Hl & Hemail
         & Hdl & Hds & Hput & b & etr & _ & Heq)
       |(r & tr0 & Heq & _ & _ & Hnot)];
    rewrite Heq in Hrun.
  - injection Hrun as <- <- <-.
    exists d, (new_task E v deadline description (cognito_username (authorizer_claims ev))).
    split; [done|]. split; [done|].
    split; [by apply stored_after_put|].
    rewrite Hv, Hdl, Hds.
    repeat (split; [done|]).
    intros k Hk. by rewrite lookup_insert_ne.
  - destruct r as [r|e]; [|done]. injection Hrun as <- <- <-.
    by destruct (Hnot r eq_refl).
Qed.

(** X6. A POST that is answered 201 has written the record it returns: the
    table then holds it under its [taskId], which is the fresh UUID; the
    record has status 'New', the caller as [createdBy], and the request's
    [assignedTo], [deadline] and [description]; every other record of the
    table is as it was. *)
Theorem created_record_is_stored (E : env) (ev : event_t) (t t' : table)
    (resp : response) (tr : list event) :
  httpMethod ev = "POST" ->
  TaskHandler.handler E ev t = (Ret resp, t', tr) ->
  statusCode resp = 201 ->
  exists (d : list (string * pyval)) (item : item),
    event_body ev = json d /\
    body resp = JItem item /\
    stored t' (uuid4 E) = Some item /\
    item !! "taskId" = Some (VStr (uuid4 E)) /\
    item !! "status" = Some (VStr "New") /\
    item !! "createdBy" = Some (VStr (cognito_username (authorizer_claims ev))) /\
    item !! "assignedTo" = assoc "assignedTo" d /\
    item !! "deadline" = assoc "deadline" d /\
    item !! "description" = assoc "description" d /\
    (forall k : string, k <> uuid4 E -> t' !! k = t !! k).
Proof. apply post_201_inv. Qed.


Lemma post_for_alice_run :
  let run := TaskHandler.handler office_env post_for_alice office_table in
  TaskHandler.handler office_env post_for_alice office_table =
    (Ret (response_of run), run.1.2, run.2).
Proof. by_evaluation. Qed.

Lemma created_record_is_stored_witness :
  let run := TaskHandler.handler office_env post_for_alice office_table in
  exists item : item,
    body (response_of run) = JItem item /\
    stored run.1.2 (uuid4 office_env) = Some item /\
    item !! "status" = Some (VStr "New") /\
    item !! "assignedTo" = Some (VStr "sub-alice") /\
    (forall k : string, k <> uuid4 office_env -> run.1.2 !! k = office_table !! k).
Proof.
  intros run.
  destruct (created_record_is_stored office_env post_for_alice office_table
              run.1.2 (response_of run) run.2 eq_refl post_for_alice_run
              post_for_alice_runs)
    as (d & item & Hd & Hbody & Hstored & _ & Hstatus & _ & Hassigned & _ & _ & Hframe).
  injection Hd as <-.
  exists item. split; [exact Hbody|]. split; [exact Hstored|].
  split; [exact Hstatus|]. split; [exact Hassigned|exact Hframe].
Defined.

(** X7. The way through: an admin's POST with an assignee the directory
    knows once and with an email, with [deadline] and [description] in the
    body, and a put that goes through, is answered 201 with the new record.
    The run makes the lookup, one put of that record and, if the sender
    address is configured, one email to the assignee's address; the email
    going through or not changes nothing else. *)
Theorem create_succeeds (E : env) (ev : event_t) (t : table)
    (d : list (string * pyval)) (v deadline description : pyval) (u : cognito_user) :
  httpMethod ev = "POST" ->
  event_body ev = json d ->
  "admin" ∈ default [] (cognito_groups (authorizer_claims ev)) ->
  assoc "assignedTo" d = Some v -> truthy v = true ->
  cognito_list_users_by_sub E v = Ret [u] ->
  opt_truthy (first_attr "email" (Attributes u)) = true ->
  assoc "deadline" d = Some deadline ->
  assoc "description" d = Some description ->
  let item := new_task E v deadline description (cognito_username (authorizer_claims ev)) in
  ddb_put_item_fault E item = None ->
  let m := assignment_email E (default "" (first_attr "email" (Attributes u)))
             description deadline (Username u) in
  TaskHandler.handler E ev t =
    (Ret (task_response 201 (JItem item)),
     <[uuid4 E := delete "taskId" item]> t,
     (CognitoListUsersBySub v, true) :: (DdbPutItem item, true) ::
       (if Notifications.ses_client E then [(SesSendEmail m, mail_accepts E m)] else [])).
Proof.
  intros Hm Hb Hadmin Hv Htruthy Hl Hemail Hdl Hds item Hput m. subst item m.
  assert (Hgiven : given d "assignedTo" = true) by (unfold given; by rewrite Hv).
  rewrite (handler_post E ev t (VDict d) Hm Hb).
  rewrite (create_task_one E d _ _ t u Hadmin Hgiven); [|by rewrite Hv].
  rewrite Hemail, Hdl, Hds, Hv. cbv zeta. simpl default. cbn [negb].
  fold (new_task E v deadline description (cognito_username (authorizer_claims ev))).
  rewrite Hput, email_helper_run. cbv zeta.
  assert (String.eqb (default "" (first_attr "email" (Attributes u))) "" = false) as ->.
  { destruct (first_attr "email" (Attributes u)) as [a|]; [|done].
    simpl in *. by apply negb_true_iff. }
  rewrite andb_true_r.
  destruct (Notifications.ses_client E); by rewrite with_cors_reply.
Qed.

Lemma create_succeeds_witness :
  exists (item : item) (m : email),
    TaskHandler.handler office_env post_for_alice office_table =
      (Ret (task_response 201 (JItem item)),
       <[uuid4 office_env := delete "taskId" item]> office_table,
       [(CognitoListUsersBySub (VStr "sub-alice"), true); (DdbPutItem item, true);
        (SesSendEmail m, true)]) /\
    ToAddresses m = ["alice@example.org"].
Proof.
  eexists _, _. split.
  - apply (create_succeeds office_env post_for_alice office_table cards_for_alice
             (VStr "sub-alice") (VStr "2025-12-31T00:00:00+00:00")
             (VStr "Send the cards") alice eq_refl eq_refl
             (proj1 (in_groups_true "admin" ["admin"]) eq_refl));
      reflexivity.
  - reflexivity.
Defined.

(** X8. When the put of the new record raises, the POST is answered 500
    'Could not create task in database.'; the table is as it was and no
    email is sent. *)
Theorem create_when_put_raises (E : env) (ev : event_t) (t : table)
    (d : list (string * pyval)) (v deadline description : pyval) (u : cognito_user)
    (e : exn) :
  httpMethod ev = "POST" ->
  event_body ev = json d ->
  "admin" ∈ default [] (cognito_groups (authorizer_claims ev)) ->
  assoc "assignedTo" d = Some v -> truthy v = true ->
  cognito_list_users_by_sub E v = Ret [u] ->
  opt_truthy (first_attr "email" (Attributes u)) = true ->
  assoc "deadline" d = Some deadline ->
  assoc "description" d = Some description ->
  let item := new_task E v deadline description (cognito_username (authorizer_claims ev)) in
  ddb_put_item_fault E item = Some e ->
  TaskHandler.handler E ev t =
    (Ret (task_response 500 (JError [Lit "Could not create task in database."])),
     t, [(CognitoListUsersBySub v, true); (DdbPutItem item, false)]).
Proof.
  intros Hm Hb Hadmin Hv Htruthy Hl Hemail Hdl Hds item Hput. subst item.
  assert (Hgiven : given d "assignedTo" = true) by (unfold given; by rewrite Hv).
  rewrite (handler_post E ev t (VDict d) Hm Hb).
  rewrite (create_task_one E d _ _ t u Hadmin Hgiven); [|by rewrite Hv].
  rewrite Hemail, Hdl, Hds, Hv. cbv zeta. simpl default. cbn [negb].
  fold (new_task E v deadline description (cognito_username (authorizer_claims ev))).
  rewrite Hput. by rewrite with_cors_reply.
Qed.

Lemma create_when_put_raises_witness :
  exists item : item,
    TaskHandler.handler office_store_read_only post_for_alice office_table =
      (Ret (task_response 500 (JError [Lit "Could not create task in database."])),
       office_table,
       [(CognitoListUsersBySub (VStr "sub-alice"), true); (DdbPutItem item, false)]).
Proof.
  eexists.
  apply (create_when_put_raises office_store_read_only post_for_alice office_table
           cards_for_alice (VStr "sub-alice") (VStr "2025-12-31T00:00:00+00:00")
           (VStr "Send the cards") alice (ClientError "AccessDeniedException")
           eq_refl eq_refl (proj1 (in_groups_true "admin" ["admin"]) eq_refl));
    reflexivity.
Defined.

(** X9. All or nothing: a POST that is not answered 201 (any other status,
    or an exception) leaves the table as it was; it made no put that went
    through and no call to the mail service. *)
Theorem create_is_all_or_nothing (E : env) (ev : event_t) (t : table) :
  httpMethod ev = "POST" ->
  let run := TaskHandler.handler E ev t in
  answered_with 201 run.1.1 = false ->
  run.1.2 = t /\ answered is_put run.2 = false /\ called is_send_email run.2 = false.
Proof.
  intros Hm run. subst run.
  destruct (event_body ev) as [| |[data|]] eqn:Hb;
    try (unfold TaskHandler.handler; rewrite Hm, Hb; done).
  rewrite (handler_post E ev t data Hm Hb).
  destruct (create_task_cases E data (cognito_username (authorizer_claims ev))
              (default [] (cognito_groups (authorizer_claims ev))) t)
    as [(d & v & u & deadline & description & -> & Hadmin & Hv & Htruthy & Hl & Hemail
         & Hdl & Hds & Hput & b & etr & _ & Heq)
       |(r & tr0 & Heq & Hmail & Hputs & Hnot)];
    rewrite Heq.
  - simpl. discriminate.
  - intros _. by destruct r.
Qed.

Lemma create_is_all_or_nothing_witness :
  let run := TaskHandler.handler office_env post_without_deadline office_table in
  run.1.2 = office_table /\ answered is_put run.2 = false /\
  called is_send_email run.2 = false.
Proof.
  apply (create_is_all_or_nothing office_env post_without_deadline office_table).
  - reflexivity.
  - by_evaluation.
Defined.

(** ** GET /tasks *)

(** X10. The list operation has no error response: when the scan of the
    table raises, the GET request raises that exception and returns
    nothing (where the other operations answer 500). *)
Theorem list_when_scan_raises (E : env) (ev : event_t) (t : table) (e : exn) :
  httpMethod ev = "GET" ->
  ddb_scan_fault E = Some e ->
  exists filter, TaskHandler.handler E ev t = (Raise e, t, [(DdbScan filter, false)]).
Proof.
  intros Hm Hscan. rewrite (handler_get E ev t Hm), Hscan. by eexists.
Qed.

Lemma list_when_scan_raises_witness :
  exists filter,
    TaskHandler.handler office_store_down get_by_alice office_table =
      (Raise (ClientError "ProvisionedThroughputExceededException"), office_table,
       [(DdbScan filter, false)]).
Proof.
  apply (list_when_scan_raises office_store_down get_by_alice office_table
           (ClientError "ProvisionedThroughputExceededException"));
    reflexivity.
Defined.

(** X11. A created task can be listed: after a POST answered 201, a GET on
    the resulting table, with a scan that goes through and as long as no
    record the caller is to receive holds a number, is answered 200 with a
    list that holds the returned record whenever the caller is an admin or
    the record's [assignedTo] is the caller's [sub]. *)
Theorem created_task_is_listed (E : env) (post get : event_t) (t t' : table)
    (resp : response) (tr : list event) (item : item) :
  httpMethod post = "POST" ->
  TaskHandler.handler E post t = (Ret resp, t', tr) ->
  statusCode resp = 201 ->
  body resp = JItem item ->
  httpMethod get = "GET" ->
  ddb_scan_fault E = None ->
  let me := sub (authorizer_claims get) in
  let groups := default [] (cognito_groups (authorizer_claims get)) in
  (forall k attrs, t' !! k = Some attrs ->
     "admin" ∈ groups \/ attrs !! "assignedTo" = Some (VStr me) ->
     no_number attrs = true) ->
  "admin" ∈ groups \/ item !! "assignedTo" = Some (VStr me) ->
  exists items filter,
    TaskHandler.handler E get t' =
      (Ret (task_response 200 (JItems items)), t', [(DdbScan filter, true)]) /\
    item ∈ items.
Proof.
  intros Hpost Hrun H201 Hbody Hget Hscan me groups Hclean Hmay.
  destruct (post_201_inv E post t t' resp tr Hpost Hrun H201)
    as (d & item' & _ & Hbody' & Hstored & _).
  rewrite Hbody in Hbody'. injection Hbody' as <-.
  destruct (list_tasks_by_role E get t' Hget Hscan Hclean) as (items & Hlist & Hitems).
  exists items. eexists. split; [exact Hlist|].
  apply Hitems. unfold stored in Hstored.
  destruct (t' !! uuid4 E) as [attrs|] eqn:Hk; [|done].
  injection Hstored as <-. exists (uuid4 E), attrs.
  split; [done|]. split; [done|].
  destruct Hmay as [?|Hmay]; [by left|right].
  unfold with_key in Hmay. by rewrite lookup_insert_ne in Hmay.
Qed.

Lemma created_task_is_listed_witness :
  let run := TaskHandler.handler office_env post_for_alice office_table in
  exists items filter,
    TaskHandler.handler office_env get_by_alice run.1.2 =
      (Ret (task_response 200 (JItems items)), run.1.2, [(DdbScan filter, true)]) /\
    cards_task ∈ items.
Proof.
  intros run.
  apply (created_task_is_listed office_env post_for_alice get_by_alice office_table
           run.1.2 (response_of run) run.2 cards_task eq_refl post_for_alice_run
           post_for_alice_runs).
  - by_evaluation.
  - reflexivity.
  - reflexivity.
  - intros k attrs Hk _.
    assert (Hall : bool_decide
                     (map_Forall (fun (_ : string) (attrs : gmap string pyval) =>
                                    no_number attrs = true) run.1.2) = true)
      by by_evaluation.
    apply bool_decide_eq_true_1 in Hall.
    exact (Hall k attrs Hk).
  - right. by_evaluation.
Defined.

(** ** PUT /tasks: the ways out *)

(** X12. A PUT whose body lacks [taskId] or [status], or carries for one of
    them a value Python counts as false (null, "", 0, false, [], {}), is
    answered 400; no call is made, whoever the caller is. *)
Theorem update_needs_id_and_status (E : env) (ev : event_t) (t : table)
    (d : list (string * pyval)) :
  httpMethod ev = "PUT" ->
  event_body ev = json d ->
  given d "taskId" && given d "status" = false ->
  TaskHandler.handler E ev t =
    (Ret (task_response 400 (JError [Lit "taskId and status are required"])), t, []).
Proof.
  intros Hm Hb Hgiven.
  rewrite (handler_put E ev t (VDict d) Hm Hb).
  rewrite (update_task_bad_request E d _ _ _ t Hgiven).
  by rewrite with_cors_reply.
Qed.

Lemma update_needs_id_and_status_witness :
  TaskHandler.handler office_env put_zero_status_by_alice office_table =
    (Ret (task_response 400 (JError [Lit "taskId and status are required"])),
     office_table, []).
Proof.
  apply (update_needs_id_and_status office_env put_zero_status_by_alice office_table
           [("taskId", VStr "t1"); ("status", VInt 0)]); reflexivity.
Defined.

(** X13. A PUT that names no record of the table is answered 404 after one
    read; nothing is written, also for an admin. *)
Theorem update_of_unknown_task (E : env) (ev : event_t) (t : table)
    (d : list (string * pyval)) (tid : string) :
  httpMethod ev = "PUT" ->
  event_body ev = json d ->
  assoc "taskId" d = Some (VStr tid) -> tid <> "" ->
  given d "status" = true ->
  ddb_get_item_fault E (VStr tid) = None ->
  stored t tid = None ->
  TaskHandler.handler E ev t =
    (Ret (task_response 404 (JError [Lit "Task not found"])), t,
     [(DdbGetItem (VStr tid), true)]).
Proof.
  intros Hm Hb Hid Hne Hst Hf Hnone.
  assert (Hgiven : given d "taskId" && given d "status" = true).
  { rewrite Hst, andb_true_r. unfold given. rewrite Hid. by apply truthy_str. }
  rewrite (handler_put E ev t (VDict d) Hm Hb).
  rewrite (update_task_not_found E d _ _ _ t tid Hgiven Hid Hf Hnone).
  by rewrite with_cors_reply.
Qed.

Lemma update_of_unknown_task_witness :
  TaskHandler.handler office_env put_done_t9_by_alice office_table =
    (Ret (task_response 404 (JError [Lit "Task not found"])), office_table,
     [(DdbGetItem (VStr "t9"), true)]).
Proof.
  apply (update_of_unknown_task office_env put_done_t9_by_alice office_table
           [("taskId", VStr "t9"); ("status", VStr "Done")] "t9");
    try reflexivity.
  discriminate.
Defined.

(** X14. When the read of the record raises, or the [taskId] of the request
    is not a string (the table's key is one), the PUT is answered 500 'Could
    not retrieve task' and nothing is written. *)
Theorem update_when_read_raises (E : env) (ev : event_t) (t : table)
    (d : list (string * pyval)) :
  httpMethod ev = "PUT" ->
  event_body ev = json d ->
  given d "taskId" && given d "status" = true ->
  let task_id := default VNone (assoc "taskId" d) in
  ddb_get_item_fault E task_id <> None \/ (forall tid, task_id <> VStr tid) ->
  TaskHandler.handler E ev t =
    (Ret (task_response 500 (JError [Lit "Could not retrieve task"])), t,
     [(DdbGetItem task_id, false)]).
Proof.
  intros Hm Hb Hgiven task_id Hbad.
  rewrite (handler_put E ev t (VDict d) Hm Hb).
  rewrite (update_task_get_raises E d _ _ _ t Hgiven Hbad).
  by rewrite with_cors_reply.
Qed.

Lemma update_when_read_raises_witness :
  TaskHandler.handler office_env put_numeric_id_by_alice office_table =
    (Ret (task_response 500 (JError [Lit "Could not retrieve task"])), office_table,
     [(DdbGetItem (VInt 1), false)]).
Proof.
  apply (update_when_read_raises office_env put_numeric_id_by_alice office_table
           [("taskId", VInt 1); ("status", VStr "Done")]); try reflexivity.
  right. discriminate.
Defined.

(** Who may update a record. *)
Lemma may_update_iff (groups : list string) (by_sub : string) (rec : item) :
  negb (in_groups "admin" groups) && py_ne (item_get rec "assignedTo") (VStr by_sub) = false
  <-> "admin" ∈ groups \/ rec !! "assignedTo" = Some (VStr by_sub).
Proof.
  rewrite andb_false_iff, negb_false_iff, in_groups_true.
  unfold py_ne. rewrite negb_false_iff, py_eq_str. unfold item_get.
  split; (intros [H|H]; [by left|right]).
  - destruct (rec !! "assignedTo"); simpl in *; congruence.
  - by rewrite H.
Qed.

(** X15. When the caller may update the record (an admin, or the assignee)
    and the put of the rewritten record raises, the PUT is answered 500
    'Could not update task'; the table is as it was and no notification is
    attempted. *)
Theorem update_when_put_raises (E : env) (ev : event_t) (t : table)
    (d : list (string * pyval)) (tid : string) (new_status : pyval) (old : item)
    (e : exn) :
  httpMethod ev = "PUT" ->
  event_body ev = json d ->
  assoc "taskId" d = Some (VStr tid) -> tid <> "" ->
  assoc "status" d = Some new_status -> truthy new_status = true ->
  ddb_get_item_fault E (VStr tid) = None ->
  stored t tid = Some old ->
  "admin" ∈ default [] (cognito_groups (authorizer_claims ev)) \/
    old !! "assignedTo" = Some (VStr (sub (authorizer_claims ev))) ->
  ddb_put_item_fault E (rewritten E new_status old) = Some e ->
  TaskHandler.handler E ev t =
    (Ret (task_response 500 (JError [Lit "Could not update task"])), t,
     [(DdbGetItem (VStr tid), true); (DdbPutItem (rewritten E new_status old), false)]).
Proof.
  intros Hm Hb Hid Hne Hst Htruthy Hf Hold Hmay Hput.
  rewrite (handler_put E ev t (VDict d) Hm Hb).
  rewrite (update_task_found E d tid new_status _ _ _ t old Hid Hne Hst Htruthy Hf Hold).
  rewrite (proj2 (may_update_iff _ _ _) Hmay).
  fold (rewritten E new_status old). rewrite Hput.
  by rewrite with_cors_reply.
Qed.

Lemma update_when_put_raises_witness :
  TaskHandler.handler office_store_read_only put_done_by_alice office_table =
    (Ret (task_response 500 (JError [Lit "Could not update task"])), office_table,
     [(DdbGetItem (VStr "t1"), true);
      (DdbPutItem (rewritten office_store_read_only (VStr "Done") record_t1), false)]).
Proof.
  apply (update_when_put_raises office_store_read_only put_done_by_alice office_table
           done_t1 "t1" (VStr "Done") record_t1 (ClientError "AccessDeniedException"));
    try reflexivity.
  - discriminate.
  - right. exact record_t1_assignedTo.
Defined.

(** ** PUT /tasks: the way through *)

Lemma rewritten_description (E : env) (new_status : pyval) (old : item) :
  rewritten E new_status old !! "description" = old !! "description".
Proof. unfold rewritten. by rewrite !lookup_insert_ne. Qed.

(** X16. The way through: a PUT with a non-empty [taskId] and [status] that
    names a record with a text description and no number in the attributes
    the update leaves alone, from an admin or from the record's assignee,
    with a read and a put that go through, is answered 200 with the
    rewritten record, which the table then holds under that key.  The run
    reads, puts once and then notifies; when the status is the one the
    record had, the read and the put are its only calls. *)
Theorem update_succeeds (E : env) (ev : event_t) (t : table)
    (d : list (string * pyval)) (tid : string) (new_status : pyval) (old : item)
    (text : string) :
  httpMethod ev = "PUT" ->
  event_body ev = json d ->
  assoc "taskId" d = Some (VStr tid) -> tid <> "" ->
  assoc "status" d = Some new_status -> truthy new_status = true ->
  ddb_get_item_fault E (VStr tid) = None ->
  stored t tid = Some old ->
  "admin" ∈ default [] (cognito_groups (authorizer_claims ev)) \/
    old !! "assignedTo" = Some (VStr (sub (authorizer_claims ev))) ->
  old !! "description" = Some (VStr text) ->
  no_number (delete "status" (delete "updatedAt" old)) = true ->
  let new := rewritten E new_status old in
  ddb_put_item_fault E new = None ->
  let t' := <[tid := delete "taskId" new]> t in
  exists ntr,
    TaskHandler.handler E ev t =
      (Ret (task_response 200 (JUpdated [Lit "Task updated successfully"] new)), t',
       (DdbGetItem (VStr tid), true) :: (DdbPutItem new, true) :: ntr) /\
    stored t' tid = Some new /\
    (py_eq new_status (item_get old "status") = true -> ntr = []).
Proof.
  intros Hm Hb Hid Hne Hst Htruthy Hf Hold Hmay Hdesc Hclean new Hput t'. subst new t'.
  rewrite (handler_put E ev t (VDict d) Hm Hb).
  rewrite (update_task_found E d tid new_status _ _ _ t old Hid Hne Hst Htruthy Hf Hold).
  rewrite json_dumps_rewritten, Hclean.
  rewrite (proj2 (may_update_iff _ _ _) Hmay).
  fold (rewritten E new_status old). rewrite Hput.
  assert (Hstored : stored (<[tid := delete "taskId" (rewritten E new_status old)]> t) tid
                    = Some (rewritten E new_status old)).
  { apply stored_after_put. by apply rewritten_taskId, stored_taskId with t. }
  unfold py_ne. destruct (py_eq new_status (item_get old "status")); cbn [negb].
  { exists []. by rewrite with_cors_reply. }
  rewrite rewritten_description, Hdesc.
  destruct (Notifications.sns_client E) eqn:Hc.
  - match goal with
    | |- context [Notifications.send_status_update_notification E ?a ?b ?c ?d0 ?e0 ?f ?T] =>
        destruct (topic_configured E a b c d0 e0 f T _ Hc eq_refl) as (pre & m & -> & _)
    end.
    eexists. by rewrite with_cors_reply.
  - rewrite (topic_unconfigured E _ _ _ _ _ _ _ Hc).
    eexists. by rewrite with_cors_reply.
Qed.

Lemma update_succeeds_witness :
  let new := rewritten office_env (VStr "Done") record_t1 in
  exists ntr,
    TaskHandler.handler office_env put_done_by_root office_table =
      (Ret (task_response 200 (JUpdated [Lit "Task updated successfully"] new)),
       <["t1" := delete "taskId" new]> office_table,
       (DdbGetItem (VStr "t1"), true) :: (DdbPutItem new, true) :: ntr) /\
    stored (<["t1" := delete "taskId" new]> office_table) "t1" = Some new.
Proof.
  intros new.
  destruct (update_succeeds office_env put_done_by_root office_table done_t1 "t1"
              (VStr "Done") record_t1 "Wrap the gifts" eq_refl eq_refl eq_refl
              (fun H : "t1" = "" => eq_ind "t1"
                 (fun s => match s with String _ _ => True | EmptyString => False end)
                 I "" H)
              eq_refl eq_refl eq_refl stored_t1
              (or_introl (proj1 (in_groups_true "admin" ["admin"]) eq_refl)))
    as (ntr & Hrun & Hstored & _).
  - by_evaluation.
  - by_evaluation.
  - reflexivity.
  - exists ntr. split; [exact Hrun|exact Hstored].
Defined.

(** X17. The write is not undone: when the status changes and the record
    has no [description], or the topic is configured and the description
    cannot be cut (it is not text), the PUT raises after the record has been
    rewritten; no response is returned and the table holds the new record. *)
Theorem update_can_raise_after_the_write (E : env) (ev : event_t) (t : table)
    (d : list (string * pyval)) (tid : string) (new_status : pyval) (old : item) :
  httpMethod ev = "PUT" ->
  event_body ev = json d ->
  assoc "taskId" d = Some (VStr tid) -> tid <> "" ->
  assoc "status" d = Some new_status -> truthy new_status = true ->
  ddb_get_item_fault E (VStr tid) = None ->
  stored t tid = Some old ->
  "admin" ∈ default [] (cognito_groups (authorizer_claims ev)) \/
    old !! "assignedTo" = Some (VStr (sub (authorizer_claims ev))) ->
  py_ne new_status (item_get old "status") = true ->
  let new := rewritten E new_status old in
  ddb_put_item_fault E new = None ->
  old !! "description" = None \/
    (Notifications.sns_client E = true /\
     exists description e,
       old !! "description" = Some description /\ py_slice50 description = Raise e) ->
  let t' := <[tid := delete "taskId" new]> t in
  exists e,
    TaskHandler.handler E ev t =
      (Raise e, t', [(DdbGetItem (VStr tid), true); (DdbPutItem new, true)]) /\
    stored t' tid = Some new.
Proof.
  intros Hm Hb Hid Hne Hst Htruthy Hf Hold Hmay Hdiff new Hput Hbad t'. subst new t'.
  rewrite (handler_put E ev t (VDict d) Hm Hb).
  rewrite (update_task_found E d tid new_status _ _ _ t old Hid Hne Hst Htruthy Hf Hold).
  rewrite (proj2 (may_update_iff _ _ _) Hmay).
  fold (rewritten E new_status old). rewrite Hput, Hdiff, rewritten_description.
  assert (Hstored : stored (<[tid := delete "taskId" (rewritten E new_status old)]> t) tid
                    = Some (rewritten E new_status old)).
  { apply stored_after_put. by apply rewritten_taskId, stored_taskId with t. }
  destruct Hbad as [Hnone|(Hc & description & e & Hdesc & Hs)].
  - rewrite Hnone. by eexists.
  - rewrite Hdesc, (topic_unsliceable E _ _ _ _ _ _ _ e Hc Hs). by eexists.
Qed.

Lemma update_can_raise_after_the_write_witness :
  let new := rewritten office_env (VStr "Done") bare_record in
  exists e,
    TaskHandler.handler office_env put_done_by_alice bare_table =
      (Raise e, <["t1" := delete "taskId" new]> bare_table,
       [(DdbGetItem (VStr "t1"), true); (DdbPutItem new, true)]) /\
    stored (<["t1" := delete "taskId" new]> bare_table) "t1" = Some new.
Proof.
  intros new.
  apply (update_can_raise_after_the_write office_env put_done_by_alice bare_table
           done_t1 "t1" (VStr "Done") bare_record); try reflexivity.
  - discriminate.
  - right. by_evaluation.
  - left. by_evaluation.
Defined.

(** * The user handler *)

Lemma user_handler_admin (E : env) (ev : event_t) (t : table) :
  httpMethod ev <> "OPTIONS" ->
  "admin" ∈ default [] (cognito_groups (authorizer_claims ev)) ->
  UserHandler.handler E ev t =
    if String.eqb (httpMethod ev) "POST" then UserHandler.create_user E ev t
    else UserHandler.list_all_users E t.
Proof.
  intros Hm Hadmin. unfold UserHandler.handler.
  rewrite (proj2 (String.eqb_neq _ _) Hm).
  rewrite (proj2 (in_groups_true _ _) Hadmin). cbn [negb].
  by destruct (String.eqb (httpMethod ev) "POST").
Qed.

(** X18. The user handler refuses every caller who is not an admin: for
    every method but OPTIONS (GET, POST or any other) the response is 403
    'Unauthorized. Only admins can list users.' and no call is made. *)
Theorem users_are_for_admins (E : env) (ev : event_t) (t : table) :
  httpMethod ev <> "OPTIONS" ->
  "admin" ∉ default [] (cognito_groups (authorizer_claims ev)) ->
  UserHandler.handler E ev t =
    (Ret (UserHandler.reply 403 (JError [Lit "Unauthorized. Only admins can list users."])),
     t, []).
Proof.
  intros Hm Hadmin. unfold UserHandler.handler.
  rewrite (proj2 (String.eqb_neq _ _) Hm).
  by rewrite (proj2 (in_groups_false _ _) Hadmin).
Qed.

Lemma users_are_for_admins_witness :
  UserHandler.handler office_env post_by_bob office_table =
    (Ret (UserHandler.reply 403 (JError [Lit "Unauthorized. Only admins can list users."])),
     office_table, []).
Proof.
  apply (users_are_for_admins office_env post_by_bob office_table).
  - discriminate.
  - apply in_groups_false. reflexivity.
Defined.

(** The loop over the users of the directory. *)
Lemma collect_users_all (E : env) (users : list cognito_user) (t : table) :
  forallb (groups_known E) users = true ->
  UserHandler.collect_users E users t =
    (Ret (listed E <$> users), t, groups_call true <$> users).
Proof.
  induction users as [|u users IH]; [done|].
  intros Hall. apply andb_true_iff in Hall as [Hu Hall].
  cbn [UserHandler.collect_users]. unfold admin_list_groups_for_user, directory_read.
  unfold groups_known in Hu.
  unfold bind at 1.
  destruct (cognito_admin_list_groups_for_user E (Username u)) as [gs|e] eqn:Hg; [|done].
  unfold bind at 1, emit at 1, ret at 1. cbn.
  unfold bind at 1. rewrite (IH Hall). cbn.
  rewrite app_nil_r. unfold listed at 2, groups_call at 2. by rewrite Hg.
Qed.

Lemma collect_users_stops (E : env) (before after : list cognito_user)
    (u : cognito_user) (e : exn) (t : table) :
  forallb (groups_known E) before = true ->
  cognito_admin_list_groups_for_user E (Username u) = Raise e ->
  UserHandler.collect_users E (before ++ u :: after) t =
    (Raise e, t, (groups_call true <$> before) ++ [groups_call false u]).
Proof.
  intros Hall Hu.
  induction before as [|u0 before IH].
  - cbn [app UserHandler.collect_users]. unfold admin_list_groups_for_user, directory_read.
    unfold bind at 1. by rewrite Hu.
  - apply andb_true_iff in Hall as [Hu0 Hall].
    cbn [app UserHandler.collect_users]. unfold admin_list_groups_for_user, directory_read.
    unfold groups_known in Hu0. unfold bind at 1.
    destruct (cognito_admin_list_groups_for_user E (Username u0)) as [gs|e0]; [|done].
    unfold bind at 1, emit at 1, ret at 1. cbn.
    unfold bind at 1. rewrite (IH Hall). reflexivity.
Qed.

(** X19. For an admin, every method but OPTIONS and POST lists the users
    (there is no 405 here).  When the directory answers every call, the
    response is 200 with one entry per user, in the directory's order, each
    with the user's name, attributes, enabled flag, status and groups; the
    run makes one call for the users and one more per user for its groups. *)
Theorem users_are_listed (E : env) (ev : event_t) (t : table)
    (users : list cognito_user) :
  httpMethod ev <> "OPTIONS" -> httpMethod ev <> "POST" ->
  "admin" ∈ default [] (cognito_groups (authorizer_claims ev)) ->
  cognito_list_users E = Ret users ->
  forallb (groups_known E) users = true ->
  UserHandler.handler E ev t =
    (Ret (UserHandler.reply 200 (JUsers (listed E <$> users))), t,
     (CognitoListUsers, true) :: (groups_call true <$> users)).
Proof.
  intros Hm1 Hm2 Hadmin Hall Hgroups.
  rewrite (user_handler_admin E ev t Hm1 Hadmin).
  rewrite (proj2 (String.eqb_neq _ _) Hm2).
  unfold UserHandler.list_all_users, list_users, directory_read. rewrite Hall.
  unfold bind at 1, attempt at 1, bind at 1, bind at 1, emit, ret at 1. cbn.
  unfold bind at 1. rewrite (collect_users_all E users t Hgroups). cbn.
  by rewrite !app_nil_r.
Qed.

Lemma users_are_listed_witness :
  UserHandler.handler office_of_two delete_users_by_root office_table =
    (Ret (UserHandler.reply 200 (JUsers [listed office_of_two alice; listed office_of_two bob])),
     office_table,
     [(CognitoListUsers, true);
      (CognitoAdminListGroupsForUser "alice", true);
      (CognitoAdminListGroupsForUser "bob", true)]).
Proof.
  apply (users_are_listed office_of_two delete_users_by_root office_table [alice; bob]);
    try reflexivity; try discriminate.
  apply in_groups_true. reflexivity.
Defined.

(** X20. Listing is all or nothing: when the call for the users raises, or
    the call for the groups of some user raises, the response is 500 with
    the exception's text; the run stops at the failing call and no entry is
    returned. *)
Theorem users_listing_fails_as_a_whole (E : env) (ev : event_t) (t : table) (e : exn) :
  httpMethod ev <> "OPTIONS" -> httpMethod ev <> "POST" ->
  "admin" ∈ default [] (cognito_groups (authorizer_claims ev)) ->
  (cognito_list_users E = Raise e ->
   UserHandler.handler E ev t =
     (Ret (UserHandler.reply 500 (JError [FmtExn e])), t, [(CognitoListUsers, false)])) /\
  (forall before u after,
     cognito_list_users E = Ret (before ++ u :: after) ->
     forallb (groups_known E) before = true ->
     cognito_admin_list_groups_for_user E (Username u) = Raise e ->
     UserHandler.handler E ev t =
       (Ret (UserHandler.reply 500 (JError [FmtExn e])), t,
        (CognitoListUsers, true) :: (groups_call true <$> before) ++ [groups_call false u])).
Proof.
  intros Hm1 Hm2 Hadmin.
  rewrite (user_handler_admin E ev t Hm1 Hadmin).
  rewrite (proj2 (String.eqb_neq _ _) Hm2).
  unfold UserHandler.list_all_users, list_users, directory_read.
  split.
  - intros ->. reflexivity.
  - intros before u after -> Hgroups Hu.
    unfold bind at 1, attempt at 1, bind at 1, bind at 1, emit, ret at 1. cbn.
    unfold bind at 1. rewrite (collect_users_stops E before after u e t Hgroups Hu). cbn.
    by rewrite ?app_nil_r.
Qed.

Lemma users_listing_fails_as_a_whole_witness :
  UserHandler.handler office_groups_down get_users_by_root office_table =
    (Ret (UserHandler.reply 500 (JError [FmtExn (ClientError "InternalErrorException")])),
     office_table,
     [(CognitoListUsers, true);
      (CognitoAdminListGroupsForUser "alice", true);
      (CognitoAdminListGroupsForUser "bob", false)]).
Proof.
  assert (H1 : httpMethod get_users_by_root <> "OPTIONS") by discriminate.
  assert (H2 : httpMethod get_users_by_root <> "POST") by discriminate.
  destruct (users_listing_fails_as_a_whole office_groups_down get_users_by_root
              office_table (ClientError "InternalErrorException") H1 H2
              (proj1 (in_groups_true "admin" ["admin"]) eq_refl)) as [_ Hstop].
  apply (Hstop [alice] bob []); reflexivity.
Defined.

(** ** POST /users: failures *)

Lemma user_handler_post (E : env) (ev : event_t) (t : table) :
  httpMethod ev = "POST" ->
  "admin" ∈ default [] (cognito_groups (authorizer_claims ev)) ->
  UserHandler.handler E ev t = UserHandler.create_user E ev t.
Proof.
  intros Hm Hadmin. rewrite user_handler_admin; [by rewrite Hm|by rewrite Hm|done].
Qed.

(** X21. The user handler never raises on a bad body: for an admin's POST
    whose body is null, is not JSON, or is JSON but not an object, the
    response is 500 with the exception's text (not 400), and no call is
    made to the directory. *)
Theorem user_body_problems_are_500 (E : env) (ev : event_t) (t : table) :
  httpMethod ev = "POST" ->
  "admin" ∈ default [] (cognito_groups (authorizer_claims ev)) ->
  (forall d, UserHandler.loads_body (event_body ev) <> Ret (VDict d)) ->
  exists e,
    UserHandler.handler E ev t =
      (Ret (UserHandler.reply 500 (JError [FmtExn e])), t, []).
Proof.
  intros Hm Hadmin Hbody.
  rewrite (user_handler_post E ev t Hm Hadmin).
  unfold UserHandler.create_user.
  destruct (UserHandler.loads_body (event_body ev)) as [[| | | | |d]|e];
    try (by eexists).
  by destruct (Hbody d).
Qed.

Lemma user_body_problems_are_500_witness :
  exists e,
    UserHandler.handler office_env post_user_null_by_root office_table =
      (Ret (UserHandler.reply 500 (JError [FmtExn e])), office_table, []).
Proof.
  apply (user_body_problems_are_500 office_env post_user_null_by_root office_table).
  - reflexivity.
  - apply in_groups_true. reflexivity.
  - discriminate.
Defined.

(** X22. When the directory refuses to create the user, the response is 500
    with the exception's text and the group call is not made.  When the
    creation goes through and adding the user to the group [member] raises,
    the response is also 500: the user has been created and is in no
    group. *)
Theorem user_creation_can_fail_halfway (E : env) (ev : event_t) (t : table)
    (d : list (string * pyval)) (e : exn) :
  httpMethod ev = "POST" ->
  "admin" ∈ default [] (cognito_groups (authorizer_claims ev)) ->
  UserHandler.loads_body (event_body ev) = Ret (VDict d) ->
  given d "username" && given d "email" = true ->
  let user := user_to_create d in
  let failed := UserHandler.reply 500 (JError [FmtExn e]) in
  (cognito_admin_create_user_fault E user = Some e ->
   UserHandler.handler E ev t = (Ret failed, t, [(CognitoAdminCreateUser user, false)])) /\
  (cognito_admin_create_user_fault E user = None ->
   cognito_admin_add_user_to_group_fault E (NewUsername user) "member" = Some e ->
   UserHandler.handler E ev t =
     (Ret failed, t,
      [(CognitoAdminCreateUser user, true);
       (CognitoAdminAddUserToGroup (NewUsername user) "member", false)])).
Proof.
  intros Hm Hadmin Hbody Hgiven user failed.
  rewrite (user_handler_post E ev t Hm Hadmin).
  unfold UserHandler.create_user. rewrite Hbody.
  unfold bind, attempt, lift, ret. simpl.
  unfold given in Hgiven. rewrite <- negb_andb, Hgiven. simpl.
  unfold admin_create_user, admin_add_user_to_group, service_write.
  fold (user_to_create d). fold user.
  split.
  - intros ->. reflexivity.
  - intros -> Hadd. simpl. simpl in Hadd. rewrite Hadd.
    unfold bind, emit, raise. reflexivity.
Qed.

Lemma user_creation_can_fail_halfway_witness :
  UserHandler.handler office_name_taken post_user_dave office_table =
    (Ret (UserHandler.reply 500 (JError [FmtExn (ClientError "UsernameExistsException")])),
     office_table, [(CognitoAdminCreateUser (user_to_create dave), false)]) /\
  UserHandler.handler office_group_missing post_user_dave office_table =
    (Ret (UserHandler.reply 500 (JError [FmtExn (ClientError "ResourceNotFoundException")])),
     office_table,
     [(CognitoAdminCreateUser (user_to_create dave), true);
      (CognitoAdminAddUserToGroup (VStr "dave") "member", false)]).
Proof.
  split.
  - apply (user_creation_can_fail_halfway office_name_taken post_user_dave office_table
             dave (ClientError "UsernameExistsException") eq_refl
             (proj1 (in_groups_true "admin" ["admin"]) eq_refl) eq_refl eq_refl).
    reflexivity.
  - apply (user_creation_can_fail_halfway office_group_missing post_user_dave office_table
             dave (ClientError "ResourceNotFoundException") eq_refl
             (proj1 (in_groups_true "admin" ["admin"]) eq_refl) eq_refl eq_refl);
      reflexivity.
Defined.

(** ** The user handler as a whole *)

Lemma collect_users_quiet (E : env) (users : list cognito_user) (t : table) :
  exists r tr,
    UserHandler.collect_users E users t = (r, t, tr) /\
    called is_table_call tr = false.
Proof.
  induction users as [|u users (r & tr & IH & Hquiet)]; [by eexists _, _|].
  cbn [UserHandler.collect_users]. unfold admin_list_groups_for_user, directory_read.
  unfold bind at 1.
  destruct (cognito_admin_list_groups_for_user E (Username u)) as [gs|e].
  - unfold bind at 1, emit at 1, ret at 1. cbn.
    unfold bind at 1. rewrite IH.
    destruct r as [entries|e]; cbn; eexists _, _; (split; [reflexivity|]);
      unfold called in *; cbn; by rewrite ?existsb_app, ?Hquiet.
  - eexists _, _. split; [reflexivity|done].
Qed.

Lemma create_user_quiet (E : env) (ev : event_t) (t : table) :
  exists resp tr,
    UserHandler.create_user E ev t = (Ret resp, t, tr) /\
    called is_table_call tr = false /\
    headers resp = Some {["Access-Control-Allow-Origin" := "*"]}.
Proof.
  unfold UserHandler.create_user.
  destruct (UserHandler.loads_body (event_body ev)) as [[| | | | |d]|e];
    try (by eexists _, _).
  unfold bind, attempt, lift, ret. simpl.
  destruct (negb _ || negb _); [by eexists _, _|].
  unfold admin_create_user, admin_add_user_to_group, service_write.
  destruct (cognito_admin_create_user_fault E _); [by eexists _, _|].
  unfold emit. simpl.
  destruct (cognito_admin_add_user_to_group_fault E _ _); by eexists _, _.
Qed.

(** X23. The user handler always answers: whatever the request, the
    environment and the table, it returns a response (it never raises) that
    carries the header Access-Control-Allow-Origin: *, it leaves the task
    table as it was and makes no call to it. *)
Theorem user_handler_always_answers (E : env) (ev : event_t) (t : table) :
  exists resp tr h,
    UserHandler.handler E ev t = (Ret resp, t, tr) /\
    called is_table_call tr = false /\
    headers resp = Some h /\
    h !! "Access-Control-Allow-Origin" = Some "*".
Proof.
  unfold UserHandler.handler.
  destruct (String.eqb (httpMethod ev) "OPTIONS").
  { eexists _, _, _. repeat split. }
  destruct (negb (in_groups "admin" _)).
  { eexists _, _, _. repeat split. }
  destruct (String.eqb (httpMethod ev) "POST").
  - destruct (create_user_quiet E ev t) as (resp & tr & -> & Hq & Hh).
    by eexists _, _, _.
  - unfold UserHandler.list_all_users, list_users, directory_read.
    destruct (cognito_list_users E) as [users|e].
    2: { eexists _, _, _. repeat split. }
    destruct (collect_users_quiet E users t) as (r & tr & Hc & Hq).
    unfold bind at 1, attempt at 1, bind at 1, bind at 1, emit, ret at 1. cbn.
    unfold bind at 1. rewrite Hc.
    destruct r as [entries|e]; cbn; eexists _, _, _;
      (split; [reflexivity|]); (split; [|by split]);
      unfold called in *; cbn; by rewrite ?existsb_app, ?Hq.
Qed.

(** * The task handler as a whole *)

(** X24. Every response the task handler returns, whatever the method and
    the outcome, carries the three fixed cross-origin headers with their
    fixed values. *)
Theorem task_responses_carry_cors (E : env) (ev : event_t) (t t' : table)
    (resp : response) (tr : list event) :
  TaskHandler.handler E ev t = (Ret resp, t', tr) ->
  exists h, headers resp = Some h /\ DEFAULT_CORS_HEADERS ⊆ h.
Proof.
  unfold TaskHandler.handler.
  destruct (String.eqb (httpMethod ev) "OPTIONS").
  { intros [= <- <- <-]. by eexists. }
  unfold bind at 1.
  match goal with
  | |- context [match ?run with _ => _ end] => destruct run as [[[r|e] t1] tr1]
  end; [|done].
  intros [= <- <- <-]. eexists. split; [reflexivity|].
  apply map_union_subseteq_l.
Qed.

Lemma task_responses_carry_cors_witness :
  let run := TaskHandler.handler office_env put_done_by_alice office_table in
  exists h, headers (response_of run) = Some h /\ DEFAULT_CORS_HEADERS ⊆ h.
Proof.
  intros run.
  apply (task_responses_carry_cors office_env put_done_by_alice office_table
           run.1.2 (response_of run) run.2).
  exact (proj1 put_done_by_alice_runs).
Defined.

(** ** What a PUT does to the table *)

(** Every run of [update_task] on a JSON object either leaves the table as
    it was or rewrote, under the key it read, a record the table held. *)
Lemma update_task_cases (E : env) (d : list (string * pyval))
    (by_username by_sub : string) (groups : list string) (t : table) :
  let run := TaskHandler.update_task E (VDict d) by_username by_sub groups t in
  run.1.2 = t \/
  exists tid new_status old,
    assoc "taskId" d = Some (VStr tid) /\
    assoc "status" d = Some new_status /\
    stored t tid = Some old /\
    ("admin" ∈ groups \/ old !! "assignedTo" = Some (VStr by_sub)) /\
    run.1.2 = <[tid := delete "taskId" (rewritten E new_status old)]> t.
Proof.
  intros run. subst run.
  destruct (given d "taskId" && given d "status") eqn:Hgiven.
  2: { left. by rewrite (update_task_bad_request E d _ _ _ t Hgiven). }
  pose proof Hgiven as Hboth.
  apply andb_true_iff in Hboth as [Hid Hst].
  apply given_inv in Hid as (task_id & Hid & Htid).
  apply given_inv in Hst as (new_status & Hst & Hnew).
  destruct (ddb_get_item_fault E task_id) as [e|] eqn:Hf.
  { left. rewrite (update_task_get_raises E d _ _ _ t Hgiven); [done|].
    left. rewrite Hid. simpl. by rewrite Hf. }
  assert ((exists tid, task_id = VStr tid) \/ forall tid, task_id <> VStr tid)
    as [[tid ->]|Hnostr] by (destruct task_id; eauto).
  2: { left. rewrite (update_task_get_raises E d _ _ _ t Hgiven); [done|].
       right. rewrite Hid. simpl. apply Hnostr. }
  destruct (stored t tid) as [old|] eqn:Hold.
  2: { left. by rewrite (update_task_not_found E d _ _ _ t tid Hgiven Hid Hf Hold). }
  assert (Hne : tid <> "") by (by apply truthy_str).
  rewrite (update_task_found E d tid new_status _ _ _ t old Hid Hne Hst Hnew Hf Hold).
  destruct (negb (in_groups "admin" groups) && _) eqn:Hauth; [by left|].
  apply may_update_iff in Hauth.
  fold (rewritten E new_status old).
  destruct (ddb_put_item_fault E _); [by left|].
  right. exists tid, new_status, old. do 4 (split; [done|]).
  destruct (py_ne new_status (item_get old "status")); [|done].
  destruct (_ !! "description"); [|done].
  destruct (Notifications.send_status_update_notification _ _ _ _ _ _ _ _)
    as [[[b|e] t''] ntr] eqn:Hn;
    by rewrite (topic_helper_table _ _ _ _ _ _ _ _ _ _ _ Hn).
Qed.

(** X25. A PUT never adds or removes a record: whatever the request and
    whatever happens in the run (a response of any status, or an
    exception), the table afterwards has exactly the keys it had, and all
    its records but the one under the request's [taskId] are as they were. *)
Theorem update_keeps_the_keys (E : env) (ev : event_t) (t : table) :
  httpMethod ev = "PUT" ->
  let t' := (TaskHandler.handler E ev t).1.2 in
  (forall k : string, is_Some (t' !! k) <-> is_Some (t !! k)) /\
  (forall k : string,
     (forall d, event_body ev = json d -> assoc "taskId" d <> Some (VStr k)) ->
     t' !! k = t !! k).
Proof.
  intros Hm t'. subst t'.
  destruct (event_body ev) as [| |[data|]] eqn:Hb;
    try (unfold TaskHandler.handler; rewrite Hm, Hb; done).
  rewrite (handler_put E ev t data Hm Hb).
  destruct data as [| | | | |d]; try done.
  pose proof (update_task_cases E d (cognito_username (authorizer_claims ev))
                (sub (authorizer_claims ev))
                (default [] (cognito_groups (authorizer_claims ev))) t) as Hcases.
  destruct (TaskHandler.update_task E _ _ _ _ _) as [[r t1] tr1].
  assert (Hsame : (let '(r0, t0, _) :=
                     match r with
                     | Ret r0 => (Ret (with_cors r0), t1, tr1)
                     | Raise e => (Raise e, t1, tr1)
                     end in t0) = t1) by (by destruct r).
  assert (Hgoal : (match r with
                   | Ret r0 => (Ret (with_cors r0), t1, tr1)
                   | Raise e => (Raise e, t1, tr1)
                   end).1.2 = t1) by (by destruct r).
  rewrite Hgoal. clear Hsame Hgoal. simpl in Hcases.
  destruct Hcases as [->|(tid & new_status & old & Hid & Hst & Hold & _ & ->)]; [done|].
  split.
  - intros k. destruct (decide (k = tid)) as [->|Hk].
    + rewrite lookup_insert_eq. unfold stored in Hold.
      destruct (t !! tid); [|done]. split; eauto.
    + by rewrite lookup_insert_ne.
  - intros k Hk. rewrite lookup_insert_ne; [done|].
    intros <-. by apply (Hk d).
Qed.

Lemma update_keeps_the_keys_witness :
  let t' := (TaskHandler.handler office_env put_done_by_alice office_table).1.2 in
  (forall k : string, is_Some (t' !! k) <-> is_Some (office_table !! k)) /\
  t' !! "t2" = office_table !! "t2".
Proof.
  intros t'.
  destruct (update_keeps_the_keys office_env put_done_by_alice office_table eq_refl)
    as [Hkeys Hframe].
  split; [exact Hkeys|].
  apply Hframe. intros d Hd. injection Hd as <-. discriminate.
Defined.

(** * lambda/task/notifications.py: the text of the status notice *)

(** The cut [s[:n]] keeps whole characters: it is a prefix of [s] with [n]
    characters, or all of [s] when [s] has fewer. *)
Lemma py_take_chars_count (n : nat) (s : string) :
  char_count (py_take_chars n s) = Nat.min n (char_count s).
Proof.
  revert n. induction s as [|c s IH]; intros n; cbn [py_take_chars char_count].
  { by rewrite Nat.min_0_r. }
  destruct (continues_char c) eqn:Hc; cbn [char_count]; rewrite ?Hc; [apply IH|].
  destruct n as [|n]; [done|]. cbn [char_count]. rewrite Hc, IH. done.
Qed.

Lemma py_take_chars_prefix (n : nat) (s : string) :
  exists rest, s = py_take_chars n s +:+ rest.
Proof.
  revert n. induction s as [|c s IH]; intros n; cbn [py_take_chars].
  { by exists EmptyString. }
  destruct (continues_char c).
  - destruct (IH n) as [rest Hrest]. exists rest.
    change (String c s = String c (py_take_chars n s +:+ rest)). by f_equal.
  - destruct n as [|n]; [by exists (String c s)|].
    destruct (IH n) as [rest Hrest]. exists rest.
    change (String c s = String c (py_take_chars n s +:+ rest)). by f_equal.
Qed.

(** X26. When the assignee's profile cannot be read (the pool id is not
    set, or the lookup raises), the status notice still goes out: with the
    topic configured, a description that can be cut and an assignee, the
    helper publishes once, the text ending in the assignee's sub alone,
    under the subject made of the first 50 characters of the description,
    and returns whether the publish went through. *)
Theorem status_notice_without_profile (E : env)
    (task_id description old_status new_status : pyval)
    (by_username : string) (assigned : pyval) (t : table) (short : pyval) :
  Notifications.sns_client E = true ->
  py_slice50 description = Ret short ->
  truthy assigned = true ->
  opt_truthy (USER_POOL_ID E) = false \/
    (exists e, cognito_admin_get_user E assigned = Raise e) ->
  let m := status_notice E short
             (status_text task_id description old_status new_status by_username ++
              [Lit " Task is assigned to sub: "; Fmt assigned; Lit "."]) in
  exists pre,
    Notifications.send_status_update_notification E task_id description old_status
      new_status by_username assigned t =
      (Ret (topic_accepts E m), t, pre ++ [(SnsPublish m, topic_accepts E m)]) /\
    called is_publish pre = false.
Proof.
  intros Hc Hs Ha Hno m. subst m.
  unfold Notifications.send_status_update_notification.
  rewrite Hc, Hs, Ha. cbn [negb andb]. rewrite bind_lift_ret.
  unfold Notifications.cognito_client, status_notice, status_text, topic_accepts.
  destruct (opt_truthy (USER_POOL_ID E)) eqn:Hp; cbn [andb].
  - destruct Hno as [?|[e He]]; [done|].
    unfold admin_get_user, directory_read. rewrite He.
    unfold bind, attempt, sns_publish, service_write, emit, ret, raise. simpl.
    eexists [_].
    by destruct (sns_publish_fault E _).
  - unfold bind, attempt, sns_publish, service_write, emit, ret, raise. simpl.
    exists [].
    by destruct (sns_publish_fault E _).
Qed.

Lemma status_notice_without_profile_witness :
  let m := status_notice office_env (VStr "Wrap the gifts")
             (status_text (VStr "t1") (VStr "Wrap the gifts") (VStr "New")
                (VStr "Done") "alice" ++
              [Lit " Task is assigned to sub: "; Fmt (VStr "sub-alice"); Lit "."]) in
  exists pre,
    Notifications.send_status_update_notification office_env (VStr "t1")
      (VStr "Wrap the gifts") (VStr "New") (VStr "Done") "alice" (VStr "sub-alice")
      office_table =
      (Ret (topic_accepts office_env m), office_table,
       pre ++ [(SnsPublish m, topic_accepts office_env m)]) /\
    called is_publish pre = false.
Proof.
  apply (status_notice_without_profile office_env (VStr "t1") (VStr "Wrap the gifts")
           (VStr "New") (VStr "Done") "alice" (VStr "sub-alice") office_table
           (VStr "Wrap the gifts")); try reflexivity.
  right. by eexists.
Defined.

(** X27. When the pool id is set and the assignee's profile is read, the
    status notice names the assignee: by the profile's first
    [preferred_username], or by the sub again when the profile has none,
    followed by the sub in brackets.  One read of the profile comes before
    the one publish. *)
Theorem status_notice_names_the_assignee (E : env)
    (task_id description old_status new_status : pyval)
    (by_username : string) (assigned : pyval) (t : table) (short : pyval)
    (attrs : list (string * string)) :
  Notifications.sns_client E = true ->
  py_slice50 description = Ret short ->
  truthy assigned = true ->
  opt_truthy (USER_POOL_ID E) = true ->
  cognito_admin_get_user E assigned = Ret attrs ->
  let name := match first_attr "preferred_username" attrs with
              | Some name => VStr name
              | None => assigned
              end in
  let m := status_notice E short
             (status_text task_id description old_status new_status by_username ++
              [Lit " Task is assigned to: "; Fmt name;
               Lit " (sub: "; Fmt assigned; Lit ")."]) in
  Notifications.send_status_update_notification E task_id description old_status
    new_status by_username assigned t =
    (Ret (topic_accepts E m), t,
     [(CognitoAdminGetUser assigned, true); (SnsPublish m, topic_accepts E m)]).
Proof.
  intros Hc Hs Ha Hp Hattrs name m. subst m name.
  unfold Notifications.send_status_update_notification.
  rewrite Hc, Hs, Ha. cbn [negb andb]. rewrite bind_lift_ret.
  unfold Notifications.cognito_client, status_notice, status_text, topic_accepts.
  rewrite Hp. cbn [andb].
  unfold admin_get_user, directory_read. rewrite Hattrs.
  unfold bind, attempt, sns_publish, service_write, emit, ret, raise. simpl.
  by destruct (sns_publish_fault E _).
Qed.

Lemma status_notice_names_the_assignee_witness :
  let m := status_notice office_with_nickname (VStr "Wrap the gifts")
             (status_text (VStr "t1") (VStr "Wrap the gifts") (VStr "New")
                (VStr "Done") "alice" ++
              [Lit " Task is assigned to: "; Fmt (VStr "Ally");
               Lit " (sub: "; Fmt (VStr "sub-alice"); Lit ")."]) in
  Notifications.send_status_update_notification office_with_nickname (VStr "t1")
    (VStr "Wrap the gifts") (VStr "New") (VStr "Done") "alice" (VStr "sub-alice")
    office_table =
    (Ret (topic_accepts office_with_nickname m), office_table,
     [(CognitoAdminGetUser (VStr "sub-alice"), true);
      (SnsPublish m, topic_accepts office_with_nickname m)]).
Proof.
  apply (status_notice_names_the_assignee office_with_nickname (VStr "t1")
           (VStr "Wrap the gifts") (VStr "New") (VStr "Done") "alice"
           (VStr "sub-alice") office_table (VStr "Wrap the gifts")
           [("sub", "sub-alice"); ("preferred_username", "Ally")]); reflexivity.
Defined.

(** * lambda/deadline/handler.py: the loop over the scanned records *)

(** One turn of the loop on a record it can read. *)
Lemma scan_loop_step (E : env) (soon : string) (task : item) (todo : list item)
    (alerts : list fstring) (t : table) :
  scannable task = true ->
  DeadlineHandler.scan_loop E soon (task :: todo) alerts t =
    if due soon task then
      match sns_publish_fault E (alert E task) with
      | None =>
          let '(r, t', tr) :=
            DeadlineHandler.scan_loop E soon todo (alerts ++ [alert_text task]) t in
          (r, t', (SnsPublish (alert E task), true) :: tr)
      | Some e => (Raise e, t, [(SnsPublish (alert E task), false)])
      end
    else DeadlineHandler.scan_loop E soon todo alerts t.
Proof.
  unfold scannable, due, alert, alert_text, item_get.
  cbn [DeadlineHandler.scan_loop]. unfold item_index.
  destruct (task !! "status") as [status|]; [|done].
  destruct (task !! "deadline") as [[| | |deadline| |]|]; try done.
  destruct (task !! "description") as [description|]; [|done].
  destruct (task !! "assignedTo") as [assignedTo|]; [|done].
  intros _. simpl default.
  unfold sns_publish, service_write, DeadlineHandler.py_le_str.
  unfold bind, lift, ret, emit, raise.
  destruct (py_ne status (VStr "Completed")); cbn [andb].
  - destruct (String.leb deadline soon).
    + destruct (sns_publish_fault E _); [done|]. simpl.
      by destruct (DeadlineHandler.scan_loop E soon todo _ t) as [[[r|e] t'] tr].
    + simpl.
      by destruct (DeadlineHandler.scan_loop E soon todo _ t) as [[[r|e] t'] tr].
  - simpl.
    by destruct (DeadlineHandler.scan_loop E soon todo _ t) as [[[r|e] t'] tr].
Qed.

(** X28. Reached with a cut-off [soon], the loop of the deadline handler
    alerts exactly the due records, in the order of the scan: over records
    that each have a status, a string deadline, a description and an
    assignee, and with every publish going through, it returns the alerts
    of the records that are not Completed and whose deadline is at or
    before the cut-off, after one publish for each, and leaves the table
    alone.  A deadline long past counts as due. *)
Theorem scan_alerts_the_due_records (E : env) (soon : string) (todo : list item)
    (alerts : list fstring) (t : table) :
  forallb scannable todo = true ->
  (forall task, task ∈ todo -> due soon task = true ->
                sns_publish_fault E (alert E task) = None) ->
  DeadlineHandler.scan_loop E soon todo alerts t =
    (Ret (alerts ++ map alert_text (List.filter (due soon) todo)), t,
     published E (List.filter (due soon) todo)).
Proof.
  revert alerts. induction todo as [|task todo IH]; intros alerts Hread Hok.
  { simpl. by rewrite app_nil_r. }
  cbn [forallb] in Hread. apply andb_true_iff in Hread as [Htask Hread].
  rewrite (scan_loop_step E soon task todo alerts t Htask).
  cbn [List.filter].
  destruct (due soon task) eqn:Hdue.
  - rewrite (Hok task); [|by left|done].
    rewrite IH; [|done|by intros task' ?; apply Hok; right].
    cbn [map published]. by rewrite <- app_assoc.
  - apply IH; [done|]. by intros task' ?; apply Hok; right.
Qed.

Lemma scan_alerts_the_due_records_witness :
  let soon := "2025-12-24T11:00:00.000000+00:00" in
  DeadlineHandler.scan_loop office_env soon office_records [] office_table =
    (Ret ([] ++ map alert_text (List.filter (due soon) office_records)), office_table,
     published office_env (List.filter (due soon) office_records)).
Proof.
  intros soon.
  apply (scan_alerts_the_due_records office_env soon office_records [] office_table).
  - by_evaluation.
  - intros task _ _. reflexivity.
Defined.

(** X29. The loop stops at the first publish that raises: the exception
    leaves the loop, so no alert list is returned, although a publish was
    made for every due record before the failing one; the records after
    it are not looked at. *)
Theorem scan_stops_at_a_failed_publish (E : env) (soon : string)
    (before after : list item) (task : item) (alerts : list fstring)
    (t : table) (e : exn) :
  forallb scannable before = true ->
  (forall task', task' ∈ before -> due soon task' = true ->
                 sns_publish_fault E (alert E task') = None) ->
  scannable task = true ->
  due soon task = true ->
  sns_publish_fault E (alert E task) = Some e ->
  DeadlineHandler.scan_loop E soon (before ++ task :: after) alerts t =
    (Raise e, t,
     published E (List.filter (due soon) before) ++ [(SnsPublish (alert E task), false)]).
Proof.
  intros Hread Hok Htask Hdue Hfault. revert alerts Hread Hok.
  induction before as [|task' before IH]; intros alerts Hread Hok.
  { cbn [app]. rewrite (scan_loop_step E soon task after alerts t Htask).
    by rewrite Hdue, Hfault. }
  cbn [forallb] in Hread. apply andb_true_iff in Hread as [Htask' Hread].
  cbn [app]. rewrite (scan_loop_step E soon task' _ alerts t Htask').
  cbn [List.filter].
  destruct (due soon task') eqn:Hdue'.
  - rewrite (Hok task'); [|by left|done].
    rewrite IH; [done|done|by intros task'' ?; apply Hok; right].
  - apply IH; [done|]. by intros task'' ?; apply Hok; right.
Qed.

Lemma scan_stops_at_a_failed_publish_witness :
  let soon := "2025-12-24T11:00:00.000000+00:00" in
  DeadlineHandler.scan_loop office_with_dead_topic soon
    ([] ++ record_t1 :: [record_t1]) [] office_table =
    (Raise (ClientError "InternalError"), office_table,
     published office_with_dead_topic (List.filter (due soon) []) ++
       [(SnsPublish (alert office_with_dead_topic record_t1), false)]).
Proof.
  intros soon.
  apply (scan_stops_at_a_failed_publish office_with_dead_topic soon [] [record_t1]
           record_t1 [] office_table (ClientError "InternalError")).
  - reflexivity.
  - intros task' H. by apply elem_of_nil in H.
  - by_evaluation.
  - by_evaluation.
  - reflexivity.
Defined.

(** * lambda/user/handler.py: the attributes of a listed user *)

(** X30. The listing shows, for each attribute name, the value of its last
    occurrence in the user's attributes, where the lookup of the task
    handler ([next] over the same list) takes the first. *)
Theorem listed_attribute_is_the_last (attrs : list (string * string)) (name : string) :
  UserHandler.attributes_dict attrs !! name = first_attr name (reverse attrs).
Proof.
  unfold UserHandler.attributes_dict.
  induction attrs as [|[n v] attrs IH] using rev_ind; [done|].
  rewrite foldl_app, reverse_app. cbn [foldl reverse app first_attr fst snd].
  unfold reverse at 1. cbn [rev_append app first_attr].
  destruct (String.eqb_spec n name) as [->|Hn].
  - by rewrite lookup_insert_eq.
  - by rewrite lookup_insert_ne.
Qed.
